(** * Material Planning Assistant: the reporting engine

    A shallow embedding of [material_planning_assistant.py]: the functions
    [calculate_project_status], [material_inquiry], [supplier_performance],
    [production_readiness] and the bucket and verdict part of
    [show_push_to_production], together with the pandas operations they
    are written with; then [get_latest_study_file] and the six other page
    views, [show_dashboard_overview], [show_project_health],
    [show_material_inquiry], [show_supplier_performance],
    [show_critical_projects] and [show_production_readiness].  [load_data]
    reads a workbook and [main] wires the widgets to the views; they are
    not part of the embedding.

    Conventions of the embedding.
    - Quantities ([req_qty], [allocated_qty], [balance]) and numeric delays
      are exact rationals [Q]; the source computes with machine floats, the
      embedding with their exact values.
    - A cell of the [delay] column is a Python value: a number or a string
      (the source compares it both with [0] and with ['late']).
    - The quantity and delay columns are populated in every row; only the
      columns the source itself tests for missing values ([supplier],
      [product]) and the date columns are nullable.
    - DataFrame objects bound to a name live in a heap and are referred to
      by reference; boolean indexing, [.copy()], column selection and
      aggregation allocate a new object, attribute and column assignment
      update an object in place.
    - A Python exception is an outcome of the computation, and the heap
      keeps what was allocated before it was raised.  pandas raises
      [TypeError] when [max] orders a number against a string and when
      [mean] meets a string, and [KeyError] when a column does not exist.
    - Rendering calls of the user interface and the spreadsheet exports
      are not modelled; what a view displays is returned as a value, and
      texts are given without their emoji.
    - The value of a selection box, a slider or a checkbox is a parameter
      of the view that reads it; so is the reading of the clock, and the
      listing of the working directory with the creation times of its
      entries. *)

From Stdlib Require Import String Ascii List ZArith QArith Bool Arith Lia Lqa.
From Stdlib Require Import Sorted Permutation.
Import ListNotations.
Local Open Scope string_scope.
Local Open Scope nat_scope.
Local Open Scope list_scope.

(* ------------------------------------------------------------------ *)
(** * Values *)

(** Exceptions the modelled code can raise.  [UnboundLocalError] is what
    Python raises when a local variable is read before any assignment. *)
Inductive exn := TypeError | KeyError | UnboundLocalError.

(** A Python value found in the [delay] column. *)
Inductive pyval :=
| Num (q : Q)
| Str (s : string).

(** [a == b] on Python values: a number never equals a string. *)
Definition py_eq (a b : pyval) : bool :=
  match a, b with
  | Num x, Num y => Qeq_bool x y
  | Str s, Str t => String.eqb s t
  | _, _ => false
  end.

(** [a != b]. *)
Definition py_ne (a b : pyval) : bool := negb (py_eq a b).

(** [a >= b]: numbers are ordered numerically, strings by code point;
    ordering a number against a string raises [TypeError]. *)
Definition py_ge (a b : pyval) : exn + bool :=
  match a, b with
  | Num x, Num y => inr (Qle_bool y x)
  | Str s, Str t => inr (String.leb t s)
  | _, _ => inl TypeError
  end.

Definition is_num (v : pyval) : bool :=
  match v with Num _ => true | Str _ => false end.

Definition is_str (v : pyval) : bool :=
  match v with Num _ => false | Str _ => true end.

(** [x > y] on quantities. *)
Definition Qgt_bool (x y : Q) : bool := negb (Qle_bool x y).

(** One row of the "Study" sheet. *)
Record DemandLine := {
  SEC_order : string;
  SEC_Number : string;
  product : option string;
  item : string;
  description : string;
  req_qty : Q;
  allocated_qty : Q;
  balance : Q;
  supply_type : string;
  source : string;
  locater : string;
  supplier : option string;
  delay : pyval;
  availability_date : option Z;
  ROH_delivery : option Z;
  SEC_delivery : option Z
}.

(* ------------------------------------------------------------------ *)
(** * pandas reductions over a column *)

(** [Series.sum()]. *)
Fixpoint series_sum (xs : list Q) : Q :=
  match xs with
  | [] => 0%Q
  | x :: xs' => (x + series_sum xs')%Q
  end.

(** [Series.max()] of a non-empty object column [acc :: vs]: a left fold
    of [a if a >= b else b]. *)
Fixpoint series_max (acc : pyval) (vs : list pyval) : exn + pyval :=
  match vs with
  | [] => inr acc
  | v :: vs' =>
      match py_ge acc v with
      | inl e => inl e
      | inr true => series_max acc vs'
      | inr false => series_max v vs'
      end
  end.

(** The numbers of a column, or [TypeError] at the first string. *)
Fixpoint numeric (vs : list pyval) : exn + list Q :=
  match vs with
  | [] => inr []
  | Num q :: vs' =>
      match numeric vs' with
      | inl e => inl e
      | inr qs => inr (q :: qs)
      end
  | Str _ :: _ => inl TypeError
  end.

(** [Series.mean()] of a non-empty object column. *)
Definition series_mean (vs : list pyval) : exn + Q :=
  match numeric vs with
  | inl e => inl e
  | inr qs => inr (series_sum qs / inject_Z (Z.of_nat (length qs)))%Q
  end.

(** [Series.min()] of a date column: missing dates are skipped. *)
Fixpoint series_min_date (ds : list (option Z)) : option Z :=
  match ds with
  | [] => None
  | None :: ds' => series_min_date ds'
  | Some d :: ds' =>
      match series_min_date ds' with
      | None => Some d
      | Some m => Some (Z.min d m)
      end
  end.

Section GroupKeys.
Variable K : Type.
Variables (key_eqb key_leb : K -> K -> bool).

(** [Series.unique()]: distinct values in order of first appearance. *)
Fixpoint unique (ks : list K) : list K :=
  match ks with
  | [] => []
  | k :: ks' => k :: filter (fun k' => negb (key_eqb k' k)) (unique ks')
  end.

(** Insertion of a key before the first key that is not smaller. *)
Fixpoint insert_key (k : K) (ks : list K) : list K :=
  match ks with
  | [] => [k]
  | k' :: ks' =>
      if key_leb k k' then k :: ks
      else k' :: insert_key k ks'
  end.

(** The keys of a [groupby]: distinct, in ascending order. *)
Definition group_keys (ks : list K) : list K :=
  fold_right insert_key [] (unique ks).
End GroupKeys.

Arguments unique {K} key_eqb ks.
Arguments insert_key {K} key_leb k ks.
Arguments group_keys {K} key_eqb key_leb ks.

(** Keys of a [groupby] on one string column. *)
Definition string_keys : list string -> list string :=
  group_keys String.eqb String.leb.

(** Keys of a [groupby] on two string columns, ordered as tuples. *)
Definition pair_eqb (a b : string * string) : bool :=
  String.eqb (fst a) (fst b) && String.eqb (snd a) (snd b).

Definition pair_leb (a b : string * string) : bool :=
  if String.eqb (fst a) (fst b) then String.leb (snd a) (snd b)
  else String.leb (fst a) (fst b).

Definition pair_keys : list (string * string) -> list (string * string) :=
  group_keys pair_eqb pair_leb.

Section SortValues.
Variable A : Type.
Variable by_ : A -> Q.

(** Insertion before the first row whose key is not larger. *)
Fixpoint insert_desc (a : A) (l : list A) : list A :=
  match l with
  | [] => [a]
  | x :: l' =>
      if Qle_bool (by_ x) (by_ a) then a :: l
      else x :: insert_desc a l'
  end.

(** [sort_values(by, ascending=False)]: the rows in descending order of
    the key.  pandas leaves the order of rows with equal keys open; the
    order chosen here keeps them as they were. *)
Definition sort_values_desc (l : list A) : list A :=
  fold_right insert_desc [] l.
End SortValues.

Arguments insert_desc {A} by_ a l.
Arguments sort_values_desc {A} by_ l.

(** [Series.isin(values)]. *)
Definition isin (s : string) (values : list string) : bool :=
  existsb (String.eqb s) values.

(** [df.empty] on the rows of a frame. *)
Definition empty {A} (rows : list A) : bool :=
  match rows with [] => true | _ :: _ => false end.

(* ------------------------------------------------------------------ *)
(** * Objects, heap and the computation monad *)

(** A cell of a display frame. *)
Inductive cell :=
| CNum (q : Q)
| CStr (s : string)
| CTime (t : Z)
| CNaN.

(** One row of the frame [supplier_performance] returns. *)
Record SupplierStat := {
  stat_supplier : string;
  delayed_items : nat;
  avg_delay_days : Q;
  max_delay_days : pyval;
  total_qty_delayed : Q
}.

(** Overall status of a project; the source spells them "Ready",
    "Critical" and "Partial". *)
Inductive Status := Ready | Critical | Partial.

(** One row of the frame [production_readiness] returns. *)
Record ReadinessRow := {
  rd_Project : string;
  rd_Status : Status;
  rd_Fulfillment : Q;
  rd_Missing_Items : nat;
  rd_Max_Delay : pyval;
  rd_SEC_Delivery : option Z
}.

(** DataFrame objects: a frame with the columns of the sheet, the two
    aggregated frames, and a frame of selected and renamed columns. *)
Inductive object :=
| Study (rows : list DemandLine)
| Stats (columns : list string) (rows : list SupplierStat)
| Readiness (rows : list ReadinessRow)
| Display (columns : list string) (body : list (list cell)).

Definition ref := nat.
Definition heap := list object.

(** A computation: from a heap to an outcome and the heap it leaves. *)
Definition M (A : Type) : Type := heap -> (exn + A) * heap.

Definition ret {A} (a : A) : M A := fun h => (inr a, h).

Definition raise {A} (e : exn) : M A := fun h => (inl e, h).

Definition bind {A B} (m : M A) (k : A -> M B) : M B :=
  fun h =>
    match m h with
    | (inl e, h') => (inl e, h')
    | (inr a, h') => k a h'
    end.

Notation "x <- m ;; k" := (bind m (fun x => k))
  (at level 61, m at next level, right associativity).
Notation "m ;; k" := (bind m (fun _ => k))
  (at level 61, right associativity).

(** The outcome of a pure reduction, as a computation. *)
Definition lift {A} (r : exn + A) : M A :=
  match r with
  | inl e => raise e
  | inr a => ret a
  end.

(** Allocation of a new object. *)
Definition new (o : object) : M ref :=
  fun h => (inr (length h), h ++ [o]).

(** The object a reference points to.  The source has no dangling
    reference; the error case is there to make the function total. *)
Definition load (r : ref) : M object :=
  fun h =>
    match nth_error h r with
    | Some o => (inr o, h)
    | None => (inl KeyError, h)
    end.

(** In-place replacement of the object at index [r]. *)
Fixpoint update (h : heap) (r : ref) (o : object) : heap :=
  match h, r with
  | [], _ => []
  | _ :: h', O => o :: h'
  | x :: h', S r' => x :: update h' r' o
  end.

Definition store (r : ref) (o : object) : M unit :=
  fun h => (inr tt, update h r o).

(** The rows of a Study frame. *)
Definition frame_rows (r : ref) : M (list DemandLine) :=
  o <- load r ;;
  match o with
  | Study rows => ret rows
  | _ => raise KeyError
  end.

(** [df[mask]]: boolean indexing yields a new frame. *)
Definition getitem_mask (r : ref) (mask : DemandLine -> bool) : M ref :=
  rows <- frame_rows r ;;
  new (Study (filter mask rows)).

(** [df.copy()]. *)
Definition copy (r : ref) : M ref :=
  o <- load r ;;
  new o.

(** [df.columns = names]: in place. *)
Definition set_columns (r : ref) (names : list string) : M unit :=
  o <- load r ;;
  match o with
  | Stats _ rows => store r (Stats names rows)
  | Display _ body => store r (Display names body)
  | _ => raise KeyError
  end.

(* ------------------------------------------------------------------ *)
(** * calculate_project_status *)

Record ProjectStatus := {
  status : Status;
  status_class : string;
  total_items : nat;
  ready_items : nat;
  partial_items : nat;
  missing_items : nat;
  total_req : Q;
  total_allocated : Q;
  total_balance : Q;
  fulfillment_pct : Q;
  max_delay : pyval;
  supply_breakdown : list (string * Q);
  sec_delivery : option Z;
  roh_delivery : option Z
}.

(** [groupby(key)[column].sum().to_dict()]. *)
Definition group_sum (key : DemandLine -> string) (column : DemandLine -> Q)
    (rows : list DemandLine) : list (string * Q) :=
  map (fun k =>
         (k, series_sum (map column (filter (fun r => String.eqb (key r) k) rows))))
      (string_keys (map key rows)).

Definition calculate_project_status (df : ref) (project : string)
    : M (option ProjectStatus) :=
  proj_data <- (t <- getitem_mask df (fun r => String.eqb (SEC_order r) project) ;;
                copy t) ;;
  rows <- frame_rows proj_data ;;
  if empty rows then ret None else
  let total_items := length rows in
  let total_req := series_sum (map req_qty rows) in
  let total_allocated := series_sum (map allocated_qty rows) in
  let total_balance := series_sum (map balance rows) in
  (* Status categorization *)
  let ready := length (filter (fun r => Qeq_bool (balance r) 0) rows) in
  let partial :=
    length (filter (fun r => Qgt_bool (balance r) 0 && Qgt_bool (allocated_qty r) 0)
                   rows) in
  let missing := length (filter (fun r => Qeq_bool (allocated_qty r) 0) rows) in
  (* Delay analysis *)
  delayed_items <- getitem_mask proj_data (fun r => py_ne (delay r) (Num 0)) ;;
  delayed_rows <- frame_rows delayed_items ;;
  max_delay <- match map delay delayed_rows with
               | [] => ret (Num 0)
               | v :: vs => lift (series_max v vs)
               end ;;
  (* Supply type breakdown *)
  let supply_breakdown := group_sum supply_type allocated_qty rows in
  (* Overall status *)
  let '(status, status_class) :=
    if Qeq_bool total_balance 0 then (Ready, "status-ready")
    else if (0 <? missing) || py_eq max_delay (Str "late")
         then (Critical, "status-critical")
         else (Partial, "status-partial") in
  ret (Some {|
    status := status;
    status_class := status_class;
    total_items := total_items;
    ready_items := ready;
    partial_items := partial;
    missing_items := missing;
    total_req := total_req;
    total_allocated := total_allocated;
    total_balance := total_balance;
    fulfillment_pct :=
      if Qgt_bool total_req 0 then (total_allocated / total_req * 100)%Q else 0%Q;
    max_delay := max_delay;
    supply_breakdown := supply_breakdown;
    sec_delivery := series_min_date (map SEC_delivery rows);
    roh_delivery := series_min_date (map ROH_delivery rows)
  |}).

(* ------------------------------------------------------------------ *)
(** * material_inquiry *)

(** A blocking-issue message; the source renders each as a sentence
    around the quantity, printed without decimals: "... units stuck in
    QC", "... units in GR process", "... units on delayed POs", "... units
    need PR creation". *)
Inductive issue :=
| StuckInQC (units : Q)
| InGRProcess (units : Q)
| OnDelayedPOs (units : Q)
| NeedPRCreation (units : Q).

Module Inquiry.
Record t := {
  description : string;
  total_req : Q;
  total_allocated : Q;
  total_balance : Q;
  allocation_by_project : list (string * (Q * Q * Q));
  supply_sources : list (string * string * Q);
  blocking_issues : list issue;
  item_data : ref
}.
End Inquiry.

(** [list.append] under [if not frame.empty]. *)
Definition append_if {A} (rows : list A) (msg : issue) (issues : list issue)
    : list issue :=
  if empty rows then issues else issues ++ [msg].

Definition material_inquiry (df : ref) (item_code : string)
    : M (option Inquiry.t) :=
  item_data <- (t <- getitem_mask df (fun r => String.eqb (item r) item_code) ;;
                copy t) ;;
  rows <- frame_rows item_data ;;
  match rows with
  | [] => ret None
  | first :: _ =>
    let total_req := series_sum (map req_qty rows) in
    let total_allocated := series_sum (map allocated_qty rows) in
    let total_balance := series_sum (map balance rows) in
    (* Where is it allocated? *)
    let allocation_by_project :=
      map (fun k =>
             let g := filter (fun r => String.eqb (SEC_order r) k) rows in
             (k, (series_sum (map req_qty g),
                  series_sum (map allocated_qty g),
                  series_sum (map balance g))))
          (string_keys (map SEC_order rows)) in
    (* Supply sources *)
    let supply_sources :=
      map (fun k =>
             let g := filter (fun r => pair_eqb (supply_type r, source r) k) rows in
             (k, series_sum (map allocated_qty g)))
          (pair_keys (map (fun r => (supply_type r, source r)) rows)) in
    (* Blocking issues *)
    let blocking_issues := [] in
    qc_items <- getitem_mask item_data (fun r => String.eqb (supply_type r) "QC") ;;
    qc_rows <- frame_rows qc_items ;;
    let blocking_issues :=
      append_if qc_rows (StuckInQC (series_sum (map allocated_qty qc_rows)))
                blocking_issues in
    gr_items <- getitem_mask item_data
                  (fun r => String.eqb (supply_type r) "GR_in_process") ;;
    gr_rows <- frame_rows gr_items ;;
    let blocking_issues :=
      append_if gr_rows (InGRProcess (series_sum (map allocated_qty gr_rows)))
                blocking_issues in
    po_late <- getitem_mask item_data
                 (fun r => String.eqb (supply_type r) "PO"
                           && py_eq (delay r) (Str "late")) ;;
    po_rows <- frame_rows po_late ;;
    let blocking_issues :=
      append_if po_rows (OnDelayedPOs (series_sum (map allocated_qty po_rows)))
                blocking_issues in
    pr_items <- getitem_mask item_data (fun r => String.eqb (supply_type r) "PR") ;;
    pr_rows <- frame_rows pr_items ;;
    let blocking_issues :=
      append_if pr_rows (NeedPRCreation (series_sum (map balance pr_rows)))
                blocking_issues in
    ret (Some {|
      Inquiry.description := description first;
      Inquiry.total_req := total_req;
      Inquiry.total_allocated := total_allocated;
      Inquiry.total_balance := total_balance;
      Inquiry.allocation_by_project := allocation_by_project;
      Inquiry.supply_sources := supply_sources;
      Inquiry.blocking_issues := blocking_issues;
      Inquiry.item_data := item_data
    |})
  end.

(* ------------------------------------------------------------------ *)
(** * supplier_performance *)

(** [Series.notna()] on the supplier column. *)
Definition notna {A} (o : option A) : bool :=
  match o with Some _ => true | None => false end.

Definition supplier_is (k : string) (r : DemandLine) : bool :=
  match supplier r with
  | Some s => String.eqb s k
  | None => false
  end.

(** The suppliers of the rows, rows without one left out. *)
Fixpoint suppliers (rows : list DemandLine) : list string :=
  match rows with
  | [] => []
  | r :: rows' =>
      match supplier r with
      | Some s => s :: suppliers rows'
      | None => suppliers rows'
      end
  end.

(** The aggregates of one group: [count], [mean] and [max] of its delays
    and the [sum] of its allocated quantity.  A group is never empty.
    pandas computes each aggregate for all groups in turn; the only
    exception any of them raises is [TypeError], so the order does not
    show in the outcome. *)
Definition agg_group (k : string) (group : list DemandLine)
    : exn + SupplierStat :=
  let delays := map delay group in
  match series_mean delays with
  | inl e => inl e
  | inr mean =>
      match (match delays with
             | [] => inr (Num 0)
             | v :: vs => series_max v vs
             end) with
      | inl e => inl e
      | inr mx =>
          inr {| stat_supplier := k;
                 delayed_items := length delays;
                 avg_delay_days := mean;
                 max_delay_days := mx;
                 total_qty_delayed := series_sum (map allocated_qty group) |}
      end
  end.

(** [groupby('supplier').agg(...)] followed by [reset_index()]: one row
    per supplier, in ascending order of the supplier. *)
Fixpoint agg_groups (keys : list string) (rows : list DemandLine)
    : exn + list SupplierStat :=
  match keys with
  | [] => inr []
  | k :: keys' =>
      match agg_group k (filter (supplier_is k) rows) with
      | inl e => inl e
      | inr s =>
          match agg_groups keys' rows with
          | inl e => inl e
          | inr ss => inr (s :: ss)
          end
      end
  end.

Definition groupby_supplier_agg (rows : list DemandLine)
    : exn + list SupplierStat :=
  agg_groups (string_keys (suppliers rows)) rows.

(** [frame.sort_values('avg_delay_days', ascending=False)]: a new frame. *)
Definition sort_stats (r : ref) : M ref :=
  o <- load r ;;
  match o with
  | Stats cols rows => new (Stats cols (sort_values_desc avg_delay_days rows))
  | _ => raise KeyError
  end.

(** The aggregated frame first carries the two-level column names of
    [agg], then the five names assigned to [columns]. *)
Definition supplier_performance (df : ref) : M (option ref) :=
  supplier_data <- (t <- getitem_mask df (fun r => notna (supplier r)) ;;
                    copy t) ;;
  rows <- frame_rows supplier_data ;;
  if empty rows then ret None else
  (* Calculate delays by supplier *)
  delayed <- (t <- getitem_mask supplier_data (fun r => py_ne (delay r) (Num 0)) ;;
              copy t) ;;
  delayed_rows <- frame_rows delayed ;;
  stats <- lift (groupby_supplier_agg delayed_rows) ;;
  supplier_stats <- new (Stats ["supplier"; "delay count"; "delay mean";
                                "delay max"; "allocated_qty sum"] stats) ;;
  set_columns supplier_stats
    ["supplier"; "delayed_items"; "avg_delay_days"; "max_delay_days";
     "total_qty_delayed"] ;;
  supplier_stats <- sort_stats supplier_stats ;;
  ret (Some supplier_stats).

(* ------------------------------------------------------------------ *)
(** * production_readiness *)

(** The loop over the projects: one row per project with a status. *)
Fixpoint readiness_loop (df : ref) (projects : list string)
    : M (list ReadinessRow) :=
  match projects with
  | [] => ret []
  | project :: projects' =>
      status_info <- calculate_project_status df project ;;
      rest <- readiness_loop df projects' ;;
      ret (match status_info with
           | Some st =>
               {| rd_Project := project;
                  rd_Status := status st;
                  rd_Fulfillment := fulfillment_pct st;
                  rd_Missing_Items := missing_items st;
                  rd_Max_Delay := max_delay st;
                  rd_SEC_Delivery := sec_delivery st |} :: rest
           | None => rest
           end)
  end.

(** [pd.DataFrame(readiness_list)] and [sort_values('Fulfillment %',
    ascending=False)]; a frame built from an empty list has no column
    of that name. *)
Definition production_readiness (df : ref) : M ref :=
  rows <- frame_rows df ;;
  let projects := unique String.eqb (map SEC_order rows) in
  readiness_list <- readiness_loop df projects ;;
  readiness_df <- new (Readiness readiness_list) ;;
  if empty readiness_list then raise KeyError else
  new (Readiness (sort_values_desc rd_Fulfillment readiness_list)).

(* ------------------------------------------------------------------ *)
(** * show_push_to_production *)

Definition cell_of_option (o : option string) : cell :=
  match o with Some s => CStr s | None => CNaN end.

Definition cell_of_date (o : option Z) : cell :=
  match o with Some t => CTime t | None => CNaN end.

Definition cell_of_pyval (v : pyval) : cell :=
  match v with Num q => CNum q | Str s => CStr s end.

(** The columns of the sheet, by name. *)
Definition study_columns : list (string * (DemandLine -> cell)) :=
  [ ("SEC order", fun r => CStr (SEC_order r));
    ("SEC Number", fun r => CStr (SEC_Number r));
    ("product", fun r => cell_of_option (product r));
    ("item", fun r => CStr (item r));
    ("description", fun r => CStr (description r));
    ("req_qty", fun r => CNum (req_qty r));
    ("allocated_qty", fun r => CNum (allocated_qty r));
    ("balance", fun r => CNum (balance r));
    ("supply_type", fun r => CStr (supply_type r));
    ("source", fun r => CStr (source r));
    ("locater", fun r => CStr (locater r));
    ("supplier", fun r => cell_of_option (supplier r));
    ("delay", fun r => cell_of_pyval (delay r));
    ("availability_date", fun r => cell_of_date (availability_date r));
    ("ROH delivery", fun r => cell_of_date (ROH_delivery r));
    ("SEC delivery", fun r => cell_of_date (SEC_delivery r)) ].

Fixpoint assoc {V} (name : string) (l : list (string * V)) : option V :=
  match l with
  | [] => None
  | (k, v) :: l' => if String.eqb name k then Some v else assoc name l'
  end.

(** The accessors of the named columns; [KeyError] at an unknown name. *)
Fixpoint accessors (cols : list string) : exn + list (DemandLine -> cell) :=
  match cols with
  | [] => inr []
  | c :: cols' =>
      match assoc c study_columns, accessors cols' with
      | Some f, inr fs => inr (f :: fs)
      | None, _ => inl KeyError
      | _, inl e => inl e
      end
  end.

(** [frame[[c1, ..., cn]].copy()]: a new frame of the selected columns. *)
Definition getitem_cols (r : ref) (cols : list string) : M ref :=
  rows <- frame_rows r ;;
  fs <- lift (accessors cols) ;;
  t <- new (Display cols (map (fun row => map (fun f => f row) fs) rows)) ;;
  copy t.

(** Position of a column name. *)
Fixpoint index_of (name : string) (cols : list string) : option nat :=
  match cols with
  | [] => None
  | c :: cols' =>
      if String.eqb name c then Some 0
      else option_map S (index_of name cols')
  end.

(** [frame[new_name] = frame[src].apply(f)]: a column added in place. *)
Definition setitem_apply (r : ref) (new_name src : string) (f : cell -> cell)
    : M unit :=
  o <- load r ;;
  match o with
  | Display cols body =>
      match index_of src cols with
      | Some i =>
          store r (Display (cols ++ [new_name])
                           (map (fun row => row ++ [f (nth i row CNaN)]) body))
      | None => raise KeyError
      end
  | _ => raise KeyError
  end.

Inductive FilterType := SEC_Order_filter | SEC_Number_filter | Product_filter.

(** The mask [df[column].isin(selected)] of the chosen filter. *)
Definition selection_mask (filter_type : FilterType) (selected : list string)
    (r : DemandLine) : bool :=
  match filter_type with
  | SEC_Order_filter => isin (SEC_order r) selected
  | SEC_Number_filter => isin (SEC_Number r) selected
  | Product_filter =>
      match product r with
      | Some p => isin p selected
      | None => false
      end
  end.

(** The mask of the reallocation bucket. *)
Definition needs_reallocation (selected : list string) (r : DemandLine) : bool :=
  String.eqb (supply_type r) "inventory"
  && negb (String.eqb (source r) "free_stock")
  && negb (isin (source r) (if empty selected then [] else selected)).

(** The mask of the missing bucket. *)
Definition is_missing (r : DemandLine) : bool :=
  Qgt_bool (balance r) 0 && Qeq_bool (allocated_qty r) 0.

Definition rename_column (col : string) : string :=
  match assoc col [ ("item", "Item Code"); ("description", "Description");
                    ("allocated_qty", "Qty to Reallocate"); ("SEC order", "Project");
                    ("source", "Source Project"); ("locater", "Locater") ] with
  | Some name => name
  | None => col
  end.

Definition action_required (x : cell) : cell :=
  match x with
  | CStr s =>
      if negb (isin s ["free_stock"; "-"])
      then CStr "Needs Approval" else CStr "Can Reallocate"
  | _ => CStr "Needs Approval"
  end.

Module Push.
(** The five bucket frames. *)
Record Buckets := {
  qc_items : ref;
  gr_items : ref;
  wip_items : ref;
  allocate_items : ref;
  missing_items : ref
}.

Inductive Verdict :=
| AllClear
| AlmostReady (total_blocking : nat)
| NotReady (total_blocking : nat).

(** What the view shows: the prompt to select something, or the
    buckets with the verdict. *)
Inductive View :=
| SelectPrompt
| ActionPlan (b : Buckets) (v : Verdict).
End Push.

(** A bucket: the masked rows as a new frame and, when there are any,
    its display frame with renamed columns. *)
Definition bucket (filtered_df : ref) (mask : DemandLine -> bool)
    (cols names : list string) : M ref :=
  items <- (t <- getitem_mask filtered_df mask ;; copy t) ;;
  rows <- frame_rows items ;;
  (if empty rows then ret tt
   else (display <- getitem_cols items cols ;;
         set_columns display names)) ;;
  ret items.

(** The display frame of the reallocation bucket: the columns that
    exist, renamed, and the column that tells whether approval is needed. *)
Definition reallocation_display (allocate_items : ref) : M unit :=
  let base_cols := ["item"; "description"; "allocated_qty"; "SEC order";
                    "source"; "locater"] in
  let display_cols :=
    filter (fun c => notna (assoc c study_columns)) base_cols in
  allocate_display <- getitem_cols allocate_items display_cols ;;
  set_columns allocate_display (map rename_column display_cols) ;;
  if isin "Source Project" (map rename_column display_cols)
  then setitem_apply allocate_display "Action Required" "Source Project"
         action_required
  else ret tt.

(** Sections 1 to 5 of the view: the five buckets. *)
Definition blocker_buckets (filtered_df : ref) (selected : list string)
    : M Push.Buckets :=
  (* 1. Materials Stopped at QC *)
  qc_items <- bucket filtered_df (fun r => String.eqb (supply_type r) "QC")
    ["item"; "description"; "allocated_qty"; "locater"; "supplier";
     "availability_date"]
    ["Item Code"; "Description"; "Qty in QC"; "PO-Line"; "Supplier";
     "Received Date"] ;;
  (* 2. Materials Pending GR *)
  gr_items <- bucket filtered_df
    (fun r => String.eqb (supply_type r) "GR_in_process")
    ["item"; "description"; "allocated_qty"; "locater"; "supplier";
     "availability_date"]
    ["Item Code"; "Description"; "Qty Pending GR"; "PO-Line"; "Supplier";
     "Receipt Date"] ;;
  (* 3. Materials in WIP *)
  wip_items <- bucket filtered_df (fun r => String.eqb (locater r) "1-1-1-1")
    ["item"; "description"; "allocated_qty"; "source"; "locater"]
    ["Item Code"; "Description"; "Available Qty"; "Source Job"; "Locater"] ;;
  (* 4. Materials to Allocate (from Other Jobs) *)
  allocate_items <- (t <- getitem_mask filtered_df (needs_reallocation selected) ;;
                     copy t) ;;
  allocate_rows <- frame_rows allocate_items ;;
  (if empty allocate_rows then ret tt
   else reallocation_display allocate_items) ;;
  (* 5. Missing Materials (PRs Required) *)
  missing_items <- bucket filtered_df is_missing
    ["item"; "description"; "req_qty"; "balance"]
    ["Item Code"; "Description"; "Required Qty"; "Missing Qty"] ;;
  ret {| Push.qc_items := qc_items;
         Push.gr_items := gr_items;
         Push.wip_items := wip_items;
         Push.allocate_items := allocate_items;
         Push.missing_items := missing_items |}.

(** Reading a local variable that may not have been assigned. *)
Definition read_local {A} (x : option A) : M A :=
  match x with
  | Some a => ret a
  | None => raise UnboundLocalError
  end.

(** [a and b], the right operand evaluated only when the left is true. *)
Definition and_then (a : bool) (b : M bool) : M bool :=
  if a then b else ret false.

(** The overall readiness assessment. *)
Definition readiness_verdict (b : Push.Buckets) (fulfillment : option Q)
    : M Push.Verdict :=
  qc_rows <- frame_rows (Push.qc_items b) ;;
  gr_rows <- frame_rows (Push.gr_items b) ;;
  missing_rows <- frame_rows (Push.missing_items b) ;;
  let total_blocking := length qc_rows + length gr_rows + length missing_rows in
  c <- and_then (total_blocking =? 0)
         (f <- read_local fulfillment ;; ret (Qle_bool 100 f)) ;;
  if c then ret Push.AllClear else
  c <- and_then (total_blocking <=? 3)
         (f <- read_local fulfillment ;; ret (Qle_bool 90 f)) ;;
  if c then ret (Push.AlmostReady total_blocking)
  else ret (Push.NotReady total_blocking).

(** The view for the filter and the values chosen in the selection
    widgets.  With nothing selected [filtered_df] is [pd.DataFrame()], a
    frame without rows. *)
Definition show_push_to_production (df : ref) (filter_type : FilterType)
    (selected : list string) : M Push.View :=
  filtered_df <- (if empty selected then new (Study [])
                  else (t <- getitem_mask df (selection_mask filter_type selected) ;;
                        copy t)) ;;
  rows <- frame_rows filtered_df ;;
  let fulfillment :=
    if negb (empty rows) && Qgt_bool (series_sum (map req_qty rows)) 0
    then Some (series_sum (map allocated_qty rows)
               / series_sum (map req_qty rows) * 100)%Q
    else None in
  if empty rows || empty selected then ret Push.SelectPrompt else
  b <- blocker_buckets filtered_df selected ;;
  v <- readiness_verdict b fulfillment ;;
  ret (Push.ActionPlan b v).

(* ------------------------------------------------------------------ *)
(** * Vocabulary of the properties and example tables *)

(** The rows of a project. *)
Definition project_rows (project : string) (table : list DemandLine)
    : list DemandLine :=
  filter (fun r => String.eqb (SEC_order r) project) table.

(** The delays that differ from [0]. *)
Definition nonzero_delays (rows : list DemandLine) : list pyval :=
  map delay (filter (fun r => py_ne (delay r) (Num 0)) rows).

(** The maximum the function computes from them. *)
Definition max_of (delays : list pyval) : exn + pyval :=
  match delays with
  | [] => inr (Num 0)
  | v :: vs => series_max v vs
  end.

(** A column can be reduced by [max] when its values are all numbers or
    all strings. *)
Definition comparable (vs : list pyval) : bool :=
  forallb is_num vs || forallb is_str vs.

(** A row given by the fields the rules look at. *)
Definition line (order itm stype src loc : string) (sup : option string)
    (req alloc bal : Q) (d : pyval) : DemandLine :=
  {| SEC_order := order; SEC_Number := order; product := None;
     item := itm; description := "-";
     req_qty := req; allocated_qty := alloc; balance := bal;
     supply_type := stype; source := src; locater := loc;
     supplier := sup; delay := d;
     availability_date := None; ROH_delivery := None; SEC_delivery := None |}.

(** Project "P1": one line fully covered from stock, one with no supply. *)
Definition p1_table : list DemandLine :=
  [ line "P1" "ITM1" "inventory" "free_stock" "-" None 10 10 0 (Num 0);
    line "P1" "ITM2" "PR" "-" "-" None 5 0 5 (Num 0) ].

(** Project "P2": a covered line and a line that requires nothing. *)
Definition p2_table : list DemandLine :=
  [ line "P2" "ITM1" "inventory" "free_stock" "-" None 10 10 0 (Num 0);
    line "P2" "ITM3" "inventory" "free_stock" "-" None 0 0 0 (Num 0) ].

(** Project "P3": a purchase order five days late and one known late. *)
Definition p3_table : list DemandLine :=
  [ line "P3" "ITM1" "PO" "PO-1" "-" (Some "ACME") 10 10 0 (Num 5);
    line "P3" "ITM2" "PO" "PO-2" "-" (Some "ACME") 5 0 5 (Str "late") ].

(** Two suppliers: one five days late, one known late. *)
Definition p7_table : list DemandLine :=
  [ line "P7" "ITM1" "PO" "PO-1" "-" (Some "ACME") 10 10 0 (Num 5);
    line "P7" "ITM2" "PO" "PO-2" "-" (Some "BOLT") 5 0 5 (Str "late") ].

(** Three suppliers with numeric delays and one row on time. *)
Definition p8_table : list DemandLine :=
  [ line "P8" "ITM1" "PO" "PO-1" "-" (Some "BOLT") 10 10 0 (Num 3);
    line "P8" "ITM2" "PO" "PO-2" "-" (Some "ACME") 5 5 0 (Num 7);
    line "P8" "ITM3" "PO" "PO-3" "-" (Some "ACME") 5 5 0 (Num 0);
    line "P8" "ITM4" "PO" "PO-4" "-" (Some "CORE") 5 5 0 (Num 1);
    line "P8" "ITM5" "PO" "PO-5" "-" (Some "BOLT") 5 5 0 (Num 2);
    line "P8" "ITM6" "inventory" "free_stock" "-" None 5 5 0 (Num 0) ].

(** Project "P4": a line whose allocation was reversed. *)
Definition p4_table : list DemandLine :=
  [ line "P4" "ITM1" "inventory" "free_stock" "-" None 10 (-5) 15 (Num 0) ].

(** Descending order of a sort key. *)
Definition desc {A} (by_ : A -> Q) (a b : A) : Prop := (by_ b <= by_ a)%Q.

(** The rows with a supplier, and those of them with a non-zero delay. *)
Definition supplier_rows (table : list DemandLine) : list DemandLine :=
  filter (fun r => notna (supplier r)) table.

Definition delayed_rows (table : list DemandLine) : list DemandLine :=
  filter (fun r => py_ne (delay r) (Num 0)) (supplier_rows table).

(** The column names of the frame [supplier_performance] returns. *)
Definition stats_columns : list string :=
  ["supplier"; "delayed_items"; "avg_delay_days"; "max_delay_days";
   "total_qty_delayed"].

(** The rows of an item, and those of a supply type. *)
Definition item_rows (item_code : string) (table : list DemandLine)
    : list DemandLine :=
  filter (fun r => String.eqb (item r) item_code) table.

Definition of_type (stype : string) (rows : list DemandLine) : list DemandLine :=
  filter (fun r => String.eqb (supply_type r) stype) rows.

Definition late_orders (rows : list DemandLine) : list DemandLine :=
  filter (fun r => String.eqb (supply_type r) "PO" && py_eq (delay r) (Str "late"))
         rows.

(** Item "ITM1": three units held in quality control, two on a
    purchase requisition. *)
Definition itm1_table : list DemandLine :=
  [ line "P1" "ITM1" "QC" "PO-7" "-" (Some "ACME") 3 3 0 (Num 0);
    line "P2" "ITM1" "PR" "-" "-" None 2 0 2 (Num 0) ].

(** Item "ITM5": a quality-control row that holds nothing. *)
Definition itm5_table : list DemandLine :=
  [ line "P1" "ITM5" "QC" "PO-8" "-" (Some "ACME") 4 0 4 (Num 0) ].

(** Selection {"ProjA"}: stock reserved for "ProjB" and free stock. *)
Definition from_ProjB : DemandLine :=
  line "ProjA" "ITM1" "inventory" "ProjB" "A-1" None 4 4 0 (Num 0).

Definition from_free_stock : DemandLine :=
  line "ProjA" "ITM2" "inventory" "free_stock" "A-2" None 6 6 0 (Num 0).

Definition projA_rows : list DemandLine := [from_ProjB; from_free_stock].

(** A row held in quality control that sits at the WIP locater. *)
Definition qc_on_floor : DemandLine :=
  line "ProjA" "ITM3" "QC" "PO-9" "1-1-1-1" (Some "ACME") 8 0 8 (Num 0).

(** The rows a selection keeps. *)
Definition selected_rows (filter_type : FilterType) (selected : list string)
    (table : list DemandLine) : list DemandLine :=
  filter (selection_mask filter_type selected) table.

(** The number of blocking rows: QC-held, GR-pending and missing. *)
Definition blocker_count (rows : list DemandLine) : nat :=
  length (filter (fun r => String.eqb (supply_type r) "QC") rows)
  + length (filter (fun r => String.eqb (supply_type r) "GR_in_process") rows)
  + length (filter is_missing rows).

(** The value of the local variable [fulfillment]. *)
Definition fulfillment_of (rows : list DemandLine) : option Q :=
  if negb (empty rows) && Qgt_bool (series_sum (map req_qty rows)) 0
  then Some (series_sum (map allocated_qty rows)
             / series_sum (map req_qty rows) * 100)%Q
  else None.

(** The outcome of the assessment for a blocker count and a value of
    [fulfillment]. *)
Definition verdict_of (n : nat) (fulfillment : option Q) : exn + Push.Verdict :=
  match fulfillment with
  | Some f =>
      if (n =? 0) && Qle_bool 100 f then inr Push.AllClear
      else if (n <=? 3) && Qle_bool 90 f then inr (Push.AlmostReady n)
      else inr (Push.NotReady n)
  | None =>
      if n <=? 3 then inl UnboundLocalError else inr (Push.NotReady n)
  end.

(** A line that requires nothing. *)
Definition nothing_required : DemandLine :=
  line "P5" "ITM4" "inventory" "free_stock" "A-3" None 0 0 0 (Num 0).

(** Four rows held in quality control for lines that require nothing. *)
Definition held (itm : string) : DemandLine :=
  line "P6" itm "QC" "PO-3" "-" (Some "ACME") 0 0 0 (Num 0).

Definition p6_table : list DemandLine :=
  [held "ITM1"; held "ITM2"; held "ITM3"; held "ITM4"].

(** [keeps n m Q]: run in a heap of at least [n] objects, [m] leaves the
    first [n] objects as they are, and a value it returns satisfies [Q]. *)
Definition keeps (n : nat) {A} (m : M A) (Q : A -> Prop) : Prop :=
  forall h, n <= length h ->
    firstn n (snd (m h)) = firstn n h
    /\ n <= length (snd (m h))
    /\ match fst (m h) with
       | inr a => Q a
       | inl _ => True
       end.

(** [preserves m]: the heap after [m] is the heap before it, followed by
    the objects [m] allocated. *)
Definition preserves {A} (m : M A) : Prop :=
  forall h, exists ext, snd (m h) = h ++ ext.

(* ------------------------------------------------------------------ *)
(** * Vocabulary of the further properties *)

(** The outcome of [calculate_project_status] for a table: the heap the
    table lives in does not show in it. *)
Definition project_status (table : list DemandLine) (project : string)
    : exn + option ProjectStatus :=
  fst (calculate_project_status 0 project [Study table]).

(** Every delay of the rows is a number. *)
Definition numeric_delays (rows : list DemandLine) : bool :=
  forallb is_num (map delay rows).

(** The two date columns of project "P1" filled in for one line. *)
Definition dated (d : DemandLine) (sec roh : option Z) : DemandLine :=
  {| SEC_order := SEC_order d; SEC_Number := SEC_Number d; product := product d;
     item := item d; description := description d;
     req_qty := req_qty d; allocated_qty := allocated_qty d; balance := balance d;
     supply_type := supply_type d; source := source d; locater := locater d;
     supplier := supplier d; delay := delay d;
     availability_date := availability_date d;
     ROH_delivery := roh; SEC_delivery := sec |}.

(** A selector of groups picks each row for exactly one key. *)
Definition picks_one {A K} (sel : K -> A -> bool) (keys : list K)
    (rows : list A) : Prop :=
  forall r, In r rows ->
    exists k0, In k0 keys /\ forall k, In k keys -> (sel k r = true <-> k = k0).

(** Project "P1" with delivery dates on its two lines. *)
Definition p1_dated : list DemandLine :=
  [ dated (line "P1" "ITM1" "inventory" "free_stock" "-" None 10 10 0 (Num 0))
          (Some 200%Z) None;
    dated (line "P1" "ITM2" "PR" "-" "-" None 5 0 5 (Num 0))
          (Some 100%Z) None ].

(** The earliest date of a column of the rows. *)
Definition earliest (column : DemandLine -> option Z) (rows : list DemandLine)
    (result : option Z) : Prop :=
  (result = None <-> forall r, In r rows -> column r = None)
  /\ forall m, result = Some m ->
       (exists r, In r rows /\ column r = Some m)
       /\ forall r d, In r rows -> column r = Some d -> (m <= d)%Z.

(** Every project of the table has non-zero delays that can be compared
    with one another. *)
Definition comparable_projects (table : list DemandLine) : bool :=
  forallb (fun p => comparable (nonzero_delays (project_rows p table)))
          (map SEC_order table).

(** A row of the readiness frame carries the status of its project. *)
Definition row_of_status (table : list DemandLine) (row : ReadinessRow) : Prop :=
  exists st,
    project_status table (rd_Project row) = inr (Some st)
    /\ rd_Status row = status st
    /\ rd_Fulfillment row = fulfillment_pct st
    /\ rd_Missing_Items row = missing_items st
    /\ rd_Max_Delay row = max_delay st
    /\ rd_SEC_Delivery row = sec_delivery st.

(** A study of three projects: "P1" short of an item, "P2" and "P8"
    covered. *)
Definition plant_table : list DemandLine := p1_table ++ p2_table ++ p8_table.

(* ------------------------------------------------------------------ *)
(** * get_latest_study_file *)

(** The working directory as [glob] finds it: the names of its entries
    with the creation time [os.path.getctime] gives for each, in the
    order the directory is listed.  File names are matched as on a POSIX
    system, where case matters; reading the creation time of a listed
    entry succeeds. *)
Definition listing := list (string * Q).

(** [suffix] ends the name. *)
Definition ends_with (suffix name : string) : bool :=
  let n := String.length name in
  let m := String.length suffix in
  (m <=? n) && String.eqb (substring (n - m) m name) suffix.

(** A pattern [pre*suf] of [fnmatch]: the star stands for any text,
    the empty one included. *)
Definition fnmatch_star (pre suf name : string) : bool :=
  (String.length pre + String.length suf <=? String.length name)
  && prefix pre name && ends_with suf name.

(** [sub in name]. *)
Fixpoint contains (sub name : string) : bool :=
  prefix sub name
  || match name with
     | EmptyString => false
     | String _ name' => contains sub name'
     end.

(** [glob.glob("MV_Material_Study-*.xlsx")]. *)
Definition is_study_file (name : string) : bool :=
  fnmatch_star "MV_Material_Study-" ".xlsx" name.

(** [glob.glob("*.xlsx")]: a pattern that does not start with a dot
    skips the hidden entries. *)
Definition is_xlsx (name : string) : bool :=
  negb (prefix "." name) && fnmatch_star "" ".xlsx" name.

Definition named_like_study (name : string) : bool :=
  contains "Material" name || contains "material" name
  || contains "Study" name || contains "study" name.

(** [max(files, key=os.path.getctime)] of a non-empty list: the first
    entry among those of greatest key. *)
Fixpoint max_by_ctime (best : string * Q) (files : listing) : string * Q :=
  match files with
  | [] => best
  | f :: files' =>
      if Qgt_bool (snd f) (snd best) then max_by_ctime f files'
      else max_by_ctime best files'
  end.

Definition get_latest_study_file (dir : listing) : option string :=
  let files := filter (fun f => is_study_file (fst f)) dir in
  let files :=
    if empty files
    then filter (fun f => named_like_study (fst f))
                (filter (fun f => is_xlsx (fst f)) dir)
    else files in
  match files with
  | [] => None
  | f :: files' => Some (fst (max_by_ctime f files'))
  end.

(** The entries [get_latest_study_file] chooses from. *)
Definition study_candidates (dir : listing) : listing :=
  if existsb (fun f => is_study_file (fst f)) dir
  then filter (fun f => is_study_file (fst f)) dir
  else filter (fun f => is_xlsx (fst f) && named_like_study (fst f)) dir.

(** A directory with two exports and a newer workbook of another name. *)
Definition reports_dir : listing :=
  [ ("MV_Material_Study-2024-01.xlsx", 100%Q);
    ("Study_notes.xlsx", 900%Q);
    ("MV_Material_Study-2024-02.xlsx", 200%Q);
    ("budget.xlsx", 950%Q) ].

(* ------------------------------------------------------------------ *)
(** * Frame operations of the other views *)

(** [frame[[c1, ..., cn]]] on a frame of the sheet: a new frame of the
    named columns. *)
Definition select_columns (r : ref) (cols : list string) : M ref :=
  rows <- frame_rows r ;;
  fs <- lift (accessors cols) ;;
  new (Display cols (map (fun row => map (fun f => f row) fs) rows)).

(** [[col for col in display_cols if col in frame.columns]] on a frame
    of the sheet. *)
Definition available_cols (display_cols : list string) : list string :=
  filter (fun c => notna (assoc c study_columns)) display_cols.

(** [frame.head(n)]: the first [n] rows, as a new frame. *)
Definition head (r : ref) (n : nat) : M ref :=
  o <- load r ;;
  new (match o with
       | Study rows => Study (firstn n rows)
       | Stats cols rows => Stats cols (firstn n rows)
       | Readiness rows => Readiness (firstn n rows)
       | Display cols body => Display cols (firstn n body)
       end).

(** The rows of a frame of supplier statistics, and of a readiness
    frame. *)
Definition stats_rows (r : ref) : M (list SupplierStat) :=
  o <- load r ;;
  match o with
  | Stats _ rows => ret rows
  | _ => raise KeyError
  end.

Definition readiness_rows (r : ref) : M (list ReadinessRow) :=
  o <- load r ;;
  match o with
  | Readiness rows => ret rows
  | _ => raise KeyError
  end.

(** [readiness_df[mask]]. *)
Definition getitem_readiness (r : ref) (mask : ReadinessRow -> bool) : M ref :=
  rows <- readiness_rows r ;;
  new (Readiness (filter mask rows)).

(** [frame[name] = frame.apply(f, axis=1)] on a frame of the sheet: the
    column computed from each row is added in place, after the sixteen
    columns of the sheet. *)
Definition setitem_apply_rows (r : ref) (name : string) (f : DemandLine -> cell)
    : M unit :=
  o <- load r ;;
  match o with
  | Study rows =>
      store r (Display (map fst study_columns ++ [name])
                       (map (fun row => map (fun c => snd c row) study_columns
                                        ++ [f row]) rows))
  | _ => raise KeyError
  end.

(** The positions of the named columns; none when a name is unknown. *)
Fixpoint positions (cols names : list string) : option (list nat) :=
  match cols with
  | [] => Some []
  | c :: cols' =>
      match index_of c names, positions cols' names with
      | Some i, Some l => Some (i :: l)
      | _, _ => None
      end
  end.

(** [frame[[c1, ..., cn]]] on a frame of cells. *)
Definition getitem_display_cols (r : ref) (cols : list string) : M ref :=
  o <- load r ;;
  match o with
  | Display names body =>
      match positions cols names with
      | Some l =>
          new (Display cols (map (fun row => map (fun i => nth i row CNaN) l) body))
      | None => raise KeyError
      end
  | _ => raise KeyError
  end.

(** [if s:] on the value of a selection widget: nothing selected and the
    empty string both count as false. *)
Definition truthy (selected : option string) : option string :=
  match selected with
  | Some EmptyString => None
  | other => other
  end.

(* ------------------------------------------------------------------ *)
(** * show_dashboard_overview *)

Module Dashboard.
(** The dictionary [status_counts]. *)
Record StatusCounts := {
  count_Ready : nat;
  count_Partial : nat;
  count_Critical : nat
}.

(** What the dashboard shows; [delayed_display] is missing when the
    view reports that no item is delayed. *)
Record t := {
  total_projects : nat;
  total_items : nat;
  overall_fulfillment : Q;
  total_balance : Q;
  supply_dist : ref;
  status_counts : StatusCounts;
  delayed_display : option ref
}.
End Dashboard.

(** One more project of a status. *)
Definition count_status (s : Status) (c : Dashboard.StatusCounts)
    : Dashboard.StatusCounts :=
  match s with
  | Ready =>
      {| Dashboard.count_Ready := Dashboard.count_Ready c + 1;
         Dashboard.count_Partial := Dashboard.count_Partial c;
         Dashboard.count_Critical := Dashboard.count_Critical c |}
  | Partial =>
      {| Dashboard.count_Ready := Dashboard.count_Ready c;
         Dashboard.count_Partial := Dashboard.count_Partial c + 1;
         Dashboard.count_Critical := Dashboard.count_Critical c |}
  | Critical =>
      {| Dashboard.count_Ready := Dashboard.count_Ready c;
         Dashboard.count_Partial := Dashboard.count_Partial c;
         Dashboard.count_Critical := Dashboard.count_Critical c + 1 |}
  end.

(** The loop over the projects that fills [status_counts]. *)
Fixpoint count_statuses (df : ref) (projects : list string)
    (status_counts : Dashboard.StatusCounts) : M Dashboard.StatusCounts :=
  match projects with
  | [] => ret status_counts
  | project :: projects' =>
      status_info <- calculate_project_status df project ;;
      count_statuses df projects'
        (match status_info with
         | Some st => count_status (status st) status_counts
         | None => status_counts
         end)
  end.

Definition show_dashboard_overview (df : ref) : M Dashboard.t :=
  rows <- frame_rows df ;;
  let total_projects := length (unique String.eqb (map SEC_order rows)) in
  let total_items := length rows in
  let total_req := series_sum (map req_qty rows) in
  let total_allocated := series_sum (map allocated_qty rows) in
  let overall_fulfillment :=
    if Qgt_bool total_req 0 then (total_allocated / total_req * 100)%Q else 0%Q in
  let total_balance := series_sum (map balance rows) in
  (* Quick Stats *)
  supply_dist <- new (Display ["supply_type"; "allocated_qty"]
                        (map (fun e => [CStr (fst e); CNum (snd e)])
                             (group_sum supply_type allocated_qty rows))) ;;
  let projects := unique String.eqb (map SEC_order rows) in
  status_counts <- count_statuses df projects
                     {| Dashboard.count_Ready := 0;
                        Dashboard.count_Partial := 0;
                        Dashboard.count_Critical := 0 |} ;;
  (* Recent delays *)
  delayed <- (t <- getitem_mask df (fun r => py_ne (delay r) (Num 0)) ;;
              copy t) ;;
  delayed_rows <- frame_rows delayed ;;
  delayed_display <-
    (if negb (empty delayed_rows)
     then (t <- select_columns delayed
                  ["SEC order"; "item"; "description"; "delay"; "supplier";
                   "availability_date"] ;;
           d <- head t 10 ;;
           ret (Some d))
     else ret None) ;;
  ret {| Dashboard.total_projects := total_projects;
         Dashboard.total_items := total_items;
         Dashboard.overall_fulfillment := overall_fulfillment;
         Dashboard.total_balance := total_balance;
         Dashboard.supply_dist := supply_dist;
         Dashboard.status_counts := status_counts;
         Dashboard.delayed_display := delayed_display |}.

(* ------------------------------------------------------------------ *)
(** * show_project_health *)

(** The label of a row in the detail table. *)
Definition get_item_status (row : DemandLine) : string :=
  if Qeq_bool (balance row) 0 then "Ready"
  else if Qeq_bool (allocated_qty row) 0 then "Missing"
  else "Partial".

Module Health.
(** The messages of the blocking list: "... items completely missing",
    "... items stuck in QC", "... items in GR process". *)
Inductive issue :=
| CompletelyMissing (items : nat)
| ItemsStuckInQC (items : nat)
| ItemsInGRProcess (items : nat).

Record t := {
  status_info : ProjectStatus;
  details : ref;
  blocking : list issue
}.
End Health.

(** The view for the project chosen in the selection box; nothing is
    shown without a choice or a status. *)
Definition show_project_health (df : ref) (selected_project : option string)
    : M (option Health.t) :=
  match truthy selected_project with
  | None => ret None
  | Some project =>
      status_info <- calculate_project_status df project ;;
      match status_info with
      | None => ret None
      | Some st =>
          (* Detailed breakdown *)
          proj_data <- getitem_mask df (fun r => String.eqb (SEC_order r) project) ;;
          proj_data_display <- copy proj_data ;;
          setitem_apply_rows proj_data_display "Status"
            (fun row => CStr (get_item_status row)) ;;
          details <- getitem_display_cols proj_data_display
                       ["Status"; "item"; "description"; "req_qty";
                        "allocated_qty"; "balance"; "supply_type"; "source";
                        "availability_date"; "delay"] ;;
          (* Blocking issues *)
          let blocking := [] in
          let blocking :=
            if 0 <? missing_items st
            then blocking ++ [Health.CompletelyMissing (missing_items st)]
            else blocking in
          qc_items <- getitem_mask proj_data
                        (fun r => String.eqb (supply_type r) "QC") ;;
          qc_rows <- frame_rows qc_items ;;
          let blocking :=
            if negb (empty qc_rows)
            then blocking ++ [Health.ItemsStuckInQC (length qc_rows)]
            else blocking in
          gr_items <- getitem_mask proj_data
                        (fun r => String.eqb (supply_type r) "GR_in_process") ;;
          gr_rows <- frame_rows gr_items ;;
          let blocking :=
            if negb (empty gr_rows)
            then blocking ++ [Health.ItemsInGRProcess (length gr_rows)]
            else blocking in
          ret (Some {| Health.status_info := st;
                       Health.details := details;
                       Health.blocking := blocking |})
      end
  end.

(* ------------------------------------------------------------------ *)
(** * show_material_inquiry *)

(** The view for the item chosen in the selection box: the inquiry and
    the table of complete details. *)
Definition show_material_inquiry (df : ref) (selected_item : option string)
    : M (option (Inquiry.t * ref)) :=
  match truthy selected_item with
  | None => ret None
  | Some item_code =>
      info <- material_inquiry df item_code ;;
      match info with
      | None => ret None
      | Some inq =>
          (* Full details *)
          let display_cols :=
            ["SEC order"; "SEC Number"; "req_qty"; "allocated_qty"; "balance";
             "supply_type"; "source"; "locater"; "availability_date"; "delay";
             "supplier"] in
          details <- select_columns (Inquiry.item_data inq)
                       (available_cols display_cols) ;;
          ret (Some (inq, details))
      end
  end.

(* ------------------------------------------------------------------ *)
(** * show_supplier_performance *)

Module Suppliers.
(** What the view shows: the note that there is no delay data, or the
    ranking with the two charts of its first ten rows and, for the
    supplier chosen in the selection box, the delayed rows and their
    table. *)
Inductive View :=
| NoData
| Rankings (supplier_stats top_by_delay top_by_items : ref)
           (supplier_items : option (ref * ref)).
End Suppliers.

Definition show_supplier_performance (df : ref) (selected_supplier : option string)
    : M Suppliers.View :=
  supplier_stats <- supplier_performance df ;;
  match supplier_stats with
  | None => ret Suppliers.NoData
  | Some stats =>
      rows <- stats_rows stats ;;
      if empty rows then ret Suppliers.NoData else
      (* Visualizations *)
      top_by_delay <- head stats 10 ;;
      top_by_items <- head stats 10 ;;
      (* Detailed delayed items *)
      match truthy selected_supplier with
      | None => ret (Suppliers.Rankings stats top_by_delay top_by_items None)
      | Some s =>
          supplier_items <- getitem_mask df
                              (fun r => supplier_is s r
                                        && py_ne (delay r) (Num 0)) ;;
          let display_cols :=
            ["SEC order"; "item"; "description"; "allocated_qty"; "delay";
             "availability_date"; "ROH delivery"; "locater"] in
          table <- select_columns supplier_items (available_cols display_cols) ;;
          ret (Suppliers.Rankings stats top_by_delay top_by_items
                 (Some (supplier_items, table)))
      end
  end.

(* ------------------------------------------------------------------ *)
(** * show_critical_projects *)

(** One row of the frame of critical projects. *)
Record CriticalRow := {
  cr_Project : string;
  cr_Status : Status;
  cr_Fulfillment : Q;
  cr_Missing_Items : nat;
  cr_Max_Delay : pyval;
  cr_Days_to_SEC_Delivery : Z;
  cr_SEC_Delivery : option Z
}.

(** A timestamp counts nanoseconds; [Timedelta.days] is the number of
    whole days, rounded down. *)
Definition day : Z := 86400000000000.

Definition days_between (now t : Z) : Z := ((t - now) / day)%Z.

(** The loop over the projects.  The clock is read once for every
    critical project that has a delivery date: [now project] is the
    reading taken for [project]. *)
Fixpoint critical_loop (df : ref) (now : string -> Z) (projects : list string)
    : M (list CriticalRow) :=
  match projects with
  | [] => ret []
  | project :: projects' =>
      status_info <- calculate_project_status df project ;;
      rest <- critical_loop df now projects' ;;
      ret (match status_info with
           | Some st =>
               match status st with
               | Critical =>
                   {| cr_Project := project;
                      cr_Status := status st;
                      cr_Fulfillment := fulfillment_pct st;
                      cr_Missing_Items := missing_items st;
                      cr_Max_Delay := max_delay st;
                      cr_Days_to_SEC_Delivery :=
                        match sec_delivery st with
                        | Some t => days_between (now project) t
                        | None => 999%Z
                        end;
                      cr_SEC_Delivery := sec_delivery st |} :: rest
               | _ => rest
               end
           | None => rest
           end)
  end.

(** The order of [sort_values(['Days to SEC Delivery', 'Missing Items'],
    ascending=[True, False])]. *)
Definition critical_leb (a b : CriticalRow) : bool :=
  (cr_Days_to_SEC_Delivery a <? cr_Days_to_SEC_Delivery b)%Z
  || ((cr_Days_to_SEC_Delivery a =? cr_Days_to_SEC_Delivery b)%Z
      && (cr_Missing_Items b <=? cr_Missing_Items a)).

Section SortBy.
Variable A : Type.
Variable leb : A -> A -> bool.

Fixpoint insert_by (a : A) (l : list A) : list A :=
  match l with
  | [] => [a]
  | x :: l' => if leb a x then a :: l else x :: insert_by a l'
  end.

Definition sort_by (l : list A) : list A := fold_right insert_by [] l.
End SortBy.

Arguments insert_by {A} leb a l.
Arguments sort_by {A} leb l.

Definition status_text (s : Status) : string :=
  match s with
  | Ready => "Ready"
  | Critical => "Critical"
  | Partial => "Partial"
  end.

Definition critical_columns : list string :=
  ["Project"; "Status"; "Fulfillment %"; "Missing Items"; "Max Delay";
   "Days to SEC Delivery"; "SEC Delivery"].

Definition critical_cells (c : CriticalRow) : list cell :=
  [ CStr (cr_Project c); CStr (status_text (cr_Status c));
    CNum (cr_Fulfillment c); CNum (inject_Z (Z.of_nat (cr_Missing_Items c)));
    cell_of_pyval (cr_Max_Delay c);
    CNum (inject_Z (cr_Days_to_SEC_Delivery c));
    cell_of_date (cr_SEC_Delivery c) ].

Module CriticalView.
(** What the view shows: the note that nothing is critical, or the sorted
    frame and, for the project chosen in the selection box, its problem
    rows and their table. *)
Inductive View :=
| NoCritical
| Listing (critical_df : ref) (problem_items : option (ref * ref)).
End CriticalView.

Definition show_critical_projects (df : ref) (now : string -> Z)
    (selected : option string) : M CriticalView.View :=
  rows <- frame_rows df ;;
  let projects := unique String.eqb (map SEC_order rows) in
  critical_list <- critical_loop df now projects ;;
  if negb (empty critical_list) then
    critical_df <- new (Display critical_columns (map critical_cells critical_list)) ;;
    critical_df <- new (Display critical_columns
                          (map critical_cells (sort_by critical_leb critical_list))) ;;
    (* Select project for details *)
    match truthy selected with
    | None => ret (CriticalView.Listing critical_df None)
    | Some project =>
        proj_data <- getitem_mask df (fun r => String.eqb (SEC_order r) project) ;;
        (* Show missing/delayed items *)
        problem_items <- getitem_mask proj_data
                           (fun r => Qgt_bool (balance r) 0
                                     || py_ne (delay r) (Num 0)) ;;
        let display_cols :=
          ["item"; "description"; "req_qty"; "allocated_qty"; "balance";
           "supply_type"; "delay"; "availability_date"; "supplier"] in
        table <- select_columns problem_items (available_cols display_cols) ;;
        ret (CriticalView.Listing critical_df (Some (problem_items, table)))
    end
  else ret CriticalView.NoCritical.

(* ------------------------------------------------------------------ *)
(** * show_production_readiness *)

(** The background of a cell of the fulfillment column: green
    ([#d4edda]), yellow ([#fff3cd]) or red ([#f8d7da]). *)
Inductive Color := Green | Yellow | Red.

Definition color_fulfillment (val : Q) : Color :=
  if Qeq_bool val 100 then Green
  else if Qle_bool 90 val then Yellow
  else Red.

Definition fully_covered (r : ReadinessRow) : bool :=
  Qeq_bool (rd_Fulfillment r) 100.

Module ReadinessView.
(** What the view shows: the filtered frame with the colours of its
    fulfillment column, the number in the heading, and the list of ready
    projects, which is only there when the number is positive. *)
Record t := {
  filtered_df : ref;
  styles : list Color;
  ready_count : nat;
  ready_projects : list string
}.
End ReadinessView.

(** The view for the values of the slider and the checkbox. *)
Definition show_production_readiness (df : ref) (min_fulfillment : Z)
    (show_only_ready : bool) : M (option ReadinessView.t) :=
  readiness_df <- production_readiness df ;;
  rows <- readiness_rows readiness_df ;;
  if negb (empty rows) then
    filtered_df <-
      (if show_only_ready
       then getitem_readiness readiness_df fully_covered
       else getitem_readiness readiness_df
              (fun r => Qle_bool (inject_Z min_fulfillment) (rd_Fulfillment r))) ;;
    heading <- getitem_readiness filtered_df fully_covered ;;
    heading_rows <- readiness_rows heading ;;
    (* Color code the dataframe *)
    filtered_rows <- readiness_rows filtered_df ;;
    let styles := map (fun r => color_fulfillment (rd_Fulfillment r)) filtered_rows in
    (* Quick actions *)
    ready <- getitem_readiness filtered_df fully_covered ;;
    ready_rows <- readiness_rows ready ;;
    ready_projects <-
      (if 0 <? length ready_rows
       then (counted <- getitem_readiness filtered_df fully_covered ;;
             listed <- getitem_readiness filtered_df fully_covered ;;
             listed_rows <- readiness_rows listed ;;
             ret (map rd_Project listed_rows))
       else ret []) ;;
    ret (Some {| ReadinessView.filtered_df := filtered_df;
                 ReadinessView.styles := styles;
                 ReadinessView.ready_count := length heading_rows;
                 ReadinessView.ready_projects := ready_projects |})
  else ret None.

(* ------------------------------------------------------------------ *)
(** * Vocabulary of the properties of the other views *)

Definition Status_eqb (a b : Status) : bool :=
  match a, b with
  | Ready, Ready | Critical, Critical | Partial, Partial => true
  | _, _ => false
  end.

(** The project has a status record with status [s]. *)
Definition status_is (table : list DemandLine) (s : Status) (p : string) : bool :=
  match project_status table p with
  | inr (Some st) => Status_eqb (status st) s
  | _ => false
  end.

(** The distinct projects of a table, in order of first appearance, and
    those of a status. *)
Definition projects_of (table : list DemandLine) : list string :=
  unique String.eqb (map SEC_order table).

Definition projects_with (table : list DemandLine) (s : Status) : list string :=
  filter (status_is table s) (projects_of table).

(** The rows with a delay other than [0]. *)
Definition delayed_lines (table : list DemandLine) : list DemandLine :=
  filter (fun r => py_ne (delay r) (Num 0)) table.

(** The rows that carry a label in the detail table of a project. *)
Definition labelled (label : string) (rows : list DemandLine) : list DemandLine :=
  filter (fun r => String.eqb (get_item_status r) label) rows.

(** The columns and the lines of the detail table of a project. *)
Definition health_columns : list string :=
  ["Status"; "item"; "description"; "req_qty"; "allocated_qty"; "balance";
   "supply_type"; "source"; "availability_date"; "delay"].

Definition health_line (r : DemandLine) : list cell :=
  [ CStr (get_item_status r); CStr (item r); CStr (description r);
    CNum (req_qty r); CNum (allocated_qty r); CNum (balance r);
    CStr (supply_type r); CStr (source r);
    cell_of_date (availability_date r); cell_of_pyval (delay r) ].

(** The columns and the lines of the table of complete details of an
    item. *)
Definition inquiry_columns : list string :=
  ["SEC order"; "SEC Number"; "req_qty"; "allocated_qty"; "balance";
   "supply_type"; "source"; "locater"; "availability_date"; "delay"; "supplier"].

Definition inquiry_line (r : DemandLine) : list cell :=
  [ CStr (SEC_order r); CStr (SEC_Number r); CNum (req_qty r);
    CNum (allocated_qty r); CNum (balance r); CStr (supply_type r);
    CStr (source r); CStr (locater r); cell_of_date (availability_date r);
    cell_of_pyval (delay r); cell_of_option (supplier r) ].

(** The delayed rows of a supplier, and the columns and lines of their
    table. *)
Definition delayed_of (s : string) (table : list DemandLine) : list DemandLine :=
  filter (fun r => supplier_is s r && py_ne (delay r) (Num 0)) table.

Definition supplier_columns : list string :=
  ["SEC order"; "item"; "description"; "allocated_qty"; "delay";
   "availability_date"; "ROH delivery"; "locater"].

Definition supplier_line (r : DemandLine) : list cell :=
  [ CStr (SEC_order r); CStr (item r); CStr (description r);
    CNum (allocated_qty r); cell_of_pyval (delay r);
    cell_of_date (availability_date r); cell_of_date (ROH_delivery r);
    CStr (locater r) ].

(** A row of the frame of critical projects carries the status of its
    project, which is Critical, and the number of whole days from the
    reading of the clock to the SEC delivery, 999 when there is no
    date. *)
Definition critical_row_of (table : list DemandLine) (now : string -> Z)
    (c : CriticalRow) : Prop :=
  exists st,
    project_status table (cr_Project c) = inr (Some st)
    /\ status st = Critical
    /\ cr_Status c = Critical
    /\ cr_Fulfillment c = fulfillment_pct st
    /\ cr_Missing_Items c = missing_items st
    /\ cr_Max_Delay c = max_delay st
    /\ cr_SEC_Delivery c = sec_delivery st
    /\ cr_Days_to_SEC_Delivery c
       = match sec_delivery st with
         | Some t => days_between (now (cr_Project c)) t
         | None => 999%Z
         end.

(** Fewer days to delivery first; among equals, more missing items
    first. *)
Definition critical_order (a b : CriticalRow) : Prop :=
  (cr_Days_to_SEC_Delivery a < cr_Days_to_SEC_Delivery b)%Z
  \/ (cr_Days_to_SEC_Delivery a = cr_Days_to_SEC_Delivery b
      /\ cr_Missing_Items b <= cr_Missing_Items a).

(** The problem rows of a project, and the columns and lines of their
    table. *)
Definition problem_rows (p : string) (table : list DemandLine) : list DemandLine :=
  filter (fun r => Qgt_bool (balance r) 0 || py_ne (delay r) (Num 0))
         (project_rows p table).

Definition problem_columns : list string :=
  ["item"; "description"; "req_qty"; "allocated_qty"; "balance";
   "supply_type"; "delay"; "availability_date"; "supplier"].

Definition problem_line (r : DemandLine) : list cell :=
  [ CStr (item r); CStr (description r); CNum (req_qty r);
    CNum (allocated_qty r); CNum (balance r); CStr (supply_type r);
    cell_of_pyval (delay r); cell_of_date (availability_date r);
    cell_of_option (supplier r) ].

(** Two critical projects: "P1" due in two days, "P5" without a date. *)
Definition critical_table : list DemandLine :=
  [ line "P5" "ITM1" "PR" "-" "-" None 5 0 5 (Num 0);
    dated (line "P1" "ITM2" "PR" "-" "-" None 5 0 5 (Num 0))
          (Some (3 * day)%Z) None;
    line "P2" "ITM1" "inventory" "free_stock" "-" None 10 10 0 (Num 0) ].

(** The rows of the ranking the readiness view keeps for the values of
    its two widgets. *)
Definition shown_rows (min_fulfillment : Z) (show_only_ready : bool)
    (ranking : list ReadinessRow) : list ReadinessRow :=
  if show_only_ready then filter fully_covered ranking
  else filter (fun r => Qle_bool (inject_Z min_fulfillment) (rd_Fulfillment r))
              ranking.

(** The table keeps, for every row, what it requires less what it has
    been allocated as its balance. *)
Definition balanced (table : list DemandLine) : Prop :=
  forall r, In r table -> (balance r == req_qty r - allocated_qty r)%Q.

(** The columns and the lines of the reallocation table. *)
Definition reallocation_columns : list string :=
  ["Item Code"; "Description"; "Qty to Reallocate"; "Project"; "Source Project";
   "Locater"; "Action Required"].

Definition reallocation_line (r : DemandLine) : list cell :=
  [ CStr (item r); CStr (description r); CNum (allocated_qty r);
    CStr (SEC_order r); CStr (source r); CStr (locater r);
    CStr (if String.eqb (source r) "-" then "Can Reallocate"
          else "Needs Approval") ].

(* ================================================================== *)
(** * Properties *)

(** ** The heap *)

Lemma nth_error_snoc (h : heap) (o : object) :
  nth_error (h ++ [o]) (length h) = Some o.
Proof.
  rewrite nth_error_app2 by lia. now rewrite Nat.sub_diag.
Qed.

Lemma update_snoc (h : heap) (o o' : object) :
  update (h ++ [o]) (length h) o' = h ++ [o'].
Proof.
  induction h as [|x h IH]; simpl; [reflexivity|]. now rewrite IH.
Qed.

Lemma nth_error_app_old (h ext : heap) (r : ref) (o : object) :
  nth_error h r = Some o -> nth_error (h ++ ext) r = Some o.
Proof.
  intros H. rewrite nth_error_app1; [assumption|].
  apply nth_error_Some. congruence.
Qed.

(** Looking up a reference in a heap grown by allocations. *)
Ltac lookup :=
  first [ eassumption
        | apply nth_error_snoc
        | apply nth_error_app_old; lookup ].

(** ** Running the primitives *)

Lemma bind_run {A B} (m : M A) (k : A -> M B) (h h' : heap) (a : A) :
  m h = (inr a, h') -> bind m k h = k a h'.
Proof. intros H. unfold bind. now rewrite H. Qed.

Lemma bind_outcome {A B} (m : M A) (k : A -> M B) (h h' : heap) (r : exn + A) :
  m h = (r, h') ->
  bind m k h = match r with
               | inl e => (inl e, h')
               | inr a => k a h'
               end.
Proof. intros H. unfold bind. now rewrite H. Qed.

Lemma load_run (h : heap) (r : ref) (o : object) :
  nth_error h r = Some o -> load r h = (inr o, h).
Proof. intros H. unfold load. now rewrite H. Qed.

Lemma frame_rows_run (h : heap) (r : ref) (rows : list DemandLine) :
  nth_error h r = Some (Study rows) -> frame_rows r h = (inr rows, h).
Proof.
  intros H. unfold frame_rows.
  now rewrite (bind_run _ _ _ _ _ (load_run _ _ _ H)).
Qed.

Lemma getitem_mask_run (h : heap) (r : ref) (rows : list DemandLine) mask :
  nth_error h r = Some (Study rows) ->
  getitem_mask r mask h = (inr (length h), h ++ [Study (filter mask rows)]).
Proof.
  intros H. unfold getitem_mask.
  now rewrite (bind_run _ _ _ _ _ (frame_rows_run _ _ _ H)).
Qed.

Lemma copy_run (h : heap) (r : ref) (o : object) :
  nth_error h r = Some o -> copy r h = (inr (length h), h ++ [o]).
Proof.
  intros H. unfold copy.
  now rewrite (bind_run _ _ _ _ _ (load_run _ _ _ H)).
Qed.

(** [df[mask].copy()]. *)
Lemma mask_copy_run (h : heap) (r : ref) (rows : list DemandLine) mask :
  nth_error h r = Some (Study rows) ->
  (t <- getitem_mask r mask ;; copy t) h
  = (inr (length (h ++ [Study (filter mask rows)])),
     (h ++ [Study (filter mask rows)]) ++ [Study (filter mask rows)]).
Proof.
  intros H.
  rewrite (bind_run _ _ _ _ _ (getitem_mask_run _ _ _ mask H)).
  apply copy_run. lookup.
Qed.

Lemma new_run (h : heap) (o : object) : new o h = (inr (length h), h ++ [o]).
Proof. reflexivity. Qed.

Lemma set_columns_stats_run (h : heap) cols rows names :
  set_columns (length h) names (h ++ [Stats cols rows])
  = (inr tt, h ++ [Stats names rows]).
Proof.
  unfold set_columns.
  rewrite (bind_run _ _ _ _ _ (load_run _ _ _ (nth_error_snoc h _))).
  unfold store. now rewrite update_snoc.
Qed.

Lemma set_columns_display_run (h : heap) cols body names :
  set_columns (length h) names (h ++ [Display cols body])
  = (inr tt, h ++ [Display names body]).
Proof.
  unfold set_columns.
  rewrite (bind_run _ _ _ _ _ (load_run _ _ _ (nth_error_snoc h _))).
  unfold store. now rewrite update_snoc.
Qed.

Lemma sort_stats_run (h : heap) (r : ref) cols rows :
  nth_error h r = Some (Stats cols rows) ->
  sort_stats r h
  = (inr (length h), h ++ [Stats cols (sort_values_desc avg_delay_days rows)]).
Proof.
  intros H. unfold sort_stats.
  now rewrite (bind_run _ _ _ _ _ (load_run _ _ _ H)).
Qed.

(** One step of a computation whose first action is a primitive. *)
Ltac run_prim :=
  first [ apply mask_copy_run; lookup
        | apply getitem_mask_run; lookup
        | apply frame_rows_run; lookup
        | apply copy_run; lookup
        | apply set_columns_stats_run
        | apply set_columns_display_run
        | apply sort_stats_run; lookup
        | apply new_run
        | apply load_run; lookup
        | reflexivity ].

Ltac step :=
  match goal with
  | |- context [bind ?m ?k ?h] =>
      erewrite (@bind_run _ _ m k h) by run_prim
  end.

Ltac step_in H :=
  match type of H with
  | context [bind ?m ?k ?h] =>
      erewrite (@bind_run _ _ m k h) in H by run_prim
  end.

(** ** calculate_project_status *)

Lemma max_of_ret (vs : list pyval) (mx : pyval) :
  max_of vs = inr mx ->
  match vs with
  | [] => ret (Num 0)
  | v :: vs' => lift (series_max v vs')
  end = ret mx.
Proof.
  unfold max_of. destruct vs as [|v vs'].
  - now intros [= <-].
  - now intros ->.
Qed.

Lemma max_of_raise (vs : list pyval) (e : exn) :
  max_of vs = inl e ->
  match vs with
  | [] => ret (Num 0)
  | v :: vs' => lift (series_max v vs')
  end = raise e.
Proof.
  unfold max_of. destruct vs as [|v vs'].
  - discriminate.
  - now intros ->.
Qed.

(** What a returned status record holds. *)
Lemma calculate_project_status_inv (h h' : heap) (df : ref)
    (table : list DemandLine) (project : string) (st : ProjectStatus) :
  nth_error h df = Some (Study table) ->
  calculate_project_status df project h = (inr (Some st), h') ->
  let rows := project_rows project table in
  rows <> []
  /\ total_items st = length rows
  /\ ready_items st = length (filter (fun r => Qeq_bool (balance r) 0) rows)
  /\ partial_items st =
       length (filter (fun r => Qgt_bool (balance r) 0
                                && Qgt_bool (allocated_qty r) 0) rows)
  /\ missing_items st = length (filter (fun r => Qeq_bool (allocated_qty r) 0) rows)
  /\ total_req st = series_sum (map req_qty rows)
  /\ total_allocated st = series_sum (map allocated_qty rows)
  /\ total_balance st = series_sum (map balance rows)
  /\ fulfillment_pct st =
       (if Qgt_bool (total_req st) 0
        then (total_allocated st / total_req st * 100)%Q else 0%Q)
  /\ max_of (nonzero_delays rows) = inr (max_delay st)
  /\ status st =
       (if Qeq_bool (total_balance st) 0 then Ready
        else if (0 <? missing_items st) || py_eq (max_delay st) (Str "late")
             then Critical else Partial).
Proof.
  intros Hdf Hrun rows. unfold calculate_project_status in Hrun.
  do 2 step_in Hrun. fold (project_rows project table) in Hrun. fold rows in Hrun.
  destruct rows as [|r0 rows'] eqn:Hrows; [discriminate|].
  rewrite <- Hrows in *. assert (Hne : rows <> []) by (rewrite Hrows; discriminate).
  replace (empty rows) with false in Hrun by (now rewrite Hrows).
  do 2 step_in Hrun. fold (nonzero_delays rows) in Hrun.
  assert (Hlet : forall (X : Status * string)
                        (f : Status -> string -> M (option ProjectStatus)),
             (let '(a, b) := X in f a b) = f (fst X) (snd X))
    by (intros [a b] f; reflexivity).
  destruct (max_of (nonzero_delays rows)) as [e|mx] eqn:Hmax.
  { rewrite (max_of_raise _ _ Hmax) in Hrun. discriminate. }
  rewrite (max_of_ret _ _ Hmax) in Hrun.
  unfold bind, ret in Hrun. rewrite Hlet in Hrun.
  injection Hrun as Hst _. subst st. simpl.
  repeat split; try assumption; try reflexivity.
  destruct (Qeq_bool _ _); [reflexivity|]. simpl.
  now destruct (_ || _).
Qed.

Lemma series_max_nums (v : pyval) (vs : list pyval) :
  is_num v = true -> forallb is_num vs = true ->
  exists q, series_max v vs = inr (Num q).
Proof.
  revert v. induction vs as [|w vs IH]; intros v Hv Hvs.
  - destruct v as [q|s]; [now exists q | discriminate].
  - simpl in Hvs. apply andb_true_iff in Hvs as [Hw Hvs].
    destruct v as [q|s]; [|discriminate]. destruct w as [q'|s']; [|discriminate].
    simpl. destruct (Qle_bool q' q); now apply IH.
Qed.

Lemma series_max_strs (v : pyval) (vs : list pyval) :
  is_str v = true -> forallb is_str vs = true ->
  exists s, series_max v vs = inr (Str s).
Proof.
  revert v. induction vs as [|w vs IH]; intros v Hv Hvs.
  - destruct v as [q|s]; [discriminate | now exists s].
  - simpl in Hvs. apply andb_true_iff in Hvs as [Hw Hvs].
    destruct v as [q|s]; [discriminate|]. destruct w as [q'|s']; [discriminate|].
    simpl. destruct (String.leb s' s); now apply IH.
Qed.

Lemma max_of_comparable (vs : list pyval) :
  comparable vs = true -> exists mx, max_of vs = inr mx.
Proof.
  unfold comparable, max_of. intros H. destruct vs as [|v vs].
  - now exists (Num 0).
  - apply orb_true_iff in H as [H|H]; simpl in H;
      apply andb_true_iff in H as [Hv Hvs].
    + destruct (series_max_nums v vs Hv Hvs) as [q Hq]. now exists (Num q).
    + destruct (series_max_strs v vs Hv Hvs) as [s Hs]. now exists (Str s).
Qed.

(** A project with rows and comparable delays gets a status record. *)
Lemma calculate_project_status_returns (h : heap) (df : ref)
    (table : list DemandLine) (project : string) :
  nth_error h df = Some (Study table) ->
  project_rows project table <> [] ->
  comparable (nonzero_delays (project_rows project table)) = true ->
  exists st h', calculate_project_status df project h = (inr (Some st), h').
Proof.
  intros Hdf Hne Hcmp. unfold calculate_project_status.
  do 2 step. fold (project_rows project table).
  destruct (project_rows project table) as [|r0 rows'] eqn:Hrows; [congruence|].
  rewrite <- Hrows in *. replace (empty _) with false by (now rewrite Hrows).
  do 2 step. fold (nonzero_delays (project_rows project table)).
  destruct (max_of_comparable _ Hcmp) as [mx Hmx].
  rewrite (max_of_ret _ _ Hmx). unfold bind, ret.
  destruct (Qeq_bool _ _); [|destruct (_ || _)]; eexists; eexists; reflexivity.
Qed.

(** *** Item counts *)

Lemma Qgt_bool_iff (x y : Q) : Qgt_bool x y = true <-> (y < x)%Q.
Proof.
  unfold Qgt_bool. rewrite negb_true_iff, <- not_true_iff_false, Qle_bool_iff.
  split; [apply Qnot_le_lt | apply Qlt_not_le].
Qed.

Lemma Qgt_bool_false_iff (x y : Q) : Qgt_bool x y = false <-> (x <= y)%Q.
Proof.
  unfold Qgt_bool. now rewrite negb_false_iff, Qle_bool_iff.
Qed.

Lemma in_project_rows (project : string) (table : list DemandLine) (r : DemandLine) :
  In r (project_rows project table) <-> In r table /\ SEC_order r = project.
Proof.
  unfold project_rows. now rewrite filter_In, String.eqb_eq.
Qed.

(** A row with non-negative balance and allocation, not both zero, is in
    exactly one of the three categories. *)
Lemma one_category (r : DemandLine) :
  (0 <= balance r)%Q -> (0 <= allocated_qty r)%Q ->
  ~ (balance r == 0 /\ allocated_qty r == 0)%Q ->
  Nat.b2n (Qeq_bool (balance r) 0)
  + Nat.b2n (Qgt_bool (balance r) 0 && Qgt_bool (allocated_qty r) 0)
  + Nat.b2n (Qeq_bool (allocated_qty r) 0) = 1.
Proof.
  intros Hb Ha Hnz.
  destruct (Qeq_bool (balance r) 0) eqn:Eb;
    destruct (Qeq_bool (allocated_qty r) 0) eqn:Ea;
    destruct (Qgt_bool (balance r) 0) eqn:Gb;
    destruct (Qgt_bool (allocated_qty r) 0) eqn:Ga;
    try reflexivity; exfalso;
    repeat match goal with
    | H : Qeq_bool _ _ = true |- _ => apply Qeq_bool_iff in H
    | H : Qeq_bool _ _ = false |- _ => apply Qeq_bool_neq in H
    | H : Qgt_bool _ _ = true |- _ => apply Qgt_bool_iff in H
    | H : Qgt_bool _ _ = false |- _ => apply Qgt_bool_false_iff in H
    end;
    try (apply Hnz; split; assumption);
    try lra;
    try (apply Eb; lra); try (apply Ea; lra).
Qed.

Lemma length_filter_b2n {A} (f : A -> bool) (l : list A) :
  length (filter f l) = fold_right (fun a n => Nat.b2n (f a) + n) 0 l.
Proof.
  induction l as [|a l IH]; simpl; [reflexivity|].
  destruct (f a); simpl; now rewrite IH.
Qed.

Lemma categories_partition (rows : list DemandLine) :
  (forall r, In r rows ->
     (0 <= balance r)%Q /\ (0 <= allocated_qty r)%Q
     /\ ~ (balance r == 0 /\ allocated_qty r == 0)%Q) ->
  length (filter (fun r => Qeq_bool (balance r) 0) rows)
  + length (filter (fun r => Qgt_bool (balance r) 0
                             && Qgt_bool (allocated_qty r) 0) rows)
  + length (filter (fun r => Qeq_bool (allocated_qty r) 0) rows)
  = length rows.
Proof.
  induction rows as [|r rows IH]; intros H; [reflexivity|].
  assert (H1 := H r (or_introl eq_refl)). destruct H1 as (Hb & Ha & Hnz).
  assert (IH' := IH (fun r' Hr' => H r' (or_intror Hr'))).
  assert (Hone := one_category r Hb Ha Hnz).
  rewrite !length_filter_b2n in *. simpl. lia.
Qed.

(** Comparison of two given rationals. *)
Ltac qcompare := unfold Qle, Qlt, Qeq; simpl; lia.

(** C1 (as amended).  For every table and every project whose rows all
    have a non-negative balance and a non-negative allocated quantity that
    are not both zero, the Ready, Partial and Missing counts returned by
    [calculate_project_status] add up to the number of rows of the
    project; and a project with rows gets these counts whenever its
    non-zero delays can be compared with one another. *)
Theorem item_counts_partition (h : heap) (df : ref) (table : list DemandLine)
    (project : string) :
  nth_error h df = Some (Study table) ->
  (forall r, In r table -> SEC_order r = project ->
     (0 <= balance r)%Q /\ (0 <= allocated_qty r)%Q
     /\ ~ (balance r == 0 /\ allocated_qty r == 0)%Q) ->
  (forall st h',
     calculate_project_status df project h = (inr (Some st), h') ->
     ready_items st + partial_items st + missing_items st = total_items st
     /\ total_items st = length (project_rows project table)
     /\ 0 < total_items st)
  /\ (project_rows project table <> [] ->
      comparable (nonzero_delays (project_rows project table)) = true ->
      exists st h', calculate_project_status df project h = (inr (Some st), h')).
Proof.
  intros Hdf Hrows. split.
  - intros st h' Hrun.
    destruct (calculate_project_status_inv _ _ _ _ _ _ Hdf Hrun)
      as (Hne & Ht & Hr & Hp & Hm & _).
    rewrite Ht, Hr, Hp, Hm. split; [|split; [reflexivity|]].
    + apply categories_partition. intros r Hr'.
      apply in_project_rows in Hr' as [Hin Hproj]. now apply Hrows.
    + destruct (project_rows project table); [congruence | simpl; lia].
  - now apply calculate_project_status_returns.
Qed.

Lemma item_counts_partition_witness :
  exists st h',
    calculate_project_status 0 "P1" [Study p1_table] = (inr (Some st), h')
    /\ ready_items st + partial_items st + missing_items st = total_items st
    /\ total_items st = 2.
Proof.
  assert (Hrows : forall r, In r p1_table -> SEC_order r = "P1" ->
            (0 <= balance r)%Q /\ (0 <= allocated_qty r)%Q
            /\ ~ (balance r == 0 /\ allocated_qty r == 0)%Q).
  { intros r [<-|[<-|[]]] _; simpl; repeat split; try qcompare;
      intros [H1 H2]; revert H1 H2; qcompare. }
  destruct (item_counts_partition [Study p1_table] 0 p1_table "P1" eq_refl Hrows)
    as [Hsum Hret].
  destruct Hret as (st & h' & Hrun); [simpl; discriminate | reflexivity |].
  exists st, h'. split; [exact Hrun|].
  destruct (Hsum st h' Hrun) as (H1 & H2 & _). split; [exact H1 | exact H2].
Defined.

(** C1, as stated, fails: a line with nothing required and nothing
    allocated is counted both as Ready and as Missing. *)
Lemma item_counts_overlap :
  exists st h',
    calculate_project_status 0 "P2" [Study p2_table] = (inr (Some st), h')
    /\ total_items st = 2
    /\ ready_items st + partial_items st + missing_items st = 3.
Proof.
  eexists. eexists. split; [vm_compute; reflexivity|]. split; reflexivity.
Qed.

(** *** Overall status *)

Lemma py_eq_late (v : pyval) : py_eq v (Str "late") = true <-> v = Str "late".
Proof.
  destruct v as [q|s]; simpl.
  - split; discriminate.
  - rewrite String.eqb_eq. split; [now intros -> | now intros [= ->]].
Qed.

(** X27.  The status rule on every project with rows whose non-zero delays
    can be compared with one another: a status record is returned; the
    status is Ready exactly when the total balance is zero, otherwise
    Critical exactly when an item is missing or the maximum delay is
    ['late'], and Partial in the remaining case. *)
Lemma status_rule (h : heap) (df : ref) (table : list DemandLine)
    (project : string) :
  nth_error h df = Some (Study table) ->
  project_rows project table <> [] ->
  comparable (nonzero_delays (project_rows project table)) = true ->
  exists st h',
    calculate_project_status df project h = (inr (Some st), h')
    /\ total_balance st = series_sum (map balance (project_rows project table))
    /\ missing_items st =
         length (filter (fun r => Qeq_bool (allocated_qty r) 0)
                        (project_rows project table))
    /\ max_of (nonzero_delays (project_rows project table)) = inr (max_delay st)
    /\ (status st = Ready <-> (total_balance st == 0)%Q)
    /\ (status st = Critical <->
          ~ (total_balance st == 0)%Q
          /\ (0 < missing_items st \/ max_delay st = Str "late"))
    /\ (status st = Partial <->
          ~ (total_balance st == 0)%Q
          /\ ~ (0 < missing_items st \/ max_delay st = Str "late")).
Proof.
  intros Hdf Hne Hcmp.
  destruct (calculate_project_status_returns _ _ _ _ Hdf Hne Hcmp) as (st & h' & Hrun).
  exists st, h'. split; [assumption|].
  destruct (calculate_project_status_inv _ _ _ _ _ _ Hdf Hrun)
    as (_ & _ & _ & _ & Hm & _ & _ & Hb & _ & Hmax & Hst).
  repeat (split; [assumption|]).
  assert (Hcrit : (0 <? missing_items st) || py_eq (max_delay st) (Str "late") = true
                  <-> 0 < missing_items st \/ max_delay st = Str "late")
    by (now rewrite orb_true_iff, Nat.ltb_lt, py_eq_late).
  rewrite Hst. destruct (Qeq_bool (total_balance st) 0) eqn:Eb.
  - apply Qeq_bool_iff in Eb.
    repeat split; intros; try discriminate; try reflexivity; tauto.
  - apply Qeq_bool_neq in Eb.
    destruct ((0 <? missing_items st) || py_eq (max_delay st) (Str "late")) eqn:Ec.
    + assert (Hc := proj1 Hcrit eq_refl).
      repeat split; intros; try discriminate; try reflexivity; tauto.
    + assert (Hc : ~ (0 < missing_items st \/ max_delay st = Str "late"))
        by (intros Hc; apply Hcrit in Hc; discriminate).
      repeat split; intros; try discriminate; try reflexivity; tauto.
Qed.

(** An example: project "P1" has one Ready and one Missing line, is two
    thirds fulfilled and Critical. *)
Example status_p1 :
  exists st h',
    calculate_project_status 0 "P1" [Study p1_table] = (inr (Some st), h')
    /\ ready_items st = 1 /\ partial_items st = 0 /\ missing_items st = 1
    /\ (fulfillment_pct st == 200 # 3)%Q
    /\ status st = Critical.
Proof.
  do 2 eexists. split; [vm_compute; reflexivity|]. repeat split.
Qed.

(** C2: the failing input.  A project with a numeric delay and a ['late']
    delay gets no status: [max] of the two delays raises [TypeError]. *)
Theorem status_mixed_delays_raises :
  project_rows "P3" p3_table = p3_table
  /\ fst (calculate_project_status 0 "P3" [Study p3_table]) = inl TypeError.
Proof. split; reflexivity. Qed.

(** *** Fulfillment percentage *)

Lemma series_sum_le (f g : DemandLine -> Q) (rows : list DemandLine) :
  (forall r, In r rows -> (f r <= g r)%Q) ->
  (series_sum (map f rows) <= series_sum (map g rows))%Q.
Proof.
  induction rows as [|r rows IH]; intros H; simpl; [lra|].
  assert (H1 := H r (or_introl eq_refl)).
  assert (H2 := IH (fun r' Hr' => H r' (or_intror Hr'))). lra.
Qed.

Lemma series_sum_nonneg (f : DemandLine -> Q) (rows : list DemandLine) :
  (forall r, In r rows -> (0 <= f r)%Q) ->
  (0 <= series_sum (map f rows))%Q.
Proof.
  induction rows as [|r rows IH]; intros H; simpl; [lra|].
  assert (H1 := H r (or_introl eq_refl)).
  assert (H2 := IH (fun r' Hr' => H r' (or_intror Hr'))). lra.
Qed.

Lemma percentage_bounds (a r : Q) :
  (0 < r)%Q -> (0 <= a)%Q -> (a <= r)%Q ->
  (0 <= a / r * 100 /\ a / r * 100 <= 100)%Q.
Proof.
  intros Hr Ha Har.
  assert (H0 : (0 <= a / r)%Q) by (apply Qle_shift_div_l; [assumption | lra]).
  assert (H1 : (a / r <= 1)%Q) by (apply Qle_shift_div_r; [assumption | lra]).
  lra.
Qed.

(** C3 (as amended).  The fulfillment percentage of a returned status is
    total allocated / total required * 100 when the total required is
    positive and exactly 0 when it is zero; when every row of the project
    has 0 <= allocated <= required, it lies in [0, 100].  A project with
    rows gets a status whenever its non-zero delays can be compared with
    one another. *)
Theorem fulfillment_pct_spec (h : heap) (df : ref) (table : list DemandLine)
    (project : string) :
  nth_error h df = Some (Study table) ->
  (forall st h',
     calculate_project_status df project h = (inr (Some st), h') ->
     total_req st = series_sum (map req_qty (project_rows project table))
     /\ total_allocated st
        = series_sum (map allocated_qty (project_rows project table))
     /\ ((0 < total_req st)%Q ->
         fulfillment_pct st = (total_allocated st / total_req st * 100)%Q)
     /\ ((total_req st == 0)%Q -> fulfillment_pct st = 0%Q)
     /\ ((forall r, In r table -> SEC_order r = project ->
            (0 <= allocated_qty r)%Q /\ (allocated_qty r <= req_qty r)%Q) ->
         (0 <= fulfillment_pct st)%Q /\ (fulfillment_pct st <= 100)%Q))
  /\ (project_rows project table <> [] ->
      comparable (nonzero_delays (project_rows project table)) = true ->
      exists st h', calculate_project_status df project h = (inr (Some st), h')).
Proof.
  intros Hdf. split; [|now apply calculate_project_status_returns].
  intros st h' Hrun.
  destruct (calculate_project_status_inv _ _ _ _ _ _ Hdf Hrun)
    as (_ & _ & _ & _ & _ & Hr & Ha & _ & Hpct & _).
  split; [assumption|]. split; [assumption|].
  rewrite Hpct. split; [|split].
  - intros Hpos. apply Qgt_bool_iff in Hpos. now rewrite Hpos.
  - intros Hz. replace (Qgt_bool (total_req st) 0) with false; [reflexivity|].
    symmetry. apply Qgt_bool_false_iff. lra.
  - intros Hrows. destruct (Qgt_bool (total_req st) 0) eqn:Hgt; [|lra].
    apply Qgt_bool_iff in Hgt. apply percentage_bounds; [assumption| |].
    + rewrite Ha. apply series_sum_nonneg. intros r Hin.
      apply in_project_rows in Hin as [Hin Hp]. now apply Hrows.
    + rewrite Ha, Hr. apply series_sum_le. intros r Hin.
      apply in_project_rows in Hin as [Hin Hp]. now apply Hrows.
Qed.

Lemma fulfillment_pct_spec_witness :
  exists st h',
    calculate_project_status 0 "P1" [Study p1_table] = (inr (Some st), h')
    /\ (total_req st == 15)%Q
    /\ (fulfillment_pct st == 200 # 3)%Q
    /\ (0 <= fulfillment_pct st)%Q /\ (fulfillment_pct st <= 100)%Q.
Proof.
  destruct (fulfillment_pct_spec [Study p1_table] 0 p1_table "P1" eq_refl)
    as [Hspec Hret].
  destruct Hret as (st & h' & Hrun); [simpl; discriminate | reflexivity |].
  exists st, h'. split; [exact Hrun|].
  destruct (Hspec st h' Hrun) as (Hr & Ha & Hpos & _ & Hbound).
  assert (H15 : (total_req st == 15)%Q) by (rewrite Hr; reflexivity).
  split; [exact H15|]. split.
  - rewrite Hpos by (rewrite H15; qcompare). rewrite Ha, Hr. reflexivity.
  - apply Hbound. intros r [<-|[<-|[]]] _; simpl; split; qcompare.
Defined.

(** C3, as stated, fails: with allocated <= required and balance >= 0 in
    every row the percentage can still be negative. *)
Lemma fulfillment_pct_negative :
  (forall r, In r p4_table ->
     (0 <= balance r)%Q /\ (allocated_qty r <= req_qty r)%Q)
  /\ exists st h',
       calculate_project_status 0 "P4" [Study p4_table] = (inr (Some st), h')
       /\ (fulfillment_pct st == -50)%Q
       /\ ~ (0 <= fulfillment_pct st)%Q.
Proof.
  split.
  - intros r [<-|[]]; simpl; split; qcompare.
  - eexists. eexists. split; [vm_compute; reflexivity|].
    split; [reflexivity|]. simpl. qcompare.
Qed.

(** ** Grouping and sorting *)

Lemma unique_In (ks : list string) (k : string) :
  In k (unique String.eqb ks) <-> In k ks.
Proof.
  induction ks as [|k0 ks IH]; simpl; [tauto|].
  rewrite filter_In, IH, negb_true_iff, String.eqb_neq.
  destruct (String.eqb_spec k k0) as [->|Hne]; [tauto|].
  split; [tauto|]. intros [->|H]; [tauto | now right].
Qed.

Lemma unique_NoDup (ks : list string) : NoDup (unique String.eqb ks).
Proof.
  induction ks as [|k0 ks IH]; simpl; constructor.
  - rewrite filter_In, String.eqb_refl. intros [_ H]. discriminate.
  - now apply NoDup_filter.
Qed.

Lemma insert_key_perm {K} (leb : K -> K -> bool) (k : K) (ks : list K) :
  Permutation (k :: ks) (insert_key leb k ks).
Proof.
  induction ks as [|k' ks IH]; simpl; [reflexivity|].
  destruct (leb k k'); [reflexivity|].
  rewrite perm_swap. now apply perm_skip.
Qed.

Lemma string_keys_perm (ks : list string) :
  Permutation (unique String.eqb ks) (string_keys ks).
Proof.
  unfold string_keys, group_keys.
  induction (unique String.eqb ks) as [|k l IH]; simpl; [reflexivity|].
  rewrite <- insert_key_perm. now apply perm_skip.
Qed.

Lemma string_keys_In (ks : list string) (k : string) :
  In k (string_keys ks) <-> In k ks.
Proof.
  split; intros H.
  - apply unique_In.
    eapply Permutation_in; [symmetry; apply string_keys_perm | exact H].
  - eapply Permutation_in; [apply string_keys_perm | now apply unique_In].
Qed.

Lemma string_keys_NoDup (ks : list string) : NoDup (string_keys ks).
Proof.
  eapply Permutation_NoDup; [apply string_keys_perm | apply unique_NoDup].
Qed.

Section SortFacts.
Context {A : Type} (by_ : A -> Q).

Lemma insert_desc_perm (a : A) (l : list A) :
  Permutation (a :: l) (insert_desc by_ a l).
Proof.
  induction l as [|x l IH]; simpl; [reflexivity|].
  destruct (Qle_bool (by_ x) (by_ a)); [reflexivity|].
  rewrite perm_swap. now apply perm_skip.
Qed.

Lemma sort_values_desc_perm (l : list A) :
  Permutation l (sort_values_desc by_ l).
Proof.
  induction l as [|a l IH]; simpl; [reflexivity|].
  rewrite <- insert_desc_perm. now apply perm_skip.
Qed.

Lemma insert_desc_sorted (a : A) (l : list A) :
  Sorted (desc by_) l -> Sorted (desc by_) (insert_desc by_ a l).
Proof.
  induction l as [|x l IH]; intros Hs; simpl.
  - repeat constructor.
  - destruct (Qle_bool (by_ x) (by_ a)) eqn:Hle.
    + constructor; [assumption|]. constructor. now apply Qle_bool_iff.
    + assert (Hlt : (by_ a < by_ x)%Q).
      { apply Qnot_le_lt. intros H. apply Qle_bool_iff in H. congruence. }
      inversion Hs as [|x' l' Hs' Hhd]; subst.
      constructor; [now apply IH|].
      destruct l as [|y l]; simpl.
      * constructor. unfold desc. lra.
      * destruct (Qle_bool (by_ y) (by_ a)).
        -- constructor. unfold desc. lra.
        -- constructor. now inversion Hhd.
Qed.

Lemma sort_values_desc_sorted (l : list A) :
  Sorted (desc by_) (sort_values_desc by_ l).
Proof.
  induction l as [|a l IH]; simpl; [constructor|].
  now apply insert_desc_sorted.
Qed.
End SortFacts.

(** ** supplier_performance *)

Lemma suppliers_In (rows : list DemandLine) (s : string) :
  In s (suppliers rows) <-> exists r, In r rows /\ supplier r = Some s.
Proof.
  induction rows as [|r rows IH]; simpl.
  - split; [tauto | now intros (r & [] & _)].
  - destruct (supplier r) as [s'|] eqn:Hs; simpl; rewrite ?IH.
    + split.
      * intros [->|(r' & Hin & Hr')]; [exists r; tauto | exists r'; tauto].
      * intros (r' & [<-|Hin] & Hr'); [left; congruence | right; eauto].
    + split.
      * intros (r' & Hin & Hr'). exists r'; tauto.
      * intros (r' & [<-|Hin] & Hr'); [congruence | eauto].
Qed.

Lemma numeric_ok (vs : list pyval) :
  forallb is_num vs = true -> exists qs, numeric vs = inr qs /\ vs = map Num qs.
Proof.
  induction vs as [|[q|s] vs IH]; simpl; intros H.
  - now exists [].
  - destruct (IH H) as (qs & Hq & Hvs). exists (q :: qs).
    rewrite Hq. simpl. now rewrite Hvs.
  - discriminate.
Qed.

Lemma numeric_raises (vs : list pyval) :
  forallb is_num vs = false -> numeric vs = inl TypeError.
Proof.
  induction vs as [|[q|s] vs IH]; simpl; intros H.
  - discriminate.
  - now rewrite (IH H).
  - reflexivity.
Qed.

(** The aggregates of a group whose delays are all numbers. *)
Lemma agg_group_ok (k : string) (group : list DemandLine) :
  forallb is_num (map delay group) = true ->
  exists st, agg_group k group = inr st.
Proof.
  intros Hnum. unfold agg_group, series_mean.
  destruct (numeric_ok _ Hnum) as (qs & Hq & _). rewrite Hq.
  assert (Hc : comparable (map delay group) = true)
    by (unfold comparable; now rewrite Hnum).
  destruct (max_of_comparable _ Hc) as [mx Hmx]. unfold max_of in Hmx.
  rewrite Hmx. eauto.
Qed.

(** What the aggregates of a group are. *)
Lemma agg_group_inv (k : string) (group : list DemandLine) (st : SupplierStat) :
  agg_group k group = inr st ->
  stat_supplier st = k
  /\ delayed_items st = length group
  /\ series_mean (map delay group) = inr (avg_delay_days st)
  /\ max_of (map delay group) = inr (max_delay_days st)
  /\ total_qty_delayed st = series_sum (map allocated_qty group).
Proof.
  unfold agg_group, max_of. intros H.
  destruct (series_mean (map delay group)) as [e|mean]; [discriminate|].
  destruct (match map delay group with [] => _ | v :: vs => _ end) as [e|mx];
    [discriminate|].
  injection H as <-. simpl. now rewrite length_map.
Qed.

Lemma agg_groups_ok (keys : list string) (rows : list DemandLine) :
  forallb is_num (map delay rows) = true ->
  exists stats,
    agg_groups keys rows = inr stats
    /\ map stat_supplier stats = keys
    /\ Forall (fun st =>
                 agg_group (stat_supplier st)
                           (filter (supplier_is (stat_supplier st)) rows) = inr st)
              stats.
Proof.
  intros Hnum. induction keys as [|k keys IH]; simpl.
  - exists []. repeat split. constructor.
  - destruct (agg_group_ok k (filter (supplier_is k) rows)) as [st Hst].
    { rewrite forallb_forall in *. intros v Hv.
      apply in_map_iff in Hv as (r & <- & Hr). apply filter_In in Hr as [Hr _].
      apply Hnum. now apply in_map. }
    destruct IH as (stats & Hs & Hk & Hall). rewrite Hst, Hs.
    exists (st :: stats). destruct (agg_group_inv _ _ _ Hst) as (Hsup & _).
    repeat split.
    + simpl. now rewrite Hsup, Hk.
    + constructor; [now rewrite Hsup | assumption].
Qed.

Lemma agg_groups_raises (keys : list string) (rows : list DemandLine) (e : exn) :
  agg_groups keys rows = inl e -> e = TypeError.
Proof.
  induction keys as [|k keys IH]; simpl; [discriminate|].
  destruct (agg_group k _) as [e'|st] eqn:Hg.
  - intros [= <-]. unfold agg_group, series_mean in Hg.
    destruct (numeric _) as [e1|qs] eqn:Hn.
    + injection Hg as <-.
      destruct (forallb is_num (map delay (filter (supplier_is k) rows))) eqn:Hf.
      * destruct (numeric_ok _ Hf) as (qs & Hq & _). congruence.
      * rewrite (numeric_raises _ Hf) in Hn. congruence.
    + destruct (map delay _) as [|v vs] eqn:Hd; [discriminate|].
      destruct (series_max v vs) as [e2|mx] eqn:Hm; [|discriminate].
      injection Hg as <-.
      assert (Hf : forallb is_num (v :: vs) = true).
      { destruct (forallb is_num (v :: vs)) eqn:Hf; [reflexivity|].
        rewrite (numeric_raises _ Hf) in Hn. discriminate. }
      simpl in Hf. apply andb_true_iff in Hf as [Hv Hvs].
      destruct (series_max_nums v vs Hv Hvs) as [q Hq]. congruence.
  - destruct (agg_groups keys rows) as [e'|ss]; [|discriminate].
    intros [= <-]. now apply IH.
Qed.

(** [max] of a column of numbers is one of them and bounds them all. *)
Lemma series_max_numbers (q0 : Q) (qs : list Q) :
  exists m, series_max (Num q0) (map Num qs) = inr (Num m)
            /\ In m (q0 :: qs)
            /\ forall q, In q (q0 :: qs) -> (q <= m)%Q.
Proof.
  revert q0. induction qs as [|q1 qs IH]; intros q0; simpl.
  - exists q0. repeat split; [now left|]. intros q [<-|[]]. lra.
  - destruct (Qle_bool q1 q0) eqn:Hle.
    + apply Qle_bool_iff in Hle.
      destruct (IH q0) as (m & Hm & Hin & Hub). exists m.
      repeat split; [assumption | |].
      * destruct Hin as [<-|Hin]; [now left | now right; right].
      * intros q [<-|[<-|Hq]].
        -- apply Hub. now left.
        -- assert (H0 := Hub q0 (or_introl eq_refl)). lra.
        -- apply Hub. now right.
    + assert (Hlt : (q0 < q1)%Q).
      { apply Qnot_le_lt. intros H. apply Qle_bool_iff in H. congruence. }
      destruct (IH q1) as (m & Hm & Hin & Hub). exists m.
      repeat split; [assumption | |].
      * destruct Hin as [<-|Hin]; [now right; left | now right; right].
      * intros q [<-|[<-|Hq]].
        -- assert (H1 := Hub q1 (or_introl eq_refl)). lra.
        -- apply Hub. now left.
        -- apply Hub. now right.
Qed.

(** X28.  Supplier performance on a table in which the delayed rows that
    have a supplier all carry a numeric delay: the frame returned lists exactly
    the suppliers with a delayed row, each once, with the aggregates of
    the supplier's delayed rows, in descending order of the mean delay. *)
Lemma supplier_performance_numeric (h : heap) (df : ref)
    (table : list DemandLine) :
  nth_error h df = Some (Study table) ->
  supplier_rows table <> [] ->
  forallb is_num (map delay (delayed_rows table)) = true ->
  exists r h' stats,
    supplier_performance df h = (inr (Some r), h')
    /\ nth_error h' r = Some (Stats stats_columns stats)
    /\ (forall s, In s (map stat_supplier stats) <->
          exists row, In row table /\ supplier row = Some s
                      /\ py_ne (delay row) (Num 0) = true)
    /\ NoDup (map stat_supplier stats)
    /\ Forall (fun st =>
                 agg_group (stat_supplier st)
                   (filter (supplier_is (stat_supplier st)) (delayed_rows table))
                 = inr st) stats
    /\ Sorted (desc avg_delay_days) stats.
Proof.
  intros Hdf Hne Hnum. unfold supplier_performance.
  do 2 step. fold (supplier_rows table).
  destruct (supplier_rows table) as [|r0 rows'] eqn:Hrows; [congruence|].
  rewrite <- Hrows in *. replace (empty _) with false by (now rewrite Hrows).
  do 2 step. fold (delayed_rows table).
  destruct (agg_groups_ok (string_keys (suppliers (delayed_rows table))) _ Hnum)
    as (stats & Hagg & Hkeys & Hall).
  unfold groupby_supplier_agg. rewrite Hagg.
  do 4 step. unfold ret.
  eexists. eexists. exists (sort_values_desc avg_delay_days stats).
  split; [reflexivity|]. split; [apply nth_error_snoc|].
  assert (Hperm := sort_values_desc_perm avg_delay_days stats).
  split; [|split; [|split]].
  - intros s.
    assert (Hs : In s (map stat_supplier (sort_values_desc avg_delay_days stats))
                 <-> In s (map stat_supplier stats)).
    { split; apply Permutation_in; [symmetry|]; now apply Permutation_map. }
    rewrite Hs, Hkeys, string_keys_In, suppliers_In.
    unfold delayed_rows, supplier_rows. split.
    + intros (row & Hin & Hsup).
      apply filter_In in Hin as [Hin Hd]. apply filter_In in Hin as [Hin _].
      now exists row.
    + intros (row & Hin & Hsup & Hd). exists row. split; [|assumption].
      apply filter_In. split; [|assumption].
      apply filter_In. split; [assumption|]. now rewrite Hsup.
  - eapply Permutation_NoDup; [apply Permutation_map; exact Hperm|].
    rewrite Hkeys. apply string_keys_NoDup.
  - rewrite Forall_forall in *. intros st Hin. apply Hall.
    eapply Permutation_in; [symmetry; exact Hperm | exact Hin].
  - apply sort_values_desc_sorted.
Qed.

(** Without a row that has a supplier there is no frame. *)
Lemma supplier_performance_none (h : heap) (df : ref) (table : list DemandLine) :
  nth_error h df = Some (Study table) ->
  supplier_rows table = [] ->
  fst (supplier_performance df h) = inr None.
Proof.
  intros Hdf Hnone. unfold supplier_performance.
  do 2 step. fold (supplier_rows table). now rewrite Hnone.
Qed.

(** An example: ACME with mean 7, BOLT with mean 5/2, CORE with mean 1;
    the row on time and the row without a supplier do not count. *)
Example supplier_performance_p8 :
  exists r h',
    supplier_performance 0 [Study p8_table] = (inr (Some r), h')
    /\ nth_error h' r
       = Some (Stats stats_columns
                 [ {| stat_supplier := "ACME"; delayed_items := 1;
                      avg_delay_days := 7; max_delay_days := Num 7;
                      total_qty_delayed := 5 |};
                   {| stat_supplier := "BOLT"; delayed_items := 2;
                      avg_delay_days := 5 # 2; max_delay_days := Num 3;
                      total_qty_delayed := 15 |};
                   {| stat_supplier := "CORE"; delayed_items := 1;
                      avg_delay_days := 1; max_delay_days := Num 1;
                      total_qty_delayed := 5 |} ]).
Proof. do 2 eexists. split; vm_compute; reflexivity. Qed.

(** C4: the failing input.  ACME has a delayed row with a numeric delay,
    BOLT one whose delay is ['late']: the aggregation raises [TypeError]
    and no frame is returned, for either supplier. *)
Theorem supplier_performance_late_raises :
  delayed_rows p7_table = p7_table
  /\ fst (supplier_performance 0 [Study p7_table]) = inl TypeError.
Proof. split; reflexivity. Qed.

(** ** material_inquiry *)

Lemma in_append_if {A} (rows : list A) (msg m : issue) (issues : list issue) :
  In m (append_if rows msg issues) <-> In m issues \/ (rows <> [] /\ m = msg).
Proof.
  unfold append_if. destruct rows as [|r rows]; simpl.
  - split; [tauto | intros [H|[H _]]; [assumption | congruence]].
  - rewrite in_app_iff. simpl. split.
    + intros [H|[<-|[]]]; [tauto | right; split; [discriminate | reflexivity]].
    + intros [H|[_ ->]]; tauto.
Qed.

Lemma filter_nonempty {A} (f : A -> bool) (l : list A) :
  filter f l <> [] <-> exists a, In a l /\ f a = true.
Proof.
  split.
  - destruct (filter f l) as [|a l'] eqn:Hf; [congruence|]. intros _.
    exists a. apply filter_In. rewrite Hf. now left.
  - intros (a & Hin & Ha) Hf.
    assert (H : In a (filter f l)) by (now apply filter_In).
    now rewrite Hf in H.
Qed.

(** The inquiry of an item with rows, and its list of issues. *)
Lemma material_inquiry_run (h : heap) (df : ref) (table : list DemandLine)
    (item_code : string) :
  nth_error h df = Some (Study table) ->
  item_rows item_code table <> [] ->
  let rows := item_rows item_code table in
  exists inq h',
    material_inquiry df item_code h = (inr (Some inq), h')
    /\ Inquiry.total_req inq = series_sum (map req_qty rows)
    /\ Inquiry.total_allocated inq = series_sum (map allocated_qty rows)
    /\ Inquiry.total_balance inq = series_sum (map balance rows)
    /\ Inquiry.blocking_issues inq =
         append_if (of_type "PR" rows)
           (NeedPRCreation (series_sum (map balance (of_type "PR" rows))))
           (append_if (late_orders rows)
              (OnDelayedPOs (series_sum (map allocated_qty (late_orders rows))))
              (append_if (of_type "GR_in_process" rows)
                 (InGRProcess
                    (series_sum (map allocated_qty (of_type "GR_in_process" rows))))
                 (append_if (of_type "QC" rows)
                    (StuckInQC (series_sum (map allocated_qty (of_type "QC" rows))))
                    []))).
Proof.
  intros Hdf Hne rows. unfold material_inquiry.
  do 2 step. fold (item_rows item_code table). fold rows.
  destruct rows as [|r0 rows'] eqn:Hrows; [exfalso; apply Hne; exact Hrows|].
  rewrite <- Hrows.
  do 8 step. unfold ret. eexists. eexists. split; [reflexivity|].
  simpl. repeat split; reflexivity.
Qed.

(** C5 (as amended).  For every item code with at least one row the four
    rules fire independently: a stuck-in-QC message exactly when the item
    has a row of supply type QC, a pending-GR message exactly when it has a
    row in goods receipt, a delayed-PO message exactly when it has a
    purchase-order row with the ['late'] delay, and a PR-creation message
    exactly when it has a purchase-requisition row; each message carries
    the quantity summed over those rows, whether or not it is positive. *)
Theorem blocking_issues_rules (h : heap) (df : ref) (table : list DemandLine)
    (item_code : string) :
  nth_error h df = Some (Study table) ->
  item_rows item_code table <> [] ->
  let rows := item_rows item_code table in
  exists inq h',
    material_inquiry df item_code h = (inr (Some inq), h')
    /\ (forall q, In (StuckInQC q) (Inquiry.blocking_issues inq) <->
          (exists r, In r rows /\ supply_type r = "QC")
          /\ q = series_sum (map allocated_qty (of_type "QC" rows)))
    /\ (forall q, In (InGRProcess q) (Inquiry.blocking_issues inq) <->
          (exists r, In r rows /\ supply_type r = "GR_in_process")
          /\ q = series_sum (map allocated_qty (of_type "GR_in_process" rows)))
    /\ (forall q, In (OnDelayedPOs q) (Inquiry.blocking_issues inq) <->
          (exists r, In r rows /\ supply_type r = "PO" /\ delay r = Str "late")
          /\ q = series_sum (map allocated_qty (late_orders rows)))
    /\ (forall q, In (NeedPRCreation q) (Inquiry.blocking_issues inq) <->
          (exists r, In r rows /\ supply_type r = "PR")
          /\ q = series_sum (map balance (of_type "PR" rows))).
Proof.
  intros Hdf Hne rows.
  destruct (material_inquiry_run _ _ _ _ Hdf Hne) as (inq & h' & Hrun & _ & _ & _ & Hiss).
  fold rows in Hiss. exists inq, h'. split; [assumption|].
  rewrite Hiss.
  assert (Htype : forall stype,
             of_type stype rows <> [] <->
             exists r, In r rows /\ supply_type r = stype).
  { intros stype. unfold of_type. rewrite filter_nonempty.
    split; intros (r & Hin & Hr); exists r; (split; [assumption|]);
      now apply String.eqb_eq. }
  assert (Hlate : late_orders rows <> [] <->
             exists r, In r rows /\ supply_type r = "PO" /\ delay r = Str "late").
  { unfold late_orders. rewrite filter_nonempty.
    split; intros (r & Hin & Hr); exists r; (split; [assumption|]).
    - apply andb_true_iff in Hr as [H1 H2].
      split; [now apply String.eqb_eq | now apply py_eq_late].
    - destruct Hr as [H1 H2]. apply andb_true_iff.
      split; [now apply String.eqb_eq | now apply py_eq_late]. }
  split; [|split; [|split]]; intros q; rewrite !in_append_if; simpl;
    rewrite <- ?Htype, <- ?Hlate;
    (split;
     [ intros H; repeat (destruct H as [H|H]); try contradiction;
       destruct H as [H1 H2]; try discriminate; injection H2 as ->; tauto
     | intros [H1 ->]; tauto ]).
Qed.

Lemma blocking_issues_rules_witness :
  exists inq h',
    material_inquiry 0 "ITM1" [Study itm1_table] = (inr (Some inq), h')
    /\ In (StuckInQC 3) (Inquiry.blocking_issues inq)
    /\ In (NeedPRCreation 2) (Inquiry.blocking_issues inq).
Proof.
  assert (Hne : item_rows "ITM1" itm1_table <> []) by (simpl; discriminate).
  destruct (blocking_issues_rules [Study itm1_table] 0 itm1_table "ITM1" eq_refl Hne)
    as (inq & h' & Hrun & Hqc & _ & _ & Hpr).
  exists inq, h'. split; [exact Hrun|]. split.
  - apply Hqc. split; [|reflexivity].
    eexists. split; [left; reflexivity | reflexivity].
  - apply Hpr. split; [|reflexivity].
    eexists. split; [right; left; reflexivity | reflexivity].
Defined.

(** C5, as stated, fails: the stuck-in-QC message is produced for an item
    whose quantity held in quality control is not greater than 0. *)
Lemma stuck_in_qc_without_quantity :
  exists inq h',
    material_inquiry 0 "ITM5" [Study itm5_table] = (inr (Some inq), h')
    /\ In (StuckInQC 0) (Inquiry.blocking_issues inq)
    /\ ~ (0 < series_sum (map allocated_qty
                              (of_type "QC" (item_rows "ITM5" itm5_table))))%Q.
Proof.
  eexists. eexists. split; [vm_compute; reflexivity|]. split.
  - left. reflexivity.
  - simpl. qcompare.
Qed.

(** ** show_push_to_production *)

Lemma getitem_cols_run (h : heap) (r : ref) (rows : list DemandLine)
    (cols : list string) (fs : list (DemandLine -> cell)) :
  nth_error h r = Some (Study rows) ->
  accessors cols = inr fs ->
  let d := Display cols (map (fun row => map (fun f => f row) fs) rows) in
  getitem_cols r cols h = (inr (length (h ++ [d])), (h ++ [d]) ++ [d]).
Proof.
  intros Hr Hfs d. unfold getitem_cols.
  step. rewrite Hfs. simpl lift. unfold ret at 1.
  rewrite (bind_run _ _ h h fs) by reflexivity.
  step. apply copy_run. lookup.
Qed.

Lemma setitem_apply_run (h : heap) (cols : list string) (body : list (list cell))
    (new_name src : string) (f : cell -> cell) (i : nat) :
  index_of src cols = Some i ->
  setitem_apply (length h) new_name src f (h ++ [Display cols body])
  = (inr tt,
     h ++ [Display (cols ++ [new_name])
                   (map (fun row => row ++ [f (nth i row CNaN)]) body)]).
Proof.
  intros Hi. unfold setitem_apply.
  rewrite (bind_run _ _ _ _ _ (load_run _ _ _ (nth_error_snoc h _))).
  rewrite Hi. unfold store. now rewrite update_snoc.
Qed.

(** A bucket: the frame of the masked rows, at a reference that stays
    valid, in a heap that extends the given one. *)
Lemma bucket_run (h : heap) (fdf : ref) (rows : list DemandLine)
    (mask : DemandLine -> bool) (cols names : list string)
    (fs : list (DemandLine -> cell)) :
  nth_error h fdf = Some (Study rows) ->
  accessors cols = inr fs ->
  exists ext,
    bucket fdf mask cols names h
    = (inr (length (h ++ [Study (filter mask rows)])),
       ((h ++ [Study (filter mask rows)]) ++ [Study (filter mask rows)]) ++ ext).
Proof.
  intros Hr Hfs. unfold bucket. do 2 step.
  destruct (filter mask rows) as [|r0 rows'] eqn:Hf.
  - exists []. simpl. unfold bind, ret. now rewrite app_nil_r.
  - rewrite <- Hf. replace (empty (filter mask rows)) with false by (now rewrite Hf).
    eexists.
    erewrite (bind_run (_ ;; _)).
    2:{ erewrite bind_run by (eapply getitem_cols_run; [lookup | exact Hfs]).
        apply set_columns_display_run. }
    unfold ret. rewrite <- (app_assoc _ [_] [_]). reflexivity.
Qed.

Lemma reallocation_display_run (h : heap) (items : ref) (rows : list DemandLine) :
  nth_error h items = Some (Study rows) ->
  exists ext, reallocation_display items h = (inr tt, h ++ ext).
Proof.
  intros Hr. unfold reallocation_display.
  change (filter _ ["item"; "description"; "allocated_qty"; "SEC order";
                    "source"; "locater"])
    with ["item"; "description"; "allocated_qty"; "SEC order"; "source"; "locater"].
  change (map rename_column _)
    with ["Item Code"; "Description"; "Qty to Reallocate"; "Project";
          "Source Project"; "Locater"].
  change (isin "Source Project" _) with true. cbv iota.
  erewrite bind_run by (eapply getitem_cols_run; [lookup | reflexivity]).
  erewrite bind_run by apply set_columns_display_run.
  erewrite setitem_apply_run by reflexivity.
  eexists. rewrite <- (app_assoc _ [_] [_]). reflexivity.
Qed.

Ltac run_bucket :=
  match goal with
  | |- context [bind (bucket ?fdf ?mask ?cols ?names) ?k ?H] =>
      let ext := fresh "ext" in
      let Hb := fresh "Hb" in
      eassert (Hb : exists ext, bucket fdf mask cols names H = _)
        by (eapply bucket_run; [lookup | reflexivity]);
      destruct Hb as [ext Hb];
      rewrite (bind_run _ _ _ _ _ Hb); clear Hb
  end.

(** The five bucket frames hold the rows their masks select. *)
Lemma blocker_buckets_run (h : heap) (fdf : ref) (rows : list DemandLine)
    (selected : list string) :
  nth_error h fdf = Some (Study rows) ->
  exists b h',
    blocker_buckets fdf selected h = (inr b, h')
    /\ nth_error h' (Push.qc_items b)
       = Some (Study (filter (fun r => String.eqb (supply_type r) "QC") rows))
    /\ nth_error h' (Push.gr_items b)
       = Some (Study (filter (fun r => String.eqb (supply_type r) "GR_in_process")
                             rows))
    /\ nth_error h' (Push.wip_items b)
       = Some (Study (filter (fun r => String.eqb (locater r) "1-1-1-1") rows))
    /\ nth_error h' (Push.allocate_items b)
       = Some (Study (filter (needs_reallocation selected) rows))
    /\ nth_error h' (Push.missing_items b)
       = Some (Study (filter is_missing rows)).
Proof.
  intros Hr. unfold blocker_buckets.
  run_bucket. run_bucket. run_bucket.
  do 2 step.
  match goal with
  | |- context [bind (if ?c then ret tt else reallocation_display ?r) ?k ?H] =>
      assert (Hd : exists ext, (if c then ret tt else reallocation_display r) H
                               = (inr tt, H ++ ext))
  end.
  { destruct (empty _).
    - exists []. unfold ret. now rewrite app_nil_r.
    - eapply reallocation_display_run. lookup. }
  destruct Hd as [ext2 Hd]. rewrite (bind_run _ _ _ _ _ Hd). clear Hd.
  run_bucket. unfold ret. eexists. eexists. split; [reflexivity|].
  simpl. repeat split; lookup.
Qed.

Lemma isin_In (s : string) (values : list string) :
  isin s values = true <-> In s values.
Proof.
  unfold isin. rewrite existsb_exists. split.
  - intros (x & Hin & Hx). apply String.eqb_eq in Hx. now subst.
  - intros Hin. exists s. split; [assumption | apply String.eqb_refl].
Qed.

Lemma needs_reallocation_iff (selected : list string) (r : DemandLine) :
  needs_reallocation selected r = true <->
  supply_type r = "inventory" /\ source r <> "free_stock"
  /\ ~ In (source r) selected.
Proof.
  unfold needs_reallocation.
  replace (if empty selected then [] else selected) with selected
    by (now destruct selected).
  rewrite !andb_true_iff, !negb_true_iff, String.eqb_eq, String.eqb_neq.
  rewrite <- not_true_iff_false, isin_In. tauto.
Qed.

(** C6.  For every selected frame and every selection, the reallocation
    bucket holds exactly the rows of the frame whose supply type is
    ["inventory"], whose source is not ["free_stock"] and whose source is
    not one of the selected identifiers. *)
Theorem reallocation_bucket_rule (h : heap) (filtered_df : ref)
    (rows : list DemandLine) (selected : list string) :
  nth_error h filtered_df = Some (Study rows) ->
  exists b h' bucket_rows,
    blocker_buckets filtered_df selected h = (inr b, h')
    /\ nth_error h' (Push.allocate_items b) = Some (Study bucket_rows)
    /\ forall r, In r bucket_rows <->
         In r rows /\ supply_type r = "inventory"
         /\ source r <> "free_stock" /\ ~ In (source r) selected.
Proof.
  intros Hr.
  destruct (blocker_buckets_run h filtered_df rows selected Hr)
    as (b & h' & Hrun & _ & _ & _ & Ha & _).
  exists b, h', (filter (needs_reallocation selected) rows).
  split; [assumption|]. split; [assumption|].
  intros r. now rewrite filter_In, needs_reallocation_iff.
Qed.

Lemma reallocation_bucket_rule_witness :
  exists b h' bucket_rows,
    blocker_buckets 0 ["ProjA"] [Study projA_rows] = (inr b, h')
    /\ nth_error h' (Push.allocate_items b) = Some (Study bucket_rows)
    /\ In from_ProjB bucket_rows
    /\ ~ In from_free_stock bucket_rows.
Proof.
  destruct (reallocation_bucket_rule [Study projA_rows] 0 projA_rows ["ProjA"] eq_refl)
    as (b & h' & bucket_rows & Hrun & Hb & Hrule).
  exists b, h', bucket_rows. split; [exact Hrun|]. split; [exact Hb|]. split.
  - apply Hrule. split; [left; reflexivity|]. split; [reflexivity|].
    split; [discriminate|]. intros [H|[]]. discriminate.
  - intros Hin. apply Hrule in Hin as (_ & _ & Hsrc & _). now apply Hsrc.
Defined.

(** *** Disjointness of the buckets *)

(** C8 (as amended).  The three buckets selected by supply type, QC-held,
    GR-pending and needs-reallocation, are pairwise disjoint. *)
Theorem supply_type_buckets_disjoint (h : heap) (filtered_df : ref)
    (rows : list DemandLine) (selected : list string) :
  nth_error h filtered_df = Some (Study rows) ->
  exists b h' qc gr realloc,
    blocker_buckets filtered_df selected h = (inr b, h')
    /\ nth_error h' (Push.qc_items b) = Some (Study qc)
    /\ nth_error h' (Push.gr_items b) = Some (Study gr)
    /\ nth_error h' (Push.allocate_items b) = Some (Study realloc)
    /\ forall r, ~ (In r qc /\ In r gr)
                 /\ ~ (In r qc /\ In r realloc)
                 /\ ~ (In r gr /\ In r realloc).
Proof.
  intros Hr.
  destruct (blocker_buckets_run h filtered_df rows selected Hr)
    as (b & h' & Hrun & Hqc & Hgr & _ & Ha & _).
  do 5 eexists. split; [eassumption|]. do 3 (split; [eassumption|]).
  intros r. rewrite !filter_In, needs_reallocation_iff, !String.eqb_eq.
  repeat split; intros H; decompose [and] H;
    match goal with
    | H1 : supply_type r = _, H2 : supply_type r = _ |- _ =>
        rewrite H1 in H2; discriminate
    end.
Qed.

Lemma supply_type_buckets_disjoint_witness :
  exists b h' qc gr realloc,
    blocker_buckets 0 ["ProjA"] [Study projA_rows] = (inr b, h')
    /\ nth_error h' (Push.qc_items b) = Some (Study qc)
    /\ nth_error h' (Push.gr_items b) = Some (Study gr)
    /\ nth_error h' (Push.allocate_items b) = Some (Study realloc)
    /\ ~ (In from_ProjB qc /\ In from_ProjB realloc).
Proof.
  destruct (supply_type_buckets_disjoint [Study projA_rows] 0 projA_rows ["ProjA"]
              eq_refl)
    as (b & h' & qc & gr & realloc & Hrun & Hqc & Hgr & Ha & Hdis).
  exists b, h', qc, gr, realloc. repeat (split; [assumption|]).
  apply (Hdis from_ProjB).
Defined.

(** C8, as stated, fails: one row is placed in the QC-held bucket, in the
    WIP-available bucket and in the missing bucket. *)
Lemma buckets_overlap :
  exists b h' qc wip missing,
    blocker_buckets 0 ["ProjA"] [Study [qc_on_floor]] = (inr b, h')
    /\ nth_error h' (Push.qc_items b) = Some (Study qc)
    /\ nth_error h' (Push.wip_items b) = Some (Study wip)
    /\ nth_error h' (Push.missing_items b) = Some (Study missing)
    /\ In qc_on_floor qc /\ In qc_on_floor wip /\ In qc_on_floor missing.
Proof.
  do 5 eexists. split; [vm_compute; reflexivity|].
  repeat split; try reflexivity; left; reflexivity.
Qed.

(** *** The readiness verdict *)

Lemma readiness_verdict_run (h : heap) (b : Push.Buckets)
    (qc gr ms : list DemandLine) (fulfillment : option Q) :
  nth_error h (Push.qc_items b) = Some (Study qc) ->
  nth_error h (Push.gr_items b) = Some (Study gr) ->
  nth_error h (Push.missing_items b) = Some (Study ms) ->
  readiness_verdict b fulfillment h
  = (verdict_of (length qc + length gr + length ms) fulfillment, h).
Proof.
  intros Hqc Hgr Hms. unfold readiness_verdict. do 3 step.
  set (n := length qc + length gr + length ms).
  unfold verdict_of, and_then, read_local.
  destruct fulfillment as [f|].
  - destruct (n =? 0); simpl.
    + unfold bind, ret. destruct (Qle_bool 100 f); [reflexivity|].
      destruct (n <=? 3); simpl; [|reflexivity].
      now destruct (Qle_bool 90 f).
    + unfold bind, ret. destruct (n <=? 3); simpl; [|reflexivity].
      now destruct (Qle_bool 90 f).
  - destruct (n =? 0) eqn:Hn.
    + apply Nat.eqb_eq in Hn. rewrite Hn. reflexivity.
    + unfold bind, ret, raise. now destruct (n <=? 3).
Qed.

(** The view of a non-empty selection that keeps some row. *)
Lemma show_push_to_production_run (h : heap) (df : ref) (table : list DemandLine)
    (filter_type : FilterType) (selected : list string) :
  nth_error h df = Some (Study table) ->
  selected <> [] ->
  selected_rows filter_type selected table <> [] ->
  let rows := selected_rows filter_type selected table in
  exists b h',
    show_push_to_production df filter_type selected h
    = (match verdict_of (blocker_count rows) (fulfillment_of rows) with
       | inl e => inl e
       | inr v => inr (Push.ActionPlan b v)
       end, h').
Proof.
  intros Hdf Hsel Hne rows. unfold show_push_to_production.
  assert (Hs : empty selected = false) by (destruct selected; [congruence | reflexivity]).
  rewrite Hs. do 2 step. fold (selected_rows filter_type selected table). fold rows.
  fold (fulfillment_of rows).
  destruct rows as [|r0 rows'] eqn:Hrows; [exfalso; apply Hne; exact Hrows|].
  rewrite <- Hrows. replace (empty rows) with false by (now rewrite Hrows).
  cbv [orb].
  edestruct (blocker_buckets_run) as (b & h' & Hrun & Hqc & Hgr & _ & _ & Hms);
    [|rewrite (bind_run _ _ _ _ _ Hrun)]; [lookup|].
  rewrite (bind_outcome _ _ _ _ _ (readiness_verdict_run _ _ _ _ _ _ Hqc Hgr Hms)).
  fold (blocker_count rows).
  exists b, h'. now destruct (verdict_of _ _).
Qed.

(** Nothing selected, or a selection that keeps no row: the view asks for
    a selection. *)
Lemma show_push_to_production_prompt (h : heap) (df : ref)
    (table : list DemandLine) (filter_type : FilterType) (selected : list string) :
  nth_error h df = Some (Study table) ->
  selected = [] \/ selected_rows filter_type selected table = [] ->
  fst (show_push_to_production df filter_type selected h) = inr Push.SelectPrompt.
Proof.
  intros Hdf Hnone. unfold show_push_to_production.
  destruct selected as [|s0 sel'].
  - change (empty (@nil string)) with true. cbv iota.
    rewrite (bind_run _ _ _ _ _ (new_run _ _)).
    now rewrite (bind_run _ _ _ _ _ (frame_rows_run _ _ _ (nth_error_snoc _ _))).
  - destruct Hnone as [Hnone|Hnone]; [discriminate|].
    change (empty (s0 :: sel')) with false. cbv iota.
    do 2 step. fold (selected_rows filter_type (s0 :: sel') table).
    now rewrite Hnone.
Qed.

(** C7 (as amended).  An empty selection gets no verdict.  For every
    non-empty selection whose total required quantity is positive, with
    the blocker count the number of QC-held, GR-pending and missing rows:
    the verdict is "all clear" when the count is 0 and fulfillment is at
    least 100, otherwise "almost ready" when the count is at most 3 and
    fulfillment is at least 90, and "not ready" otherwise. *)
Theorem readiness_verdict_rule (h : heap) (df : ref) (table : list DemandLine)
    (filter_type : FilterType) (selected : list string) :
  nth_error h df = Some (Study table) ->
  let rows := selected_rows filter_type selected table in
  let n := blocker_count rows in
  let f := (series_sum (map allocated_qty rows)
            / series_sum (map req_qty rows) * 100)%Q in
  (selected = [] \/ rows = [] ->
   fst (show_push_to_production df filter_type selected h) = inr Push.SelectPrompt)
  /\ (selected <> [] -> rows <> [] -> (0 < series_sum (map req_qty rows))%Q ->
      exists b h' v,
        show_push_to_production df filter_type selected h
        = (inr (Push.ActionPlan b v), h')
        /\ (n = 0 /\ (100 <= f)%Q -> v = Push.AllClear)
        /\ (~ (n = 0 /\ (100 <= f)%Q) -> n <= 3 /\ (90 <= f)%Q ->
            v = Push.AlmostReady n)
        /\ (~ (n = 0 /\ (100 <= f)%Q) -> ~ (n <= 3 /\ (90 <= f)%Q) ->
            v = Push.NotReady n)).
Proof.
  intros Hdf rows n f. split.
  - now apply show_push_to_production_prompt.
  - intros Hsel Hne Hreq.
    destruct (show_push_to_production_run _ _ _ filter_type _ Hdf Hsel Hne)
      as (b & h' & Hrun).
    fold rows in Hrun. fold n in Hrun.
    assert (Hf : fulfillment_of rows = Some f).
    { unfold fulfillment_of. apply Qgt_bool_iff in Hreq. rewrite Hreq.
      destruct rows; [now elim Hne | reflexivity]. }
    rewrite Hf in Hrun. unfold verdict_of in Hrun.
    assert (H1 : (n =? 0) && Qle_bool 100 f = true <-> n = 0 /\ (100 <= f)%Q)
      by (now rewrite andb_true_iff, Nat.eqb_eq, Qle_bool_iff).
    assert (H2 : (n <=? 3) && Qle_bool 90 f = true <-> n <= 3 /\ (90 <= f)%Q)
      by (now rewrite andb_true_iff, Nat.leb_le, Qle_bool_iff).
    destruct ((n =? 0) && Qle_bool 100 f) eqn:E1;
      [|destruct ((n <=? 3) && Qle_bool 90 f) eqn:E2];
      do 3 eexists; (split; [exact Hrun|]).
    + assert (Ha := proj1 H1 eq_refl).
      repeat split; intros; try reflexivity; tauto.
    + assert (Ha : ~ (n = 0 /\ (100 <= f)%Q))
        by (intros X; apply H1 in X; discriminate).
      assert (Hb := proj1 H2 eq_refl).
      repeat split; intros; try reflexivity; tauto.
    + assert (Ha : ~ (n = 0 /\ (100 <= f)%Q))
        by (intros X; apply H1 in X; discriminate).
      assert (Hb : ~ (n <= 3 /\ (90 <= f)%Q))
        by (intros X; apply H2 in X; discriminate).
      repeat split; intros; try reflexivity; tauto.
Qed.

Lemma readiness_verdict_rule_witness :
  exists b h',
    show_push_to_production 0 SEC_Order_filter ["P1"] [Study p1_table]
    = (inr (Push.ActionPlan b (Push.NotReady 1)), h').
Proof.
  assert (Hreq : (0 < series_sum (map req_qty
                    (selected_rows SEC_Order_filter ["P1"] p1_table)))%Q)
    by (simpl; qcompare).
  assert (Hsel : ["P1"] <> @nil string) by discriminate.
  assert (Hne : selected_rows SEC_Order_filter ["P1"] p1_table <> [])
    by (simpl; discriminate).
  destruct (proj2 (readiness_verdict_rule [Study p1_table] 0 p1_table
                     SEC_Order_filter ["P1"] eq_refl) Hsel Hne Hreq)
    as (b & h' & v & Hrun & _ & _ & Hnot).
  exists b, h'. rewrite Hrun. rewrite (Hnot).
  - reflexivity.
  - intros [H _]. revert H. vm_compute. discriminate.
  - intros [_ H]. revert H. simpl. qcompare.
Defined.

(** C7, as stated, fails: an empty selection gets no verdict, and a
    selection that requires nothing gets an exception, not "not ready". *)
Lemma verdict_missing :
  fst (show_push_to_production 0 SEC_Order_filter [] [Study [nothing_required]])
  = inr Push.SelectPrompt
  /\ fst (show_push_to_production 0 SEC_Order_filter ["P5"]
            [Study [nothing_required]])
     = inl UnboundLocalError.
Proof. split; reflexivity. Qed.

(** C10 (as amended).  For every non-empty selection whose total required
    quantity is not positive, the variable [fulfillment] is unassigned:
    with at most 3 blockers the assessment reads it and the view raises
    [UnboundLocalError]; with more than 3 blockers the assessment does not
    read it and the verdict is "not ready". *)
Theorem verdict_unassigned_fulfillment (h : heap) (df : ref)
    (table : list DemandLine) (filter_type : FilterType) (selected : list string) :
  nth_error h df = Some (Study table) ->
  let rows := selected_rows filter_type selected table in
  let n := blocker_count rows in
  selected <> [] -> rows <> [] -> ~ (0 < series_sum (map req_qty rows))%Q ->
  fulfillment_of rows = None
  /\ (n <= 3 ->
      fst (show_push_to_production df filter_type selected h)
      = inl UnboundLocalError)
  /\ (3 < n ->
      exists b, fst (show_push_to_production df filter_type selected h)
                = inr (Push.ActionPlan b (Push.NotReady n))).
Proof.
  intros Hdf rows n Hsel Hne Hreq.
  destruct (show_push_to_production_run _ _ _ filter_type _ Hdf Hsel Hne)
    as (b & h' & Hrun).
  fold rows in Hrun. fold n in Hrun.
  assert (Hf : fulfillment_of rows = None).
  { unfold fulfillment_of.
    destruct (Qgt_bool (series_sum (map req_qty rows)) 0) eqn:Hgt.
    - apply Qgt_bool_iff in Hgt. contradiction.
    - now rewrite andb_false_r. }
  split; [assumption|]. rewrite Hf in Hrun. unfold verdict_of in Hrun.
  rewrite Hrun. split; intros Hn.
  - apply Nat.leb_le in Hn. now rewrite Hn.
  - exists b. apply Nat.leb_gt in Hn. now rewrite Hn.
Qed.

Lemma verdict_unassigned_fulfillment_witness :
  fst (show_push_to_production 0 SEC_Order_filter ["P5"] [Study [nothing_required]])
  = inl UnboundLocalError.
Proof.
  assert (Hsel : ["P5"] <> @nil string) by discriminate.
  assert (Hne : selected_rows SEC_Order_filter ["P5"] [nothing_required] <> [])
    by (simpl; discriminate).
  assert (Hreq : ~ (0 < series_sum (map req_qty
                      (selected_rows SEC_Order_filter ["P5"] [nothing_required])))%Q)
    by (simpl; qcompare).
  apply (proj1 (proj2 (verdict_unassigned_fulfillment [Study [nothing_required]] 0
                         [nothing_required] SEC_Order_filter ["P5"] eq_refl
                         Hsel Hne Hreq))).
  vm_compute. lia.
Defined.

(** C10, as stated, fails: a non-empty selection whose total required
    quantity is 0 gets a verdict when it has more than 3 blockers. *)
Lemma verdict_without_fulfillment :
  (series_sum (map req_qty (selected_rows SEC_Order_filter ["P6"] p6_table)) == 0)%Q
  /\ exists b h',
       show_push_to_production 0 SEC_Order_filter ["P6"] [Study p6_table]
       = (inr (Push.ActionPlan b (Push.NotReady 4)), h').
Proof.
  split; [reflexivity|]. do 2 eexists. vm_compute. reflexivity.
Qed.

(** ** The input table is left unchanged *)

Section Keeps.
Variable n : nat.

Lemma keeps_ret {A} (a : A) (Q : A -> Prop) : Q a -> keeps n (ret a) Q.
Proof. intros Ha h Hn. simpl. auto. Qed.

Lemma keeps_ret_True {A} (a : A) : keeps n (ret a) (fun _ => True).
Proof. now apply keeps_ret. Qed.

Lemma keeps_raise {A} (e : exn) (Q : A -> Prop) : keeps n (raise e) Q.
Proof. intros h Hn. simpl. auto. Qed.

Lemma keeps_bind {A B} (m : M A) (k : A -> M B) (P : A -> Prop) (Q : B -> Prop) :
  keeps n m P -> (forall a, P a -> keeps n (k a) Q) -> keeps n (bind m k) Q.
Proof.
  intros Hm Hk h Hn. destruct (Hm h Hn) as (Hf & Hl & Hp).
  unfold bind. destruct (m h) as [[e|a] h1]; simpl in *.
  - auto.
  - destruct (Hk a Hp h1 Hl) as (Hf' & Hl' & Hq).
    split; [congruence | auto].
Qed.

Lemma keeps_weaken {A} (m : M A) (P Q : A -> Prop) :
  keeps n m P -> (forall a, P a -> Q a) -> keeps n m Q.
Proof.
  intros Hm HPQ h Hn. destruct (Hm h Hn) as (Hf & Hl & Hp).
  repeat split; try assumption. destruct (fst (m h)); auto.
Qed.

Lemma keeps_True {A} (m : M A) (P : A -> Prop) :
  keeps n m P -> keeps n m (fun _ => True).
Proof. intros Hm. eapply keeps_weaken; [exact Hm | auto]. Qed.

Lemma keeps_lift {A} (r : exn + A) : keeps n (lift r) (fun _ => True).
Proof. destruct r; [apply keeps_raise | apply keeps_ret_True]. Qed.

Lemma keeps_new (o : object) : keeps n (new o) (fun r => n <= r).
Proof.
  intros h Hn. simpl. rewrite firstn_app, length_app.
  replace (n - length h) with 0 by lia. simpl. rewrite app_nil_r.
  repeat split; lia.
Qed.

Lemma keeps_load (r : ref) : keeps n (load r) (fun _ => True).
Proof.
  intros h Hn. unfold load. destruct (nth_error h r); simpl; auto.
Qed.

Lemma firstn_update (h : heap) (r : ref) (o : object) (k : nat) :
  k <= r -> firstn k (update h r o) = firstn k h.
Proof.
  revert r k. induction h as [|x h IH]; intros r k Hk; [reflexivity|].
  destruct r as [|r]; simpl.
  - now replace k with 0 by lia.
  - destruct k as [|k]; [reflexivity|]. simpl. rewrite IH; [reflexivity | lia].
Qed.

Lemma length_update (h : heap) (r : ref) (o : object) :
  length (update h r o) = length h.
Proof.
  revert r. induction h as [|x h IH]; intros [|r]; simpl; auto.
Qed.

Lemma keeps_store (r : ref) (o : object) :
  n <= r -> keeps n (store r o) (fun _ => True).
Proof.
  intros Hr h Hn. simpl. rewrite firstn_update, length_update by assumption.
  auto.
Qed.
End Keeps.

Create HintDb keeps.
#[local] Hint Resolve keeps_new keeps_load keeps_store keeps_lift : keeps.

(** A computation built from binds, branches and kept steps. *)
Ltac keeps_auto :=
  repeat first
    [ solve [eauto with keeps]
    | apply keeps_ret_True
    | apply keeps_raise
    | (eapply keeps_bind; [ solve [keeps_auto] | intros ])
    | match goal with
      | |- keeps _ (if ?b then _ else _) _ => destruct b
      | |- keeps _ (match ?x with _ => _ end) _ => destruct x
      end
    | (eapply keeps_True; solve [eauto with keeps]) ].

Section KeepsFrames.
Variable n : nat.

Lemma keeps_frame_rows (r : ref) : keeps n (frame_rows r) (fun _ => True).
Proof. unfold frame_rows. keeps_auto. Qed.

Lemma keeps_getitem_mask (r : ref) mask :
  keeps n (getitem_mask r mask) (fun r' => n <= r').
Proof.
  unfold getitem_mask. eapply keeps_bind; [apply keeps_frame_rows|].
  intros. apply keeps_new.
Qed.

Lemma keeps_copy (r : ref) : keeps n (copy r) (fun r' => n <= r').
Proof.
  unfold copy. eapply keeps_bind; [apply keeps_load|]. intros. apply keeps_new.
Qed.

Lemma keeps_mask_copy (r : ref) mask :
  keeps n (t <- getitem_mask r mask ;; copy t) (fun r' => n <= r').
Proof.
  eapply keeps_bind; [apply keeps_getitem_mask|]. intros. apply keeps_copy.
Qed.

Lemma keeps_set_columns (r : ref) names :
  n <= r -> keeps n (set_columns r names) (fun _ => True).
Proof. intros Hr. unfold set_columns. keeps_auto. Qed.

Lemma keeps_sort_stats (r : ref) : keeps n (sort_stats r) (fun r' => n <= r').
Proof.
  unfold sort_stats. eapply keeps_bind; [apply keeps_load|].
  intros [rows|cols rows|rows|cols body] _;
    first [apply keeps_new | apply keeps_raise].
Qed.

Lemma keeps_getitem_cols (r : ref) cols :
  keeps n (getitem_cols r cols) (fun r' => n <= r').
Proof.
  unfold getitem_cols. eapply keeps_bind; [apply keeps_frame_rows|]. intros.
  eapply keeps_bind; [apply keeps_lift|]. intros.
  eapply keeps_bind; [apply keeps_new|]. intros. apply keeps_copy.
Qed.

Lemma keeps_setitem_apply (r : ref) new_name src f :
  n <= r -> keeps n (setitem_apply r new_name src f) (fun _ => True).
Proof. intros Hr. unfold setitem_apply. keeps_auto. Qed.
End KeepsFrames.

#[local] Hint Resolve keeps_frame_rows keeps_getitem_mask keeps_copy
  keeps_mask_copy keeps_set_columns keeps_sort_stats keeps_getitem_cols
  keeps_setitem_apply : keeps.

Section KeepsViews.
Variable n : nat.

Lemma keeps_calculate_project_status (df : ref) (project : string) :
  keeps n (calculate_project_status df project) (fun _ => True).
Proof. unfold calculate_project_status. keeps_auto. Qed.

Lemma keeps_material_inquiry (df : ref) (item_code : string) :
  keeps n (material_inquiry df item_code) (fun _ => True).
Proof. unfold material_inquiry. keeps_auto. Qed.

Lemma keeps_supplier_performance (df : ref) :
  keeps n (supplier_performance df) (fun _ => True).
Proof. unfold supplier_performance. keeps_auto. Qed.

Lemma keeps_readiness_loop (df : ref) (projects : list string) :
  keeps n (readiness_loop df projects) (fun _ => True).
Proof.
  induction projects as [|p ps IH]; simpl.
  - apply keeps_ret_True.
  - eapply keeps_bind; [apply keeps_calculate_project_status|]. intros.
    eapply keeps_bind; [exact IH|]. intros. apply keeps_ret_True.
Qed.

Lemma keeps_production_readiness (df : ref) :
  keeps n (production_readiness df) (fun _ => True).
Proof.
  unfold production_readiness.
  eapply keeps_bind; [apply keeps_frame_rows|]. intros.
  eapply keeps_bind; [apply keeps_readiness_loop|]. intros.
  keeps_auto.
Qed.

Lemma keeps_bucket (fdf : ref) mask cols names :
  keeps n (bucket fdf mask cols names) (fun _ => True).
Proof. unfold bucket. keeps_auto. Qed.

Lemma keeps_reallocation_display (items : ref) :
  n <= items -> keeps n (reallocation_display items) (fun _ => True).
Proof. intros Hi. unfold reallocation_display. keeps_auto. Qed.

Lemma keeps_blocker_buckets (fdf : ref) (selected : list string) :
  keeps n (blocker_buckets fdf selected) (fun _ => True).
Proof.
  unfold blocker_buckets.
  do 3 (eapply keeps_bind; [apply keeps_bucket|]; intros).
  eapply keeps_bind; [apply keeps_mask_copy|]. intros.
  eapply keeps_bind; [apply keeps_frame_rows|]. intros.
  eapply keeps_bind.
  { destruct (empty _); [apply keeps_ret_True|].
    now apply keeps_reallocation_display. }
  intros. eapply keeps_bind; [apply keeps_bucket|]. intros.
  apply keeps_ret_True.
Qed.

Lemma keeps_readiness_verdict (b : Push.Buckets) (fulfillment : option Q) :
  keeps n (readiness_verdict b fulfillment) (fun _ => True).
Proof.
  unfold readiness_verdict, and_then, read_local. keeps_auto.
Qed.

Lemma keeps_show_push_to_production (df : ref) (filter_type : FilterType)
    (selected : list string) :
  keeps n (show_push_to_production df filter_type selected) (fun _ => True).
Proof.
  unfold show_push_to_production.
  eapply keeps_bind.
  { destruct (empty selected); [apply keeps_new | apply keeps_mask_copy]. }
  intros. eapply keeps_bind; [apply keeps_frame_rows|]. intros.
  destruct (_ || _); [apply keeps_ret_True|].
  eapply keeps_bind; [apply keeps_blocker_buckets|]. intros.
  eapply keeps_bind; [apply keeps_readiness_verdict|]. intros.
  apply keeps_ret_True.
Qed.
End KeepsViews.

Lemma keeps_preserves {A} (m : M A) :
  (forall n, keeps n m (fun _ => True)) -> preserves m.
Proof.
  intros Hk h. destruct (Hk (length h) h (le_n _)) as (Hf & Hl & _).
  exists (skipn (length h) (snd (m h))).
  rewrite <- (firstn_skipn (length h) (snd (m h))) at 1.
  now rewrite Hf, firstn_all.
Qed.

(** What [preserves] means for an object of the heap. *)
Lemma preserves_lookup {A} (m : M A) (h : heap) (r : ref) (o : object) :
  preserves m -> nth_error h r = Some o -> nth_error (snd (m h)) r = Some o.
Proof.
  intros Hp Hr. destruct (Hp h) as [ext ->]. now apply nth_error_app_old.
Qed.

(** An assignment to [columns] does show in the heap: [preserves] fails
    for a write to an object that was there before. *)
Example set_columns_in_place :
  snd (set_columns 0 stats_columns [Stats [] []]) = [Stats stats_columns []]
  /\ ~ preserves (set_columns 0 stats_columns).
Proof.
  split; [reflexivity|]. intros Hp.
  destruct (Hp [Stats [] []]) as [ext Hext]. discriminate.
Qed.

(** An example: after the status of "P1" the table is where it was, and
    three frames have been allocated behind it. *)
Example table_after_status_p1 :
  snd (calculate_project_status 0 "P1" [Study p1_table])
  = [Study p1_table] ++ [Study p1_table; Study p1_table; Study []].
Proof. reflexivity. Qed.

(** C9.  Every derived view leaves the objects of the heap it starts
    from, the input table among them, as they are: the heap after the
    computation is the heap before it followed by newly allocated
    objects, whether the computation returns or raises. *)
Theorem views_preserve_table (df : ref) (project item_code : string)
    (filter_type : FilterType) (selected : list string) :
  preserves (calculate_project_status df project)
  /\ preserves (material_inquiry df item_code)
  /\ preserves (supplier_performance df)
  /\ preserves (production_readiness df)
  /\ preserves (blocker_buckets df selected)
  /\ preserves (show_push_to_production df filter_type selected).
Proof.
  repeat split; apply keeps_preserves; intros n.
  - apply keeps_calculate_project_status.
  - apply keeps_material_inquiry.
  - apply keeps_supplier_performance.
  - apply keeps_production_readiness.
  - apply keeps_blocker_buckets.
  - apply keeps_show_push_to_production.
Qed.


(* ================================================================== *)
(** * Further properties *)

(** ** Outcomes of calculate_project_status *)

Lemma series_max_mixed (v : pyval) (vs : list pyval) :
  comparable (v :: vs) = false -> series_max v vs = inl TypeError.
Proof.
  unfold comparable. simpl. revert v.
  induction vs as [|w vs IH]; intros v H.
  - destruct v; discriminate.
  - destruct v as [q|s], w as [q'|s']; simpl in *; try reflexivity.
    + destruct (Qle_bool q' q); apply IH; simpl; exact H.
    + destruct (String.leb s' s); apply IH; simpl; exact H.
Qed.

Lemma max_of_mixed (vs : list pyval) :
  comparable vs = false -> max_of vs = inl TypeError.
Proof.
  destruct vs as [|v vs]; [discriminate|]. apply series_max_mixed.
Qed.

(** The outcome of the function in terms of the rows of the project. *)
Lemma calculate_project_status_cases (h : heap) (df : ref)
    (table : list DemandLine) (project : string) :
  nth_error h df = Some (Study table) ->
  let rows := project_rows project table in
  (rows = [] -> fst (calculate_project_status df project h) = inr None)
  /\ (rows <> [] -> forall e, max_of (nonzero_delays rows) = inl e ->
      fst (calculate_project_status df project h) = inl e).
Proof.
  intros Hdf rows. unfold calculate_project_status.
  do 2 step. fold (project_rows project table). fold rows.
  split.
  - intros Hnil. now rewrite Hnil.
  - intros Hne e Hmax. destruct rows as [|r0 rows'] eqn:Hrows; [congruence|].
    rewrite <- Hrows in *. replace (empty rows) with false by (now rewrite Hrows).
    do 2 step. fold (nonzero_delays rows).
    rewrite (max_of_raise _ _ Hmax). reflexivity.
Qed.

(** The outcome does not depend on the heap the table lives in. *)
Lemma calculate_project_status_heaps (h1 h2 : heap) (df1 df2 : ref)
    (table : list DemandLine) (project : string) :
  nth_error h1 df1 = Some (Study table) ->
  nth_error h2 df2 = Some (Study table) ->
  fst (calculate_project_status df1 project h1)
  = fst (calculate_project_status df2 project h2).
Proof.
  intros H1 H2. unfold calculate_project_status.
  do 4 step. fold (project_rows project table).
  destruct (project_rows project table) as [|r0 rows'] eqn:Hrows; [reflexivity|].
  rewrite <- Hrows. replace (empty _) with false by (now rewrite Hrows).
  do 4 step. fold (nonzero_delays (project_rows project table)).
  destruct (max_of (nonzero_delays (project_rows project table))) as [e|mx] eqn:Hmax.
  - now rewrite (max_of_raise _ _ Hmax).
  - rewrite (max_of_ret _ _ Hmax). unfold bind, ret.
    now destruct (Qeq_bool _ _); [|destruct (_ || _)].
Qed.

Lemma calculate_project_status_fst (h : heap) (df : ref)
    (table : list DemandLine) (project : string) :
  nth_error h df = Some (Study table) ->
  fst (calculate_project_status df project h) = project_status table project.
Proof.
  intros Hdf. unfold project_status.
  now apply calculate_project_status_heaps with (table := table).
Qed.

(** The fields of a returned status record that hold breakdowns and
    dates. *)
Lemma calculate_project_status_inv_more (h h' : heap) (df : ref)
    (table : list DemandLine) (project : string) (st : ProjectStatus) :
  nth_error h df = Some (Study table) ->
  calculate_project_status df project h = (inr (Some st), h') ->
  let rows := project_rows project table in
  supply_breakdown st = group_sum supply_type allocated_qty rows
  /\ sec_delivery st = series_min_date (map SEC_delivery rows)
  /\ roh_delivery st = series_min_date (map ROH_delivery rows)
  /\ status_class st =
       match status st with
       | Ready => "status-ready"
       | Critical => "status-critical"
       | Partial => "status-partial"
       end.
Proof.
  intros Hdf Hrun rows. unfold calculate_project_status in Hrun.
  do 2 step_in Hrun. fold (project_rows project table) in Hrun. fold rows in Hrun.
  destruct rows as [|r0 rows'] eqn:Hrows; [discriminate|].
  rewrite <- Hrows in *.
  replace (empty rows) with false in Hrun by (now rewrite Hrows).
  do 2 step_in Hrun. fold (nonzero_delays rows) in Hrun.
  destruct (max_of (nonzero_delays rows)) as [e|mx] eqn:Hmax.
  { rewrite (max_of_raise _ _ Hmax) in Hrun. discriminate. }
  rewrite (max_of_ret _ _ Hmax) in Hrun. unfold bind, ret in Hrun.
  destruct (Qeq_bool _ _); [|destruct (_ || _)];
    injection Hrun as Hst _; subst st; simpl; repeat split.
Qed.

(** X1.  [calculate_project_status] has three outcomes, decided by the
    rows of the project: [None] exactly when the project has no row,
    [TypeError] exactly when it has rows and its non-zero delays mix
    numbers and strings, a status record in every other case. *)
Theorem calculate_project_status_outcomes (h : heap) (df : ref)
    (table : list DemandLine) (project : string) :
  nth_error h df = Some (Study table) ->
  let rows := project_rows project table in
  let out := fst (calculate_project_status df project h) in
  (out = inr None <-> rows = [])
  /\ (out = inl TypeError <->
      rows <> [] /\ comparable (nonzero_delays rows) = false)
  /\ ((exists st, out = inr (Some st)) <->
      rows <> [] /\ comparable (nonzero_delays rows) = true).
Proof.
  intros Hdf rows out.
  destruct (calculate_project_status_cases h df table project Hdf) as [Hnil Hraise].
  fold rows in Hnil, Hraise. fold out in Hnil, Hraise.
  destruct rows as [|r0 rows'] eqn:Hrows.
  - specialize (Hnil eq_refl). rewrite Hnil. split; [|split]; split.
    + reflexivity.
    + reflexivity.
    + discriminate.
    + intros [Hn _]. now elim Hn.
    + intros [st Hst]. discriminate.
    + intros [Hn _]. now elim Hn.
  - assert (Hne : r0 :: rows' <> []) by discriminate.
    destruct (comparable (nonzero_delays (r0 :: rows'))) eqn:Hc.
    + assert (Hret : exists st, out = inr (Some st)).
      { destruct (calculate_project_status_returns h df table project Hdf)
          as (st & h' & Hrun).
        - fold rows. now rewrite Hrows.
        - fold rows. now rewrite Hrows.
        - exists st. unfold out. now rewrite Hrun. }
      destruct Hret as [st Hst]. rewrite Hst. split; [|split]; split.
      * discriminate.
      * discriminate.
      * discriminate.
      * intros [_ Hf]. discriminate.
      * intros _. now split.
      * intros _. now exists st.
    + rewrite (Hraise Hne TypeError (max_of_mixed _ Hc)). split; [|split]; split.
      * discriminate.
      * discriminate.
      * intros _. now split.
      * reflexivity.
      * intros [st Hst]. discriminate.
      * intros [_ Hf]. discriminate.
Qed.

Lemma calculate_project_status_outcomes_witness :
  fst (calculate_project_status 0 "P3" [Study p3_table]) = inl TypeError
  /\ fst (calculate_project_status 0 "P9" [Study p3_table]) = inr None.
Proof.
  split.
  - apply (proj1 (proj2 (calculate_project_status_outcomes
                           [Study p3_table] 0 p3_table "P3" eq_refl))).
    split; [simpl; discriminate | reflexivity].
  - apply (proj1 (calculate_project_status_outcomes
                    [Study p3_table] 0 p3_table "P9" eq_refl)).
    reflexivity.
Defined.

Lemma status_rule_witness :
  exists st h',
    calculate_project_status 0 "P1" [Study p1_table] = (inr (Some st), h')
    /\ status st = Critical
    /\ 0 < missing_items st.
Proof.
  assert (Hne : project_rows "P1" p1_table <> []) by (simpl; discriminate).
  destruct (status_rule [Study p1_table] 0 p1_table "P1" eq_refl Hne eq_refl)
    as (st & h' & Hrun & Hb & Hm & _ & _ & Hcrit & _).
  exists st, h'. split; [exact Hrun|].
  assert (Hmiss : 0 < missing_items st) by (rewrite Hm; simpl; lia).
  split; [|exact Hmiss].
  apply Hcrit. split; [|left; exact Hmiss].
  rewrite Hb. simpl. qcompare.
Defined.

(** ** Sums over groups *)

Lemma series_sum_app (xs ys : list Q) :
  (series_sum (xs ++ ys) == series_sum xs + series_sum ys)%Q.
Proof.
  induction xs as [|x xs IH]; simpl; [lra|]. rewrite IH. lra.
Qed.

Section Partition.
Context {A K : Type}.
Variable sel : K -> A -> bool.

Lemma indicator_sum (keys : list K) (r : A) (x : Q) (k0 : K) :
  NoDup keys -> In k0 keys ->
  (forall k, In k keys -> (sel k r = true <-> k = k0)) ->
  (series_sum (map (fun k => if sel k r then x else 0) keys) == x)%Q.
Proof.
  induction keys as [|k keys IH]; intros Hnd Hin Hsel; [contradiction|].
  inversion Hnd as [|k' keys' Hnotin Hnd']; subst. simpl.
  assert (Hzero : forall ks, (forall k', In k' ks -> sel k' r = false) ->
            (series_sum (map (fun k => if sel k r then x else 0) ks) == 0)%Q).
  { induction ks as [|a ks IHks]; intros Hf; simpl; [lra|].
    rewrite (Hf a (or_introl eq_refl)), IHks; [lra|].
    intros k' Hk'. apply Hf. now right. }
  destruct Hin as [->|Hin].
  - rewrite (proj2 (Hsel k0 (or_introl eq_refl)) eq_refl).
    rewrite Hzero; [lra|]. intros k' Hk'.
    destruct (sel k' r) eqn:Hs; [|reflexivity].
    apply (Hsel k' (or_intror Hk')) in Hs. subst. contradiction.
  - assert (Hk : sel k r = false).
    { destruct (sel k r) eqn:Hs; [|reflexivity].
      apply (Hsel k (or_introl eq_refl)) in Hs. subst. contradiction. }
    rewrite Hk, IH; [lra | assumption | assumption |].
    intros k' Hk'. apply Hsel. now right.
Qed.

Lemma indicator_count (keys : list K) (r : A) (k0 : K) :
  NoDup keys -> In k0 keys ->
  (forall k, In k keys -> (sel k r = true <-> k = k0)) ->
  fold_right (fun k n => Nat.b2n (sel k r) + n) 0 keys = 1.
Proof.
  induction keys as [|k keys IH]; intros Hnd Hin Hsel; [contradiction|].
  inversion Hnd as [|k' keys' Hnotin Hnd']; subst. simpl.
  assert (Hzero : forall ks, (forall k', In k' ks -> sel k' r = false) ->
            fold_right (fun k n => Nat.b2n (sel k r) + n) 0 ks = 0).
  { induction ks as [|a ks IHks]; intros Hf; simpl; [reflexivity|].
    rewrite (Hf a (or_introl eq_refl)), IHks; [reflexivity|].
    intros k' Hk'. apply Hf. now right. }
  destruct Hin as [->|Hin].
  - rewrite (proj2 (Hsel k0 (or_introl eq_refl)) eq_refl).
    rewrite Hzero; [reflexivity|]. intros k' Hk'.
    destruct (sel k' r) eqn:Hs; [|reflexivity].
    apply (Hsel k' (or_intror Hk')) in Hs. subst. contradiction.
  - assert (Hk : sel k r = false).
    { destruct (sel k r) eqn:Hs; [|reflexivity].
      apply (Hsel k (or_introl eq_refl)) in Hs. subst. contradiction. }
    rewrite Hk, IH; [reflexivity | assumption | assumption |].
    intros k' Hk'. apply Hsel. now right.
Qed.

(** The sums of the groups add up to the sum of the rows. *)
Lemma partition_sum (col : A -> Q) (keys : list K) (rows : list A) :
  NoDup keys -> picks_one sel keys rows ->
  (series_sum (map (fun k => series_sum (map col (filter (sel k) rows))) keys)
   == series_sum (map col rows))%Q.
Proof.
  intros Hnd. induction rows as [|r rows IH]; intros Hp.
  - simpl. clear Hnd Hp. induction keys as [|k keys IHk]; simpl; [lra|].
    rewrite IHk. lra.
  - assert (Hsplit : forall ks,
      (series_sum (map (fun k => series_sum (map col (filter (sel k) (r :: rows)))) ks)
       == series_sum (map (fun k => if sel k r then col r else 0) ks)
          + series_sum (map (fun k => series_sum (map col (filter (sel k) rows))) ks))%Q).
    { induction ks as [|k ks IHk]; simpl; [lra|].
      rewrite IHk. destruct (sel k r); simpl; lra. }
    rewrite Hsplit. destruct (Hp r (or_introl eq_refl)) as (k0 & Hin & Hsel).
    rewrite (indicator_sum keys r (col r) k0 Hnd Hin Hsel).
    rewrite IH; [simpl; lra|]. intros r' Hr'. apply Hp. now right.
Qed.

(** The sizes of the groups add up to the number of rows. *)
Lemma partition_count (keys : list K) (rows : list A) :
  NoDup keys -> picks_one sel keys rows ->
  fold_right (fun k n => length (filter (sel k) rows) + n) 0 keys = length rows.
Proof.
  intros Hnd. induction rows as [|r rows IH]; intros Hp.
  - simpl. induction keys as [|k keys IHk]; simpl; [reflexivity|].
    inversion Hnd; subst. now apply IHk.
  - assert (Hsplit : forall ks,
      fold_right (fun k n => length (filter (sel k) (r :: rows)) + n) 0 ks
      = fold_right (fun k n => Nat.b2n (sel k r) + n) 0 ks
        + fold_right (fun k n => length (filter (sel k) rows) + n) 0 ks).
    { induction ks as [|k ks IHk]; [reflexivity|].
      cbn [fold_right]. rewrite IHk. simpl. destruct (sel k r); simpl; lia. }
    rewrite Hsplit. destruct (Hp r (or_introl eq_refl)) as (k0 & Hin & Hsel).
    rewrite (indicator_count keys r k0 Hnd Hin Hsel).
    rewrite IH; [reflexivity|]. intros r' Hr'. apply Hp. now right.
Qed.
End Partition.

(** Grouping rows by a string column picks each row once. *)
Lemma string_groups_pick_one (key : DemandLine -> string) (rows : list DemandLine) :
  picks_one (fun k r => String.eqb (key r) k) (string_keys (map key rows)) rows.
Proof.
  intros r Hr. exists (key r). split.
  - apply string_keys_In. now apply in_map.
  - intros k _. rewrite String.eqb_eq. split; congruence.
Qed.

(** ** Further properties of calculate_project_status *)

Lemma py_ne_zero (d : Q) : py_ne (Num d) (Num 0) = true <-> ~ (d == 0)%Q.
Proof.
  unfold py_ne. simpl. rewrite negb_true_iff, <- not_true_iff_false.
  now rewrite Qeq_bool_iff.
Qed.

Lemma in_map_Num (d : Q) (qs : list Q) : In (Num d) (map Num qs) <-> In d qs.
Proof.
  rewrite in_map_iff. split.
  - intros (q & [= ->] & Hq). exact Hq.
  - intros Hd. now exists d.
Qed.

(** X2.  When every delay of the project is a number, the maximum delay
    of a returned status is a number that bounds every non-zero delay of
    the project; it is the delay of one of its rows when some delay is not
    zero, and 0 when all are zero. *)
Theorem max_delay_bounds (h h' : heap) (df : ref) (table : list DemandLine)
    (project : string) (st : ProjectStatus) :
  nth_error h df = Some (Study table) ->
  calculate_project_status df project h = (inr (Some st), h') ->
  numeric_delays (project_rows project table) = true ->
  let rows := project_rows project table in
  exists m,
    max_delay st = Num m
    /\ (forall r d, In r rows -> delay r = Num d -> ~ (d == 0)%Q -> (d <= m)%Q)
    /\ ((exists r d, In r rows /\ delay r = Num d /\ ~ (d == 0)%Q) ->
        exists r, In r rows /\ delay r = Num m /\ ~ (m == 0)%Q)
    /\ ((forall r d, In r rows -> delay r = Num d -> (d == 0)%Q) -> m = 0%Q).
Proof.
  intros Hdf Hrun Hnum rows.
  destruct (calculate_project_status_inv _ _ _ _ _ _ Hdf Hrun)
    as (_ & _ & _ & _ & _ & _ & _ & _ & _ & Hmax & _).
  fold rows in Hmax. unfold nonzero_delays in Hmax.
  set (nz := filter (fun r => py_ne (delay r) (Num 0)) rows) in *.
  assert (Hnz : forallb is_num (map delay nz) = true).
  { unfold numeric_delays in Hnum. fold rows in Hnum. rewrite forallb_forall in *.
    intros v Hv. apply in_map_iff in Hv as (r & <- & Hr).
    apply filter_In in Hr as [Hr _]. apply Hnum. now apply in_map. }
  destruct (numeric_ok _ Hnz) as (qs & _ & Hqs).
  assert (Hin : forall d, In d qs <->
            exists r, In r rows /\ delay r = Num d /\ ~ (d == 0)%Q).
  { intros d. rewrite <- in_map_Num, <- Hqs, in_map_iff. unfold nz. split.
    - intros (r & Hd & Hr). apply filter_In in Hr as [Hr Hne].
      exists r. rewrite Hd in Hne. apply py_ne_zero in Hne. auto.
    - intros (r & Hr & Hd & Hne). exists r. split; [assumption|].
      apply filter_In. split; [assumption|]. rewrite Hd. now apply py_ne_zero. }
  rewrite Hqs in Hmax. destruct qs as [|q0 qs]; simpl in Hmax.
  - injection Hmax as Hmax. exists 0%Q. split; [now symmetry|]. split; [|split].
    + intros r d Hr Hd Hne. exfalso. apply (proj2 (Hin d)). now exists r.
    + intros (r & d & Hr & Hd & Hne). exfalso. apply (proj2 (Hin d)). now exists r.
    + reflexivity.
  - destruct (series_max_numbers q0 qs) as (m & Hm & Hmin & Hub).
    rewrite Hm in Hmax. injection Hmax as Hmax. exists m.
    split; [now symmetry|]. split; [|split].
    + intros r d Hr Hd Hne. apply Hub. apply Hin. now exists r.
    + intros _. apply Hin in Hmin as (r & Hr & Hd & Hne). now exists r.
    + intros Hzero. exfalso.
      destruct (proj1 (Hin q0) (or_introl eq_refl)) as (r & Hr & Hd & Hne).
      apply Hne. now apply (Hzero r).
Qed.

Lemma max_delay_bounds_witness :
  exists st h',
    calculate_project_status 0 "P8" [Study p8_table] = (inr (Some st), h')
    /\ max_delay st = Num 7.
Proof.
  destruct (calculate_project_status 0 "P8" [Study p8_table])
    as [[e|[st|]] h'] eqn:Hrun; try (vm_compute in Hrun; discriminate).
  exists st, h'. split; [reflexivity|].
  destruct (max_delay_bounds [Study p8_table] h' 0 p8_table "P8" st
              eq_refl Hrun eq_refl) as (m & Hm & _).
  rewrite Hm. vm_compute in Hrun. injection Hrun as Hst _. subst st.
  simpl in Hm. now injection Hm as <-.
Defined.

(** X3.  The supply-type breakdown of a returned status has one entry per
    supply type of the project, and its quantities add up to the total
    allocated quantity. *)
Theorem supply_breakdown_total (h h' : heap) (df : ref) (table : list DemandLine)
    (project : string) (st : ProjectStatus) :
  nth_error h df = Some (Study table) ->
  calculate_project_status df project h = (inr (Some st), h') ->
  NoDup (map fst (supply_breakdown st))
  /\ (forall k, In k (map fst (supply_breakdown st)) <->
        exists r, In r (project_rows project table) /\ supply_type r = k)
  /\ (series_sum (map snd (supply_breakdown st)) == total_allocated st)%Q.
Proof.
  intros Hdf Hrun.
  destruct (calculate_project_status_inv _ _ _ _ _ _ Hdf Hrun)
    as (_ & _ & _ & _ & _ & _ & Ha & _).
  destruct (calculate_project_status_inv_more _ _ _ _ _ _ Hdf Hrun) as (Hsb & _).
  rewrite Hsb, Ha. unfold group_sum. rewrite !map_map. simpl.
  rewrite map_id. split; [apply string_keys_NoDup|]. split.
  - intros k. rewrite string_keys_In, in_map_iff. split.
    + intros (r & Hk & Hr). now exists r.
    + intros (r & Hr & Hk). now exists r.
  - apply (partition_sum (fun k r => String.eqb (supply_type r) k)).
    + apply string_keys_NoDup.
    + apply string_groups_pick_one.
Qed.

Lemma supply_breakdown_total_witness :
  exists st h',
    calculate_project_status 0 "P1" [Study p1_table] = (inr (Some st), h')
    /\ supply_breakdown st = [("PR", 0%Q); ("inventory", 10%Q)]
    /\ (series_sum (map snd (supply_breakdown st)) == total_allocated st)%Q.
Proof.
  destruct (calculate_project_status 0 "P1" [Study p1_table])
    as [[e|[st|]] h'] eqn:Hrun; try (vm_compute in Hrun; discriminate).
  exists st, h'. split; [reflexivity|]. split.
  - vm_compute in Hrun. injection Hrun as Hst _. now subst st.
  - apply (supply_breakdown_total [Study p1_table] h' 0 p1_table "P1" st
             eq_refl Hrun).
Defined.

Lemma series_min_date_none (ds : list (option Z)) :
  series_min_date ds = None <-> forall d, In d ds -> d = None.
Proof.
  induction ds as [|[d|] ds IH]; simpl.
  - split; [intros _ d [] | reflexivity].
  - split.
    + destruct (series_min_date ds); discriminate.
    + intros H. specialize (H (Some d) (or_introl eq_refl)). discriminate.
  - rewrite IH. split.
    + intros H d [<-|Hd]; [reflexivity | now apply H].
    + intros H d Hd. apply H. now right.
Qed.

Lemma series_min_date_some (ds : list (option Z)) (m : Z) :
  series_min_date ds = Some m ->
  In (Some m) ds /\ forall d, In (Some d) ds -> (m <= d)%Z.
Proof.
  revert m. induction ds as [|[d|] ds IH]; simpl; intros m Hm.
  - discriminate.
  - destruct (series_min_date ds) as [m'|] eqn:Hds.
    + injection Hm as <-. destruct (IH m' eq_refl) as [Hin Hlb]. split.
      * destruct (Z.min_spec d m') as [[_ ->]|[_ ->]]; [now left | now right].
      * intros d' [[= <-]|Hd']; [lia|]. specialize (Hlb d' Hd'). lia.
    + injection Hm as <-. split; [now left|].
      intros d' [[= <-]|Hd']; [lia|].
      apply (proj1 (series_min_date_none ds) Hds) in Hd'. discriminate.
  - destruct (IH m Hm) as [Hin Hlb]. split; [now right|].
    intros d' [Hd'|Hd']; [discriminate | now apply Hlb].
Qed.

Lemma series_min_date_earliest (column : DemandLine -> option Z)
    (rows : list DemandLine) :
  earliest column rows (series_min_date (map column rows)).
Proof.
  split.
  - rewrite series_min_date_none. split.
    + intros H r Hr. apply H. now apply in_map.
    + intros H d Hd. apply in_map_iff in Hd as (r & <- & Hr). now apply H.
  - intros m Hm. apply series_min_date_some in Hm as [Hin Hlb]. split.
    + apply in_map_iff in Hin as (r & Hc & Hr). now exists r.
    + intros r d Hr Hd. apply Hlb. rewrite <- Hd. now apply in_map.
Qed.

(** X4.  The two dates of a returned status are the earliest SEC delivery
    and the earliest ROH delivery among the rows of the project: a lower
    bound that one of the rows attains, rows without a date skipped, and
    no date exactly when no row has one. *)
Theorem delivery_dates_earliest (h h' : heap) (df : ref)
    (table : list DemandLine) (project : string) (st : ProjectStatus) :
  nth_error h df = Some (Study table) ->
  calculate_project_status df project h = (inr (Some st), h') ->
  earliest SEC_delivery (project_rows project table) (sec_delivery st)
  /\ earliest ROH_delivery (project_rows project table) (roh_delivery st).
Proof.
  intros Hdf Hrun.
  destruct (calculate_project_status_inv_more _ _ _ _ _ _ Hdf Hrun)
    as (_ & Hsec & Hroh & _).
  rewrite Hsec, Hroh. split; apply series_min_date_earliest.
Qed.

Lemma delivery_dates_earliest_witness :
  exists st h',
    calculate_project_status 0 "P1" [Study p1_dated] = (inr (Some st), h')
    /\ sec_delivery st = Some 100%Z
    /\ roh_delivery st = None.
Proof.
  destruct (calculate_project_status 0 "P1" [Study p1_dated])
    as [[e|[st|]] h'] eqn:Hrun; try (vm_compute in Hrun; discriminate).
  exists st, h'. split; [reflexivity|].
  destruct (delivery_dates_earliest [Study p1_dated] h' 0 p1_dated "P1" st
              eq_refl Hrun) as [[_ Hsec] [Hroh _]].
  split.
  - destruct (sec_delivery st) as [m|] eqn:Hm.
    + destruct (Hsec m eq_refl) as [(r & Hr & Hc) Hlb].
      assert (H100 := Hlb _ 100%Z (or_intror (or_introl eq_refl)) eq_refl).
      destruct Hr as [<-|[<-|[]]]; simpl in Hc; injection Hc as <-;
        [lia | reflexivity].
    + vm_compute in Hrun. injection Hrun as Hst _. subst st. discriminate.
  - apply Hroh. intros r [<-|[<-|[]]]; reflexivity.
Defined.

(** ** Ready projects and fulfillment *)

Lemma series_sum_minus (f g k : DemandLine -> Q) (rows : list DemandLine) :
  (forall r, In r rows -> (k r == f r - g r)%Q) ->
  (series_sum (map k rows) == series_sum (map f rows) - series_sum (map g rows))%Q.
Proof.
  induction rows as [|r rows IH]; intros H; simpl; [lra|].
  rewrite (H r (or_introl eq_refl)), IH; [lra|].
  intros r' Hr'. apply H. now right.
Qed.

Lemma percentage_full (a r : Q) :
  (0 < r)%Q -> ((a / r * 100 == 100)%Q <-> (a == r)%Q).
Proof.
  intros Hr. assert (Har : (a == a / r * r)%Q) by (field; lra). split.
  - intros H. assert (H1 : (a / r == 1)%Q) by lra. rewrite Har, H1. lra.
  - intros H. rewrite H. field. lra.
Qed.

(** X5.  When every row of the project has balance = required -
    allocated, the total balance of a returned status is total required -
    total allocated, the status is Ready exactly when total allocated
    equals total required, and, for a positive total required, exactly
    when the fulfillment percentage is 100. *)
Theorem ready_iff_fulfilled (h h' : heap) (df : ref) (table : list DemandLine)
    (project : string) (st : ProjectStatus) :
  nth_error h df = Some (Study table) ->
  calculate_project_status df project h = (inr (Some st), h') ->
  (forall r, In r table -> SEC_order r = project ->
     (balance r == req_qty r - allocated_qty r)%Q) ->
  (total_balance st == total_req st - total_allocated st)%Q
  /\ (status st = Ready <-> (total_allocated st == total_req st)%Q)
  /\ ((0 < total_req st)%Q ->
      (status st = Ready <-> (fulfillment_pct st == 100)%Q)).
Proof.
  intros Hdf Hrun Hinv.
  destruct (calculate_project_status_inv _ _ _ _ _ _ Hdf Hrun)
    as (_ & _ & _ & _ & _ & Hr & Ha & Hb & Hpct & _ & Hst).
  assert (Hbal : (total_balance st == total_req st - total_allocated st)%Q).
  { rewrite Hb, Hr, Ha. apply series_sum_minus. intros r Hin.
    apply in_project_rows in Hin as [Hin Hp]. now apply Hinv. }
  assert (Hready : status st = Ready <-> (total_balance st == 0)%Q).
  { rewrite Hst. destruct (Qeq_bool (total_balance st) 0) eqn:Eb.
    - apply Qeq_bool_iff in Eb. tauto.
    - apply Qeq_bool_neq in Eb. split; [|tauto].
      destruct (_ || _); discriminate. }
  split; [exact Hbal|]. split.
  - rewrite Hready. split; intros H; lra.
  - intros Hpos. rewrite Hpct.
    replace (Qgt_bool (total_req st) 0) with true
      by (symmetry; now apply Qgt_bool_iff).
    rewrite (percentage_full _ _ Hpos), Hready. split; intros H; lra.
Qed.

Lemma ready_iff_fulfilled_witness :
  exists st h',
    calculate_project_status 0 "P2" [Study p2_table] = (inr (Some st), h')
    /\ status st = Ready
    /\ (fulfillment_pct st == 100)%Q.
Proof.
  destruct (calculate_project_status 0 "P2" [Study p2_table])
    as [[e|[st|]] h'] eqn:Hrun; try (vm_compute in Hrun; discriminate).
  exists st, h'. split; [reflexivity|].
  assert (Hinv : forall r, In r p2_table -> SEC_order r = "P2" ->
            (balance r == req_qty r - allocated_qty r)%Q)
    by (intros r [<-|[<-|[]]] _; reflexivity).
  destruct (ready_iff_fulfilled [Study p2_table] h' 0 p2_table "P2" st
              eq_refl Hrun Hinv) as (_ & Hready & Hpct).
  assert (Hst : status st = Ready).
  { apply Hready. vm_compute in Hrun. injection Hrun as Hst _. subst st.
    reflexivity. }
  split; [exact Hst|]. apply Hpct; [|exact Hst].
  vm_compute in Hrun. injection Hrun as Hst' _. subst st. simpl. qcompare.
Defined.

(** ** Keys of a grouping, for any key type *)

Section KeysFacts.
Context {K : Type} (eqb leb : K -> K -> bool).
Hypothesis eqb_spec : forall a b, eqb a b = true <-> a = b.

Lemma unique_In_keys (ks : list K) (k : K) : In k (unique eqb ks) <-> In k ks.
Proof.
  induction ks as [|k0 ks IH]; simpl; [tauto|].
  rewrite filter_In, IH, negb_true_iff, <- not_true_iff_false, eqb_spec.
  split.
  - intros [->|[H _]]; tauto.
  - intros [->|H]; [tauto|].
    destruct (eqb k k0) eqn:E; [apply eqb_spec in E; subst; tauto|].
    right. split; [assumption|]. intros ->.
    rewrite (proj2 (eqb_spec k0 k0) eq_refl) in E. discriminate.
Qed.

Lemma unique_NoDup_keys (ks : list K) : NoDup (unique eqb ks).
Proof.
  induction ks as [|k0 ks IH]; simpl; constructor.
  - rewrite filter_In, (proj2 (eqb_spec k0 k0) eq_refl). intros [_ H]. discriminate.
  - now apply NoDup_filter.
Qed.

Lemma group_keys_perm (ks : list K) :
  Permutation (unique eqb ks) (group_keys eqb leb ks).
Proof.
  unfold group_keys.
  induction (unique eqb ks) as [|k l IH]; simpl; [reflexivity|].
  rewrite <- insert_key_perm. now apply perm_skip.
Qed.

Lemma group_keys_In (ks : list K) (k : K) :
  In k (group_keys eqb leb ks) <-> In k ks.
Proof.
  split; intros H.
  - apply unique_In_keys.
    eapply Permutation_in; [symmetry; apply group_keys_perm | exact H].
  - eapply Permutation_in; [apply group_keys_perm | now apply unique_In_keys].
Qed.

Lemma group_keys_NoDup (ks : list K) : NoDup (group_keys eqb leb ks).
Proof.
  eapply Permutation_NoDup; [apply group_keys_perm | apply unique_NoDup_keys].
Qed.
End KeysFacts.

Lemma pair_eqb_spec (a b : string * string) : pair_eqb a b = true <-> a = b.
Proof.
  destruct a as [a1 a2], b as [b1 b2]. unfold pair_eqb. simpl.
  rewrite andb_true_iff, !String.eqb_eq. split; [intros [-> ->] | intros [= -> ->]]; auto.
Qed.

(** ** Further properties of material_inquiry *)

Lemma material_inquiry_none (h : heap) (df : ref) (table : list DemandLine)
    (item_code : string) :
  nth_error h df = Some (Study table) ->
  item_rows item_code table = [] ->
  fst (material_inquiry df item_code h) = inr None.
Proof.
  intros Hdf Hnil. unfold material_inquiry.
  do 2 step. fold (item_rows item_code table). now rewrite Hnil.
Qed.

(** Every field of the inquiry of an item with rows. *)
Lemma material_inquiry_exec (h : heap) (df : ref) (table : list DemandLine)
    (item_code : string) (r0 : DemandLine) (rest : list DemandLine) :
  nth_error h df = Some (Study table) ->
  item_rows item_code table = r0 :: rest ->
  let rows := item_rows item_code table in
  exists inq h',
    material_inquiry df item_code h = (inr (Some inq), h')
    /\ Inquiry.description inq = description r0
    /\ nth_error h' (Inquiry.item_data inq) = Some (Study rows)
    /\ Inquiry.total_req inq = series_sum (map req_qty rows)
    /\ Inquiry.total_allocated inq = series_sum (map allocated_qty rows)
    /\ Inquiry.total_balance inq = series_sum (map balance rows)
    /\ Inquiry.allocation_by_project inq =
         map (fun k =>
                let g := filter (fun r => String.eqb (SEC_order r) k) rows in
                (k, (series_sum (map req_qty g),
                     series_sum (map allocated_qty g),
                     series_sum (map balance g))))
             (string_keys (map SEC_order rows))
    /\ Inquiry.supply_sources inq =
         map (fun k =>
                let g := filter (fun r => pair_eqb (supply_type r, source r) k)
                                rows in
                (k, series_sum (map allocated_qty g)))
             (pair_keys (map (fun r => (supply_type r, source r)) rows)).
Proof.
  intros Hdf Hrows rows. subst rows. unfold material_inquiry.
  do 2 step. fold (item_rows item_code table). rewrite Hrows.
  do 8 step. unfold ret. eexists. eexists. split; [reflexivity|].
  cbn [Inquiry.description Inquiry.item_data Inquiry.total_req
       Inquiry.total_allocated Inquiry.total_balance
       Inquiry.allocation_by_project Inquiry.supply_sources].
  repeat split. lookup.
Qed.

(** X6.  [material_inquiry] never raises.  It returns [None] when no row
    has the item code; otherwise the description is that of the first row
    of the item in table order, and [item_data] is a frame of its own that
    holds the rows of the item in table order, the table being where it
    was. *)
Theorem material_inquiry_result (h : heap) (df : ref) (table : list DemandLine)
    (item_code : string) :
  nth_error h df = Some (Study table) ->
  (item_rows item_code table = [] ->
   fst (material_inquiry df item_code h) = inr None)
  /\ (forall r0 rest, item_rows item_code table = r0 :: rest ->
      exists inq h',
        material_inquiry df item_code h = (inr (Some inq), h')
        /\ Inquiry.description inq = description r0
        /\ nth_error h' (Inquiry.item_data inq) = Some (Study (r0 :: rest))
        /\ Inquiry.item_data inq <> df
        /\ nth_error h' df = Some (Study table)).
Proof.
  intros Hdf. split; [now apply material_inquiry_none|].
  intros r0 rest Hrows.
  destruct (material_inquiry_exec h df table item_code r0 rest Hdf Hrows)
    as (inq & h' & Hrun & Hd & Hitem & _).
  exists inq, h'. rewrite Hrows in Hitem. repeat split; try assumption.
  - assert (Hh' : nth_error h' df = Some (Study table)).
    { replace h' with (snd (material_inquiry df item_code h)) by (now rewrite Hrun).
      apply preserves_lookup; [|assumption].
      apply keeps_preserves. intros n. apply keeps_material_inquiry. }
    intros Heq. rewrite Heq, Hh' in Hitem. injection Hitem as Hitem.
    assert (Hlen : length (filter (fun r => String.eqb (item r) item_code) table)
                   = length table) by (fold (item_rows item_code table); congruence).
    unfold material_inquiry in Hrun. do 2 step_in Hrun.
    fold (item_rows item_code table) in Hrun. rewrite Hrows in Hrun.
    do 8 step_in Hrun. unfold ret in Hrun. injection Hrun as Hinq _.
    subst inq. simpl in Heq.
    assert (Hlt : df < length h) by (apply nth_error_Some; congruence).
    rewrite length_app in Heq. simpl in Heq. lia.
  - replace h' with (snd (material_inquiry df item_code h)) by (now rewrite Hrun).
    apply preserves_lookup; [|assumption].
    apply keeps_preserves. intros n. apply keeps_material_inquiry.
Qed.

Lemma material_inquiry_result_witness :
  exists inq h',
    material_inquiry 0 "ITM1" [Study itm1_table] = (inr (Some inq), h')
    /\ Inquiry.description inq = "-"
    /\ nth_error h' (Inquiry.item_data inq) = Some (Study itm1_table)
  /\ fst (material_inquiry 0 "ITM9" [Study itm1_table]) = inr None.
Proof.
  destruct (material_inquiry_result [Study itm1_table] 0 itm1_table "ITM1" eq_refl)
    as [_ Hsome].
  destruct (Hsome _ _ eq_refl) as (inq & h' & Hrun & Hd & Hitem & _).
  exists inq, h'.
  split; [exact Hrun | split; [exact Hd | split; [exact Hitem |]]].
  apply (proj1 (material_inquiry_result [Study itm1_table] 0 itm1_table "ITM9"
                  eq_refl)).
  reflexivity.
Defined.

Lemma append_if_nil {A} (rows : list A) (msg : issue) (issues : list issue) :
  append_if rows msg issues = [] <-> rows = [] /\ issues = [].
Proof.
  unfold append_if. destruct rows as [|r rows]; simpl.
  - tauto.
  - split; [|intros [H _]; discriminate].
    intros H. apply app_eq_nil in H as [_ H]. discriminate.
Qed.

Lemma append_if_length {A} (rows : list A) (msg : issue) (issues : list issue) :
  length (append_if rows msg issues) <= S (length issues).
Proof.
  unfold append_if. destruct rows; simpl; [lia|].
  rewrite length_app. simpl. lia.
Qed.

Lemma filter_nil {A} (f : A -> bool) (l : list A) :
  filter f l = [] <-> forall a, In a l -> f a = false.
Proof.
  induction l as [|a l IH]; simpl; [tauto|].
  destruct (f a) eqn:Ha.
  - split; [discriminate|]. intros H.
    rewrite (H a (or_introl eq_refl)) in Ha. discriminate.
  - rewrite IH. split.
    + intros H b [<-|Hb]; [assumption | now apply H].
    + intros H b Hb. apply H. now right.
Qed.

(** X7.  The inquiry of an item with rows reports no blocking issue
    exactly when none of its rows is in quality control, in goods receipt
    or on a purchase requisition and none is a purchase order with the
    ['late'] delay; and it never reports more than four. *)
Theorem no_blocking_issue (h : heap) (df : ref) (table : list DemandLine)
    (item_code : string) :
  nth_error h df = Some (Study table) ->
  item_rows item_code table <> [] ->
  exists inq h',
    material_inquiry df item_code h = (inr (Some inq), h')
    /\ (Inquiry.blocking_issues inq = [] <->
        forall r, In r (item_rows item_code table) ->
          supply_type r <> "QC" /\ supply_type r <> "GR_in_process"
          /\ supply_type r <> "PR"
          /\ ~ (supply_type r = "PO" /\ delay r = Str "late"))
    /\ length (Inquiry.blocking_issues inq) <= 4.
Proof.
  intros Hdf Hne.
  destruct (material_inquiry_run _ _ _ _ Hdf Hne)
    as (inq & h' & Hrun & _ & _ & _ & Hiss).
  exists inq, h'. split; [assumption|]. rewrite Hiss. split.
  - rewrite !append_if_nil. unfold of_type, late_orders. rewrite !filter_nil.
    split.
    + intros (Hpr & Hpo & Hgr & Hqc & _) r Hr.
      specialize (Hpr r Hr). specialize (Hpo r Hr).
      specialize (Hgr r Hr). specialize (Hqc r Hr).
      apply String.eqb_neq in Hpr, Hgr, Hqc.
      repeat split; try assumption.
      intros [H1 H2]. apply andb_false_iff in Hpo as [Hpo|Hpo].
      * apply String.eqb_neq in Hpo. contradiction.
      * apply py_eq_late in H2. congruence.
    + intros H. split; [|split; [|split; [|split; [|reflexivity]]]];
        intros r Hr; destruct (H r Hr) as (Hqc & Hgr & Hpr & Hpo).
      * now apply String.eqb_neq.
      * destruct (String.eqb (supply_type r) "PO") eqn:E1; [|reflexivity].
        destruct (py_eq (delay r) (Str "late")) eqn:E2; [|reflexivity].
        exfalso. apply Hpo.
        split; [now apply String.eqb_eq | now apply py_eq_late].
      * now apply String.eqb_neq.
      * now apply String.eqb_neq.
  - repeat (etransitivity; [apply append_if_length|apply le_n_S]). simpl. lia.
Qed.

Lemma no_blocking_issue_witness :
  exists inq h',
    material_inquiry 0 "ITM1" [Study itm1_table] = (inr (Some inq), h')
    /\ Inquiry.blocking_issues inq <> []
    /\ length (Inquiry.blocking_issues inq) <= 4.
Proof.
  assert (Hne : item_rows "ITM1" itm1_table <> []) by (simpl; discriminate).
  destruct (no_blocking_issue [Study itm1_table] 0 itm1_table "ITM1" eq_refl Hne)
    as (inq & h' & Hrun & Hiff & Hlen).
  exists inq, h'. split; [exact Hrun|]. split; [|exact Hlen].
  intros Hnil. pose proof (proj1 Hiff Hnil) as Hall.
  destruct (Hall _ (or_introl eq_refl)) as [Hqc _]. now apply Hqc.
Defined.

(** X8.  The two breakdowns of an inquiry cover the rows of the item once
    each: the allocation breakdown has one entry per project of the item
    and its required, allocated and balance columns add up to the three
    totals; the supply-source breakdown has one entry per pair of supply
    type and source, and its quantities add up to the total allocated. *)
Theorem inquiry_breakdowns_total (h : heap) (df : ref) (table : list DemandLine)
    (item_code : string) :
  nth_error h df = Some (Study table) ->
  item_rows item_code table <> [] ->
  exists inq h',
    material_inquiry df item_code h = (inr (Some inq), h')
    /\ NoDup (map fst (Inquiry.allocation_by_project inq))
    /\ (forall p, In p (map fst (Inquiry.allocation_by_project inq)) <->
          exists r, In r (item_rows item_code table) /\ SEC_order r = p)
    /\ (series_sum (map (fun e => fst (fst (snd e)))
                        (Inquiry.allocation_by_project inq))
        == Inquiry.total_req inq)%Q
    /\ (series_sum (map (fun e => snd (fst (snd e)))
                        (Inquiry.allocation_by_project inq))
        == Inquiry.total_allocated inq)%Q
    /\ (series_sum (map (fun e => snd (snd e))
                        (Inquiry.allocation_by_project inq))
        == Inquiry.total_balance inq)%Q
    /\ NoDup (map fst (Inquiry.supply_sources inq))
    /\ (forall k, In k (map fst (Inquiry.supply_sources inq)) <->
          exists r, In r (item_rows item_code table)
                    /\ (supply_type r, source r) = k)
    /\ (series_sum (map snd (Inquiry.supply_sources inq))
        == Inquiry.total_allocated inq)%Q.
Proof.
  intros Hdf Hne.
  assert (Hex : exists r0 rest, item_rows item_code table = r0 :: rest).
  { destruct (item_rows item_code table) as [|r0 rest]; [congruence|].
    now exists r0, rest. }
  destruct Hex as (r0 & rest & Hrows).
  destruct (material_inquiry_exec _ _ _ _ _ _ Hdf Hrows)
    as (inq & h' & Hrun & _ & _ & Hreq & Hall & Hbal & Hap & Hss).
  exists inq, h'. split; [assumption|].
  rewrite Hap, Hss, Hreq, Hall, Hbal.
  generalize (item_rows item_code table) as rows. intros rows.
  rewrite !map_map. cbn [fst snd]. rewrite !map_id.
  assert (Hpairs : picks_one (fun k r => pair_eqb (supply_type r, source r) k)
                     (pair_keys (map (fun r => (supply_type r, source r)) rows))
                     rows).
  { intros r Hr. exists (supply_type r, source r). split.
    - apply (group_keys_In _ _ pair_eqb_spec).
      apply (in_map (fun r => (supply_type r, source r))). exact Hr.
    - intros k _. rewrite pair_eqb_spec. split; congruence. }
  split; [apply string_keys_NoDup|]. split; [|split; [|split; [|split]]].
  - intros p. rewrite string_keys_In, in_map_iff. split.
    + intros (r & Hk & Hr). now exists r.
    + intros (r & Hr & Hk). now exists r.
  - apply (partition_sum (fun k r => String.eqb (SEC_order r) k)).
    + apply string_keys_NoDup.
    + apply string_groups_pick_one.
  - apply (partition_sum (fun k r => String.eqb (SEC_order r) k)).
    + apply string_keys_NoDup.
    + apply string_groups_pick_one.
  - apply (partition_sum (fun k r => String.eqb (SEC_order r) k)).
    + apply string_keys_NoDup.
    + apply string_groups_pick_one.
  - split; [apply (group_keys_NoDup _ _ pair_eqb_spec)|]. split.
    + intros k. unfold pair_keys.
      rewrite (group_keys_In _ _ pair_eqb_spec), in_map_iff. split.
      * intros (r & Hk & Hr). now exists r.
      * intros (r & Hr & Hk). now exists r.
    + apply (partition_sum (fun k r => pair_eqb (supply_type r, source r) k)).
      * apply (group_keys_NoDup _ _ pair_eqb_spec).
      * exact Hpairs.
Qed.

Lemma inquiry_breakdowns_total_witness :
  exists inq h',
    material_inquiry 0 "ITM1" [Study itm1_table] = (inr (Some inq), h')
    /\ map fst (Inquiry.allocation_by_project inq) = ["P1"; "P2"]
    /\ (series_sum (map snd (Inquiry.supply_sources inq))
        == Inquiry.total_allocated inq)%Q.
Proof.
  assert (Hne : item_rows "ITM1" itm1_table <> []) by (simpl; discriminate).
  destruct (inquiry_breakdowns_total [Study itm1_table] 0 itm1_table "ITM1"
              eq_refl Hne)
    as (inq & h' & Hrun & _ & _ & _ & _ & _ & _ & _ & Hsum).
  exists inq, h'. split; [exact Hrun|]. split; [|exact Hsum].
  vm_compute in Hrun. injection Hrun as Hinq _. now subst inq.
Defined.

(** ** Further properties of supplier_performance *)

Lemma agg_groups_inv (keys : list string) (rows : list DemandLine)
    (stats : list SupplierStat) :
  agg_groups keys rows = inr stats ->
  map stat_supplier stats = keys
  /\ Forall (fun st =>
               agg_group (stat_supplier st)
                         (filter (supplier_is (stat_supplier st)) rows) = inr st)
            stats.
Proof.
  revert stats. induction keys as [|k keys IH]; simpl; intros stats H.
  - injection H as <-. split; [reflexivity | constructor].
  - destruct (agg_group k (filter (supplier_is k) rows)) as [e|st] eqn:Hg;
      [discriminate|].
    destruct (agg_groups keys rows) as [e|ss]; [discriminate|].
    injection H as <-. destruct (IH ss eq_refl) as [Hk Hall].
    destruct (agg_group_inv _ _ _ Hg) as (Hs & _).
    split; [simpl; now rewrite Hs, Hk|].
    constructor; [now rewrite Hs | assumption].
Qed.

Lemma agg_groups_inl (keys : list string) (rows : list DemandLine) (k : string)
    (e : exn) :
  In k keys -> agg_group k (filter (supplier_is k) rows) = inl e ->
  agg_groups keys rows = inl TypeError.
Proof.
  intros Hin Hg.
  destruct (agg_groups keys rows) as [e'|stats] eqn:Hagg.
  - now rewrite (agg_groups_raises _ _ _ Hagg).
  - exfalso. destruct (agg_groups_inv _ _ _ Hagg) as [Hk Hall].
    rewrite <- Hk in Hin. apply in_map_iff in Hin as (st & <- & Hst).
    rewrite Forall_forall in Hall. rewrite (Hall st Hst) in Hg. discriminate.
Qed.

(** A delayed row that carries a string makes the aggregation raise. *)
Lemma agg_groups_string (rows : list DemandLine) :
  (forall r, In r rows -> notna (supplier r) = true) ->
  forallb is_num (map delay rows) = false ->
  groupby_supplier_agg rows = inl TypeError.
Proof.
  intros Hsup Hnum. unfold groupby_supplier_agg.
  assert (Hex : exists r, In r rows /\ is_num (delay r) = false).
  { clear Hsup. induction rows as [|r rows IH]; [discriminate|].
    simpl in Hnum. apply andb_false_iff in Hnum as [H|H].
    - exists r. split; [now left | assumption].
    - destruct (IH H) as (r' & Hin & Hr'). exists r'. split; [now right | assumption]. }
  destruct Hex as (r & Hin & Hr).
  specialize (Hsup r Hin). destruct (supplier r) as [s|] eqn:Hs; [|discriminate].
  assert (Hg : agg_group s (filter (supplier_is s) rows) = inl TypeError).
  { unfold agg_group, series_mean. rewrite numeric_raises; [reflexivity|].
    apply not_true_iff_false. intros Hall. rewrite forallb_forall in Hall.
    rewrite (Hall (delay r)) in Hr; [discriminate|].
    apply in_map. apply filter_In. split; [assumption|].
    unfold supplier_is. rewrite Hs. apply String.eqb_refl. }
  apply (agg_groups_inl _ _ s TypeError); [|exact Hg].
  apply string_keys_In, suppliers_In. now exists r.
Qed.

(** The outcome of the function in terms of the aggregation of the
    delayed rows. *)
Lemma supplier_performance_cases (h : heap) (df : ref) (table : list DemandLine) :
  nth_error h df = Some (Study table) ->
  supplier_rows table <> [] ->
  match groupby_supplier_agg (delayed_rows table) with
  | inl e => fst (supplier_performance df h) = inl e
  | inr stats =>
      exists r h',
        supplier_performance df h = (inr (Some r), h')
        /\ nth_error h' r
           = Some (Stats stats_columns (sort_values_desc avg_delay_days stats))
  end.
Proof.
  intros Hdf Hne. unfold supplier_performance.
  do 2 step. fold (supplier_rows table).
  destruct (supplier_rows table) as [|r0 rows'] eqn:Hrows; [congruence|].
  rewrite <- Hrows in *. replace (empty _) with false by (now rewrite Hrows).
  do 2 step. fold (delayed_rows table).
  destruct (groupby_supplier_agg (delayed_rows table)) as [e|stats].
  - reflexivity.
  - do 4 step. unfold ret. eexists. eexists.
    split; [reflexivity | apply nth_error_snoc].
Qed.

Lemma delayed_rows_supplier (table : list DemandLine) (r : DemandLine) :
  In r (delayed_rows table) -> notna (supplier r) = true.
Proof.
  unfold delayed_rows, supplier_rows. intros H.
  apply filter_In in H as [H _]. now apply filter_In in H as [_ H].
Qed.

(** X9.  [supplier_performance] has three outcomes, decided by the table:
    [None] exactly when no row has a supplier, [TypeError] exactly when
    some row has a supplier and a delayed row with a supplier carries a
    string in its delay, a frame in every other case. *)
Theorem supplier_performance_outcomes (h : heap) (df : ref)
    (table : list DemandLine) :
  nth_error h df = Some (Study table) ->
  let out := fst (supplier_performance df h) in
  let numbers := forallb is_num (map delay (delayed_rows table)) in
  (out = inr None <-> supplier_rows table = [])
  /\ (out = inl TypeError <-> supplier_rows table <> [] /\ numbers = false)
  /\ ((exists r, out = inr (Some r)) <->
      supplier_rows table <> [] /\ numbers = true).
Proof.
  intros Hdf out numbers.
  destruct (supplier_rows table) as [|r0 rows'] eqn:Hrows.
  - assert (Hout : out = inr None)
      by (apply (supplier_performance_none h df table Hdf Hrows)).
    rewrite Hout. split; [|split]; split.
    + reflexivity.
    + reflexivity.
    + discriminate.
    + intros [Hn _]. now elim Hn.
    + intros [r Hr]. discriminate.
    + intros [Hn _]. now elim Hn.
  - assert (Hne : supplier_rows table <> []) by (rewrite Hrows; discriminate).
    assert (Hcases := supplier_performance_cases h df table Hdf Hne).
    destruct numbers eqn:Hnum; subst numbers.
    + unfold groupby_supplier_agg in Hcases.
      destruct (agg_groups_ok (string_keys (suppliers (delayed_rows table))) _ Hnum)
        as (stats & Hagg & _).
      rewrite Hagg in Hcases. destruct Hcases as (r & h' & Hrun & _).
      assert (Hout : out = inr (Some r)) by (unfold out; now rewrite Hrun).
      rewrite Hout. split; [|split]; split.
      * discriminate.
      * discriminate.
      * discriminate.
      * intros [_ Hf]. discriminate.
      * intros _. split; [discriminate | reflexivity].
      * intros _. now exists r.
    + rewrite (agg_groups_string _ (delayed_rows_supplier table) Hnum) in Hcases.
      fold out in Hcases. rewrite Hcases. split; [|split]; split.
      * discriminate.
      * discriminate.
      * intros _. split; [discriminate | reflexivity].
      * reflexivity.
      * intros [r Hr]. discriminate.
      * intros [_ Hf]. discriminate.
Qed.

Lemma supplier_performance_outcomes_witness :
  fst (supplier_performance 0 [Study p7_table]) = inl TypeError
  /\ fst (supplier_performance 0 [Study p1_table]) = inr None
  /\ exists r, fst (supplier_performance 0 [Study p8_table]) = inr (Some r).
Proof.
  split; [|split].
  - apply (proj1 (proj2 (supplier_performance_outcomes
                           [Study p7_table] 0 p7_table eq_refl))).
    split; [simpl; discriminate | reflexivity].
  - apply (proj1 (supplier_performance_outcomes [Study p1_table] 0 p1_table eq_refl)).
    reflexivity.
  - apply (proj2 (proj2 (supplier_performance_outcomes
                           [Study p8_table] 0 p8_table eq_refl))).
    split; [simpl; discriminate | reflexivity].
Defined.

Lemma series_sum_perm (xs ys : list Q) :
  Permutation xs ys -> (series_sum xs == series_sum ys)%Q.
Proof.
  induction 1 as [|x xs ys _ IH|x y xs|xs ys zs _ IH1 _ IH2]; cbn [series_sum].
  - reflexivity.
  - rewrite IH. lra.
  - lra.
  - now rewrite IH1.
Qed.

Lemma list_sum_perm (xs ys : list nat) :
  Permutation xs ys -> list_sum xs = list_sum ys.
Proof.
  induction 1; simpl; lia.
Qed.

Lemma numeric_inv (vs : list pyval) (qs : list Q) :
  numeric vs = inr qs -> vs = map Num qs.
Proof.
  revert qs. induction vs as [|[q|s] vs IH]; simpl; intros qs H.
  - now injection H as <-.
  - destruct (numeric vs) as [e|qs']; [discriminate|].
    injection H as <-. simpl. now rewrite (IH qs' eq_refl).
  - discriminate.
Qed.

Lemma series_sum_le_max (qs : list Q) (m : Q) :
  (forall q, In q qs -> (q <= m)%Q) ->
  (series_sum qs <= inject_Z (Z.of_nat (length qs)) * m)%Q.
Proof.
  induction qs as [|q qs IH]; intros Hub.
  - cbn [series_sum length Z.of_nat]. change (inject_Z 0) with 0%Q. lra.
  - assert (Hq := Hub q (or_introl eq_refl)).
    assert (Hs : (series_sum qs <= inject_Z (Z.of_nat (length qs)) * m)%Q)
      by (apply IH; intros q' Hq'; apply Hub; now right).
    cbn [series_sum length]. rewrite Nat2Z.inj_succ.
    unfold Z.succ. rewrite inject_Z_plus.
    setoid_replace ((inject_Z (Z.of_nat (length qs)) + inject_Z 1) * m)%Q
      with (inject_Z (Z.of_nat (length qs)) * m + m)%Q
      by (change (inject_Z 1) with 1%Q; ring).
    lra.
Qed.

(** The mean of a non-empty column of numbers is at most its maximum. *)
Lemma mean_le_max (q0 : Q) (qs : list Q) (m : Q) :
  (forall q, In q (q0 :: qs) -> (q <= m)%Q) ->
  (series_sum (q0 :: qs) / inject_Z (Z.of_nat (length (q0 :: qs))) <= m)%Q.
Proof.
  intros Hub. apply Qle_shift_div_r.
  - change 0%Q with (inject_Z 0). rewrite <- Zlt_Qlt. simpl length. lia.
  - rewrite Qmult_comm. now apply series_sum_le_max.
Qed.

(** The counts and the quantities of the groups, key by key. *)
Lemma agg_groups_sums (keys : list string) (rows : list DemandLine)
    (stats : list SupplierStat) :
  agg_groups keys rows = inr stats ->
  list_sum (map delayed_items stats)
  = fold_right (fun k n => length (filter (supplier_is k) rows) + n) 0 keys
  /\ map total_qty_delayed stats
     = map (fun k => series_sum (map allocated_qty (filter (supplier_is k) rows)))
           keys.
Proof.
  revert stats. induction keys as [|k keys IH]; simpl; intros stats H.
  - injection H as <-. split; reflexivity.
  - destruct (agg_group k (filter (supplier_is k) rows)) as [e|st] eqn:Hg;
      [discriminate|].
    destruct (agg_groups keys rows) as [e|ss]; [discriminate|].
    injection H as <-. destruct (IH ss eq_refl) as [Hn Hq].
    destruct (agg_group_inv _ _ _ Hg) as (_ & Hd & _ & _ & Ht).
    simpl. now rewrite Hd, Ht, Hn, Hq.
Qed.

(** Grouping rows by supplier picks each row that has one once. *)
Lemma supplier_groups_pick_one (rows : list DemandLine) :
  (forall r, In r rows -> notna (supplier r) = true) ->
  picks_one supplier_is (string_keys (suppliers rows)) rows.
Proof.
  intros Hsup r Hr. specialize (Hsup r Hr).
  destruct (supplier r) as [s|] eqn:Hs; [|discriminate].
  exists s. split.
  - apply string_keys_In, suppliers_In. now exists r.
  - intros k _. unfold supplier_is. rewrite Hs, String.eqb_eq. split; congruence.
Qed.

(** X10.  The frame [supplier_performance] returns accounts for every
    delayed row that has a supplier once: the delayed-item counts of its
    rows add up to the number of those rows, and the delayed quantities
    to their total allocated quantity.  Every supplier listed has at
    least one delayed item, and a maximum delay that is a number not
    below the average delay. *)
Theorem supplier_stats_totals (h h' : heap) (df r : ref)
    (table : list DemandLine) :
  nth_error h df = Some (Study table) ->
  supplier_performance df h = (inr (Some r), h') ->
  exists stats,
    nth_error h' r = Some (Stats stats_columns stats)
    /\ list_sum (map delayed_items stats) = length (delayed_rows table)
    /\ (series_sum (map total_qty_delayed stats)
        == series_sum (map allocated_qty (delayed_rows table)))%Q
    /\ Forall (fun st =>
                 1 <= delayed_items st
                 /\ exists m, max_delay_days st = Num m
                              /\ (avg_delay_days st <= m)%Q) stats.
Proof.
  intros Hdf Hrun.
  assert (Hne : supplier_rows table <> []).
  { intros Hnil. assert (Hnone := supplier_performance_none h df table Hdf Hnil).
    rewrite Hrun in Hnone. discriminate. }
  assert (Hcases := supplier_performance_cases h df table Hdf Hne).
  destruct (groupby_supplier_agg (delayed_rows table)) as [e|stats] eqn:Hagg.
  { rewrite Hrun in Hcases. discriminate. }
  destruct Hcases as (r' & h'' & Hrun' & Hlook).
  rewrite Hrun in Hrun'. injection Hrun' as <- <-.
  exists (sort_values_desc avg_delay_days stats). split; [assumption|].
  assert (Hperm := sort_values_desc_perm avg_delay_days stats).
  unfold groupby_supplier_agg in Hagg.
  destruct (agg_groups_sums _ _ _ Hagg) as [Hn Hq].
  destruct (agg_groups_inv _ _ _ Hagg) as [Hkeys Hall].
  assert (Hone := supplier_groups_pick_one _ (delayed_rows_supplier table)).
  split; [|split].
  - rewrite <- (list_sum_perm _ _ (Permutation_map delayed_items Hperm)), Hn.
    apply partition_count; [apply string_keys_NoDup | exact Hone].
  - rewrite <- (series_sum_perm _ _ (Permutation_map total_qty_delayed Hperm)), Hq.
    apply (partition_sum supplier_is); [apply string_keys_NoDup | exact Hone].
  - rewrite Forall_forall in *. intros st Hst.
    assert (Hin : In st stats)
      by (eapply Permutation_in; [symmetry; exact Hperm | exact Hst]).
    destruct (agg_group_inv _ _ _ (Hall st Hin)) as (_ & Hd & Hmean & Hmax & _).
    assert (Hk : In (stat_supplier st) (string_keys (suppliers (delayed_rows table))))
      by (rewrite <- Hkeys; now apply in_map).
    apply string_keys_In, suppliers_In in Hk as (row & Hrow & Hs).
    assert (Hg : In row (filter (supplier_is (stat_supplier st)) (delayed_rows table))).
    { apply filter_In. split; [assumption|].
      unfold supplier_is. rewrite Hs. apply String.eqb_refl. }
    destruct (filter (supplier_is (stat_supplier st)) (delayed_rows table))
      as [|g0 group] eqn:Hgroup; [contradiction|].
    split; [rewrite Hd; simpl; lia|].
    unfold series_mean in Hmean.
    destruct (numeric (map delay (g0 :: group))) as [e|qs] eqn:Hnum; [discriminate|].
    injection Hmean as Hmean. apply numeric_inv in Hnum.
    destruct qs as [|q0 qs]; [discriminate|].
    rewrite Hnum in Hmax. simpl in Hmax.
    destruct (series_max_numbers q0 qs) as (m & Hm & _ & Hub).
    rewrite Hm in Hmax. injection Hmax as Hmax.
    exists m. split; [now rewrite <- Hmax|].
    rewrite <- Hmean. now apply mean_le_max.
Qed.

Lemma supplier_stats_totals_witness :
  exists r h' stats,
    supplier_performance 0 [Study p8_table] = (inr (Some r), h')
    /\ nth_error h' r = Some (Stats stats_columns stats)
    /\ list_sum (map delayed_items stats) = length (delayed_rows p8_table).
Proof.
  destruct (supplier_performance 0 [Study p8_table])
    as [[e|[r|]] h'] eqn:Hrun; try (vm_compute in Hrun; discriminate).
  destruct (supplier_stats_totals [Study p8_table] h' 0 r p8_table eq_refl Hrun)
    as (stats & Hlook & Hn & _).
  exists r, h', stats. split; [reflexivity|]. split; assumption.
Defined.

(** ** Further properties of production_readiness *)

Lemma calculate_project_status_lookup (h : heap) (df r : ref) (project : string)
    (o : object) :
  nth_error h r = Some o ->
  nth_error (snd (calculate_project_status df project h)) r = Some o.
Proof.
  apply preserves_lookup. apply keeps_preserves.
  intros n. apply keeps_calculate_project_status.
Qed.

Lemma bind_raises {A B} (m : M A) (k : A -> M B) (h : heap) (e : exn) :
  fst (m h) = inl e -> fst (bind m k h) = inl e.
Proof.
  unfold bind. destruct (m h) as [[e'|a] h1]; simpl; intros H;
    [injection H as ->; reflexivity | discriminate H].
Qed.

Lemma project_rows_nonempty (table : list DemandLine) (p : string) :
  In p (map SEC_order table) -> project_rows p table <> [].
Proof.
  intros Hin Hnil. apply in_map_iff in Hin as (r & Hp & Hr).
  assert (H : In r (project_rows p table)) by (now apply in_project_rows).
  now rewrite Hnil in H.
Qed.

(** The loop over projects that all have rows and comparable delays. *)
Lemma readiness_loop_returns (df : ref) (table : list DemandLine)
    (projects : list string) :
  (forall p, In p projects ->
     project_rows p table <> []
     /\ comparable (nonzero_delays (project_rows p table)) = true) ->
  forall h, nth_error h df = Some (Study table) ->
  exists rows h',
    readiness_loop df projects h = (inr rows, h')
    /\ nth_error h' df = Some (Study table)
    /\ map rd_Project rows = projects
    /\ Forall (row_of_status table) rows.
Proof.
  induction projects as [|p projects IH]; intros Hall h Hdf.
  - exists [], h. repeat split; [assumption | constructor].
  - destruct (Hall p (or_introl eq_refl)) as [Hne Hcmp].
    destruct (calculate_project_status_returns h df table p Hdf Hne Hcmp)
      as (st & h1 & Hrun).
    assert (Hdf1 : nth_error h1 df = Some (Study table)).
    { replace h1 with (snd (calculate_project_status df p h)) by (now rewrite Hrun).
      now apply calculate_project_status_lookup. }
    destruct (IH (fun q Hq => Hall q (or_intror Hq)) h1 Hdf1)
      as (rows & h' & Hloop & Hdf' & Hmap & Hrows).
    eexists. exists h'. split; [|split; [exact Hdf'|]].
    + cbn [readiness_loop].
      rewrite (bind_run _ _ _ _ _ Hrun), (bind_run _ _ _ _ _ Hloop). reflexivity.
    + split; [simpl; now rewrite Hmap|]. constructor; [|assumption].
      exists st. simpl. repeat split.
      rewrite <- (calculate_project_status_fst h df table p Hdf). now rewrite Hrun.
Qed.

(** The loop raises at the first project whose delays cannot be
    compared. *)
Lemma readiness_loop_raises (df : ref) (table : list DemandLine)
    (projects : list string) :
  (forall p, In p projects -> project_rows p table <> []) ->
  (exists p, In p projects
             /\ comparable (nonzero_delays (project_rows p table)) = false) ->
  forall h, nth_error h df = Some (Study table) ->
  fst (readiness_loop df projects h) = inl TypeError.
Proof.
  induction projects as [|p projects IH]; intros Hall Hex h Hdf.
  - now destruct Hex as (p & [] & _).
  - cbn [readiness_loop].
    assert (Hne := Hall p (or_introl eq_refl)).
    destruct (comparable (nonzero_delays (project_rows p table))) eqn:Hcmp.
    + destruct (calculate_project_status_returns h df table p Hdf Hne Hcmp)
        as (st & h1 & Hrun).
      assert (Hdf1 : nth_error h1 df = Some (Study table)).
      { replace h1 with (snd (calculate_project_status df p h)) by (now rewrite Hrun).
        now apply calculate_project_status_lookup. }
      rewrite (bind_run _ _ _ _ _ Hrun). apply bind_raises.
      apply IH; [intros q Hq; apply Hall; now right | | exact Hdf1].
      destruct Hex as (q & [<-|Hq] & Hf); [congruence|]. now exists q.
    + apply bind_raises.
      destruct (calculate_project_status_cases h df table p Hdf) as [_ Hraise].
      apply (Hraise Hne). now apply max_of_mixed.
Qed.

Lemma comparable_projects_false (table : list DemandLine) :
  comparable_projects table = false <->
  exists p, In p (map SEC_order table)
            /\ comparable (nonzero_delays (project_rows p table)) = false.
Proof.
  unfold comparable_projects.
  induction (map SEC_order table) as [|p ps IH]; simpl.
  - split; [discriminate | now intros (p & [] & _)].
  - rewrite andb_false_iff, IH. split.
    + intros [H|(q & Hq & Hf)]; [exists p; tauto | exists q; tauto].
    + intros (q & [<-|Hq] & Hf); [now left | right; now exists q].
Qed.

(** The outcome of [production_readiness] on a table. *)
Lemma production_readiness_cases (h : heap) (df : ref) (table : list DemandLine) :
  nth_error h df = Some (Study table) ->
  (table = [] -> fst (production_readiness df h) = inl KeyError)
  /\ (comparable_projects table = false ->
      fst (production_readiness df h) = inl TypeError)
  /\ (table <> [] -> comparable_projects table = true ->
      exists r h' rows,
        production_readiness df h = (inr r, h')
        /\ nth_error h' r
           = Some (Readiness (sort_values_desc rd_Fulfillment rows))
        /\ nth_error h' df = Some (Study table)
        /\ map rd_Project rows = unique String.eqb (map SEC_order table)
        /\ Forall (row_of_status table) rows).
Proof.
  intros Hdf. unfold production_readiness. step.
  assert (Hrows : forall p, In p (unique String.eqb (map SEC_order table)) ->
                            project_rows p table <> []).
  { intros p Hp. apply project_rows_nonempty. now apply unique_In. }
  split; [|split].
  - intros ->. reflexivity.
  - intros Hf. apply bind_raises. apply (readiness_loop_raises df table).
    + exact Hrows.
    + apply comparable_projects_false in Hf as (p & Hp & Hc).
      exists p. split; [now apply unique_In | assumption].
    + exact Hdf.
  - intros Hne Hcmp.
    destruct (readiness_loop_returns df table
                (unique String.eqb (map SEC_order table))) with (h := h)
      as (rows & h1 & Hloop & Hdf1 & Hmap & Hall).
    { intros p Hp. split; [now apply Hrows|].
      unfold comparable_projects in Hcmp. rewrite forallb_forall in Hcmp.
      apply Hcmp. now apply unique_In. }
    { exact Hdf. }
    rewrite (bind_run _ _ _ _ _ Hloop). step.
    assert (Hrne : empty rows = false).
    { destruct rows as [|row rows]; [|reflexivity].
      destruct table as [|r0 table]; [congruence | discriminate]. }
    rewrite Hrne. eexists. eexists. exists rows.
    split; [apply new_run|]. split; [apply nth_error_snoc|].
    split; [lookup|]. split; assumption.
Qed.

(** X11.  [production_readiness] has three outcomes, decided by the
    table: [KeyError] exactly when the table has no row (the frame built
    from an empty list has no column to sort by), [TypeError] exactly when
    the non-zero delays of some project mix numbers and strings, a frame
    in every other case. *)
Theorem production_readiness_outcomes (h : heap) (df : ref)
    (table : list DemandLine) :
  nth_error h df = Some (Study table) ->
  let out := fst (production_readiness df h) in
  (out = inl KeyError <-> table = [])
  /\ (out = inl TypeError <-> comparable_projects table = false)
  /\ ((exists r, out = inr r) <->
      table <> [] /\ comparable_projects table = true).
Proof.
  intros Hdf out.
  destruct (production_readiness_cases h df table Hdf) as (Hkey & Htype & Hframe).
  fold out in Hkey, Htype.
  destruct table as [|r0 table'] eqn:Htable.
  - rewrite (Hkey eq_refl). split; [|split]; split.
    + reflexivity.
    + reflexivity.
    + discriminate.
    + discriminate.
    + intros [r Hr]. discriminate.
    + intros [Hn _]. now elim Hn.
  - destruct (comparable_projects (r0 :: table')) eqn:Hcmp.
    + destruct (Hframe ltac:(discriminate) eq_refl) as (r & h' & rows & Hrun & _).
      assert (Hout : out = inr r) by (unfold out; now rewrite Hrun).
      rewrite Hout. split; [|split]; split.
      * discriminate.
      * discriminate.
      * discriminate.
      * discriminate.
      * intros _. split; [discriminate | reflexivity].
      * intros _. now exists r.
    + rewrite (Htype eq_refl). split; [|split]; split.
      * discriminate.
      * discriminate.
      * reflexivity.
      * reflexivity.
      * intros [r Hr]. discriminate.
      * intros [_ Hf]. discriminate.
Qed.

Lemma production_readiness_outcomes_witness :
  fst (production_readiness 0 [Study []]) = inl KeyError
  /\ fst (production_readiness 0 [Study (p1_table ++ p3_table)]) = inl TypeError
  /\ exists r, fst (production_readiness 0 [Study plant_table]) = inr r.
Proof.
  split; [|split].
  - apply (proj1 (production_readiness_outcomes [Study []] 0 [] eq_refl)).
    reflexivity.
  - apply (proj1 (proj2 (production_readiness_outcomes
                           [Study (p1_table ++ p3_table)] 0 _ eq_refl))).
    reflexivity.
  - apply (proj2 (proj2 (production_readiness_outcomes
                           [Study plant_table] 0 plant_table eq_refl))).
    split; [discriminate | reflexivity].
Defined.

(** X12.  The frame [production_readiness] returns ranks the projects:
    it has one row per project of the table, each project once, every row
    carries the status, fulfillment, missing-item count, maximum delay and
    SEC delivery that [calculate_project_status] gives for its project,
    and the rows are in descending order of the fulfillment percentage.
    The table is where it was. *)
Theorem production_readiness_ranking (h h' : heap) (df r : ref)
    (table : list DemandLine) :
  nth_error h df = Some (Study table) ->
  production_readiness df h = (inr r, h') ->
  exists rows,
    nth_error h' r = Some (Readiness rows)
    /\ NoDup (map rd_Project rows)
    /\ (forall p, In p (map rd_Project rows) <->
          exists row, In row table /\ SEC_order row = p)
    /\ Forall (row_of_status table) rows
    /\ Sorted (desc rd_Fulfillment) rows
    /\ nth_error h' df = Some (Study table).
Proof.
  intros Hdf Hrun.
  destruct (production_readiness_cases h df table Hdf) as (Hkey & Htype & Hframe).
  assert (Hne : table <> []).
  { intros Hnil. assert (H := Hkey Hnil). rewrite Hrun in H. discriminate H. }
  assert (Hcmp : comparable_projects table = true).
  { destruct (comparable_projects table); [reflexivity|].
    assert (H := Htype eq_refl). rewrite Hrun in H. discriminate H. }
  destruct (Hframe Hne Hcmp) as (r' & h'' & rows & Hrun' & Hlook & Hdf' & Hmap & Hall).
  rewrite Hrun in Hrun'. injection Hrun' as <- <-.
  exists (sort_values_desc rd_Fulfillment rows).
  assert (Hperm := sort_values_desc_perm rd_Fulfillment rows).
  split; [assumption|]. split; [|split; [|split; [|split]]].
  - eapply Permutation_NoDup; [apply Permutation_map; exact Hperm|].
    rewrite Hmap. apply unique_NoDup.
  - intros p.
    assert (Hp : In p (map rd_Project (sort_values_desc rd_Fulfillment rows))
                 <-> In p (map rd_Project rows)).
    { split; apply Permutation_in; [symmetry|]; now apply Permutation_map. }
    rewrite Hp, Hmap, unique_In, in_map_iff. split.
    + intros (row & Hk & Hr). now exists row.
    + intros (row & Hr & Hk). now exists row.
  - rewrite Forall_forall in *. intros row Hin. apply Hall.
    eapply Permutation_in; [symmetry; exact Hperm | exact Hin].
  - apply sort_values_desc_sorted.
  - assumption.
Qed.

Lemma production_readiness_ranking_witness :
  exists r h' rows,
    production_readiness 0 [Study plant_table] = (inr r, h')
    /\ nth_error h' r = Some (Readiness rows)
    /\ length rows = 3
    /\ Sorted (desc rd_Fulfillment) rows.
Proof.
  destruct (production_readiness 0 [Study plant_table])
    as [[e|r] h'] eqn:Hrun; try (vm_compute in Hrun; discriminate).
  destruct (production_readiness_ranking [Study plant_table] h' 0 r plant_table
              eq_refl Hrun) as (rows & Hlook & _ & _ & _ & Hsorted & _).
  exists r, h', rows. split; [reflexivity|]. split; [exact Hlook|].
  split; [|exact Hsorted].
  vm_compute in Hrun. injection Hrun as <- <-.
  vm_compute in Hlook. injection Hlook as <-. reflexivity.
Defined.

(** ** get_latest_study_file *)

Lemma max_by_ctime_spec (files : listing) (best : string * Q) :
  In (max_by_ctime best files) (best :: files)
  /\ forall g, In g (best :: files) -> (snd g <= snd (max_by_ctime best files))%Q.
Proof.
  revert best. induction files as [|f files IH]; intros best; simpl.
  - split; [now left|]. intros g [<-|[]]. lra.
  - unfold Qgt_bool. destruct (Qle_bool (snd f) (snd best)) eqn:Hle; simpl.
    + apply Qle_bool_iff in Hle. destruct (IH best) as [Hin Hub]. split.
      * destruct Hin as [Hin|Hin]; [now left | now right; right].
      * intros g [<-|[<-|Hg]].
        -- apply Hub. now left.
        -- assert (H := Hub best (or_introl eq_refl)). lra.
        -- apply Hub. now right.
    + assert (Hlt : (snd best < snd f)%Q).
      { apply Qnot_le_lt. intros H. apply Qle_bool_iff in H. congruence. }
      destruct (IH f) as [Hin Hub]. split.
      * right. exact Hin.
      * intros g [<-|[<-|Hg]].
        -- assert (H := Hub f (or_introl eq_refl)). lra.
        -- apply Hub. now left.
        -- apply Hub. now right.
Qed.

Lemma filter_existsb {A} (f : A -> bool) (l : list A) :
  empty (filter f l) = negb (existsb f l).
Proof.
  induction l as [|a l IH]; simpl; [reflexivity|].
  destruct (f a); simpl; [reflexivity | exact IH].
Qed.

Lemma filter_filter {A} (f g : A -> bool) (l : list A) :
  filter g (filter f l) = filter (fun a => f a && g a) l.
Proof.
  induction l as [|a l IH]; simpl; [reflexivity|].
  destruct (f a); simpl; [destruct (g a)|]; now rewrite IH.
Qed.

(** The function chooses among the candidates. *)
Lemma get_latest_study_file_candidates (dir : listing) :
  get_latest_study_file dir =
  match study_candidates dir with
  | [] => None
  | f :: files => Some (fst (max_by_ctime f files))
  end.
Proof.
  unfold get_latest_study_file, study_candidates.
  rewrite filter_existsb, filter_filter.
  now destruct (existsb (fun f => is_study_file (fst f)) dir).
Qed.

(** X13.  [get_latest_study_file] chooses among the entries named
    [MV_Material_Study-*.xlsx] and, only when there is none, among the
    other visible [*.xlsx] entries whose name contains "Material",
    "material", "Study" or "study".  It finds nothing exactly when there
    is no such entry; what it finds is one of them and none of them was
    created later; and as soon as the directory holds an entry named
    [MV_Material_Study-*.xlsx] the file found is one of that name, whatever
    the age of the other workbooks. *)
Theorem latest_study_file_spec (dir : listing) :
  (get_latest_study_file dir = None <-> study_candidates dir = [])
  /\ (forall name, get_latest_study_file dir = Some name ->
      exists t, In (name, t) (study_candidates dir)
                /\ forall g, In g (study_candidates dir) -> (snd g <= t)%Q)
  /\ (forall f, In f dir -> is_study_file (fst f) = true ->
      exists name, get_latest_study_file dir = Some name
                   /\ is_study_file name = true).
Proof.
  rewrite get_latest_study_file_candidates. split; [|split].
  - destruct (study_candidates dir); split; congruence.
  - intros name Hname.
    destruct (study_candidates dir) as [|f files]; [discriminate|].
    injection Hname as <-.
    destruct (max_by_ctime_spec files f) as [Hin Hub].
    exists (snd (max_by_ctime f files)). split; [|exact Hub].
    now rewrite <- surjective_pairing.
  - intros f Hf Hstudy. unfold study_candidates.
    assert (Hex : existsb (fun f => is_study_file (fst f)) dir = true)
      by (apply existsb_exists; now exists f).
    rewrite Hex.
    destruct (filter (fun f => is_study_file (fst f)) dir) as [|f0 files] eqn:Hfiles.
    + assert (H : In f (filter (fun f => is_study_file (fst f)) dir))
        by (now apply filter_In).
      now rewrite Hfiles in H.
    + eexists. split; [reflexivity|].
      destruct (max_by_ctime_spec files f0) as [Hin _].
      rewrite <- Hfiles in Hin. now apply filter_In in Hin as [_ Hin].
Qed.

Lemma latest_study_file_spec_witness :
  get_latest_study_file reports_dir = Some "MV_Material_Study-2024-02.xlsx"
  /\ exists t, In ("MV_Material_Study-2024-02.xlsx", t) (study_candidates reports_dir)
               /\ (forall g, In g (study_candidates reports_dir) -> (snd g <= t)%Q)
               /\ (t < 900)%Q.
Proof.
  split; [reflexivity|].
  destruct (proj1 (proj2 (latest_study_file_spec reports_dir))
              "MV_Material_Study-2024-02.xlsx" eq_refl) as (t & Hin & Hub).
  exists t. split; [exact Hin|]. split; [exact Hub|].
  simpl in Hin. destruct Hin as [Hin|[Hin|[]]]; [discriminate|].
  injection Hin as <-. reflexivity.
Defined.

(** ** The other views: what they leave in the heap *)

Section KeepsOtherFrames.
Variable n : nat.

Lemma keeps_select_columns (r : ref) cols :
  keeps n (select_columns r cols) (fun r' => n <= r').
Proof.
  unfold select_columns. eapply keeps_bind; [apply keeps_frame_rows|]. intros.
  eapply keeps_bind; [apply keeps_lift|]. intros. apply keeps_new.
Qed.

Lemma keeps_head (r : ref) (k : nat) : keeps n (head r k) (fun r' => n <= r').
Proof.
  unfold head. eapply keeps_bind; [apply keeps_load|]. intros. apply keeps_new.
Qed.

Lemma keeps_stats_rows (r : ref) : keeps n (stats_rows r) (fun _ => True).
Proof. unfold stats_rows. keeps_auto. Qed.

Lemma keeps_readiness_rows (r : ref) : keeps n (readiness_rows r) (fun _ => True).
Proof. unfold readiness_rows. keeps_auto. Qed.

Lemma keeps_getitem_readiness (r : ref) mask :
  keeps n (getitem_readiness r mask) (fun r' => n <= r').
Proof.
  unfold getitem_readiness. eapply keeps_bind; [apply keeps_readiness_rows|].
  intros. apply keeps_new.
Qed.

Lemma keeps_setitem_apply_rows (r : ref) name f :
  n <= r -> keeps n (setitem_apply_rows r name f) (fun _ => True).
Proof. intros Hr. unfold setitem_apply_rows. keeps_auto. Qed.

Lemma keeps_getitem_display_cols (r : ref) cols :
  keeps n (getitem_display_cols r cols) (fun r' => n <= r').
Proof.
  unfold getitem_display_cols. eapply keeps_bind; [apply keeps_load|].
  intros [rows|cs rows|rows|names body] _; try apply keeps_raise.
  destruct (positions cols names); [apply keeps_new | apply keeps_raise].
Qed.
End KeepsOtherFrames.

#[local] Hint Resolve keeps_select_columns keeps_head keeps_stats_rows
  keeps_readiness_rows keeps_getitem_readiness keeps_setitem_apply_rows
  keeps_getitem_display_cols keeps_calculate_project_status
  keeps_material_inquiry keeps_supplier_performance keeps_production_readiness
  : keeps.

Section KeepsOtherViews.
Variable n : nat.

Lemma keeps_count_statuses (df : ref) (projects : list string)
    (c : Dashboard.StatusCounts) :
  keeps n (count_statuses df projects c) (fun _ => True).
Proof.
  revert c. induction projects as [|p ps IH]; intros c; simpl.
  - apply keeps_ret_True.
  - eapply keeps_bind; [apply keeps_calculate_project_status|]. intros. apply IH.
Qed.

Lemma keeps_show_dashboard_overview (df : ref) :
  keeps n (show_dashboard_overview df) (fun _ => True).
Proof.
  unfold show_dashboard_overview.
  eapply keeps_bind; [apply keeps_frame_rows|]. intros.
  eapply keeps_bind; [apply keeps_new|]. intros.
  eapply keeps_bind; [apply keeps_count_statuses|]. intros.
  keeps_auto.
Qed.

Lemma keeps_show_project_health (df : ref) (selected_project : option string) :
  keeps n (show_project_health df selected_project) (fun _ => True).
Proof.
  unfold show_project_health.
  destruct (truthy selected_project) as [project|]; [|apply keeps_ret_True].
  eapply keeps_bind; [apply keeps_calculate_project_status|].
  intros [st|] _; [|apply keeps_ret_True].
  eapply keeps_bind; [apply keeps_getitem_mask|]. intros proj_data _.
  eapply keeps_bind; [apply keeps_copy|]. intros proj_data_display Hd.
  eapply keeps_bind; [now apply keeps_setitem_apply_rows|]. intros.
  keeps_auto.
Qed.

Lemma keeps_show_material_inquiry (df : ref) (selected_item : option string) :
  keeps n (show_material_inquiry df selected_item) (fun _ => True).
Proof. unfold show_material_inquiry. keeps_auto. Qed.

Lemma keeps_show_supplier_performance (df : ref) (selected : option string) :
  keeps n (show_supplier_performance df selected) (fun _ => True).
Proof. unfold show_supplier_performance. keeps_auto. Qed.

Lemma keeps_critical_loop (df : ref) (now : string -> Z) (projects : list string) :
  keeps n (critical_loop df now projects) (fun _ => True).
Proof.
  induction projects as [|p ps IH]; simpl.
  - apply keeps_ret_True.
  - eapply keeps_bind; [apply keeps_calculate_project_status|]. intros.
    eapply keeps_bind; [exact IH|]. intros. apply keeps_ret_True.
Qed.

Lemma keeps_show_critical_projects (df : ref) (now : string -> Z)
    (selected : option string) :
  keeps n (show_critical_projects df now selected) (fun _ => True).
Proof.
  unfold show_critical_projects.
  eapply keeps_bind; [apply keeps_frame_rows|]. intros.
  eapply keeps_bind; [apply keeps_critical_loop|]. intros.
  keeps_auto.
Qed.

Lemma keeps_show_production_readiness (df : ref) (min_fulfillment : Z)
    (show_only_ready : bool) :
  keeps n (show_production_readiness df min_fulfillment show_only_ready)
        (fun _ => True).
Proof.
  unfold show_production_readiness.
  eapply keeps_bind; [apply keeps_production_readiness|]. intros.
  eapply keeps_bind; [apply keeps_readiness_rows|]. intros.
  destruct (negb _); [|apply keeps_ret_True].
  eapply keeps_bind.
  { destruct show_only_ready; apply keeps_getitem_readiness. }
  intros. keeps_auto.
Qed.
End KeepsOtherViews.

(** ** Running the frame operations of the other views *)

Lemma select_columns_run (h : heap) (r : ref) (rows : list DemandLine)
    (cols : list string) (fs : list (DemandLine -> cell)) :
  nth_error h r = Some (Study rows) ->
  accessors cols = inr fs ->
  select_columns r cols h
  = (inr (length h),
     h ++ [Display cols (map (fun row => map (fun f => f row) fs) rows)]).
Proof.
  intros Hr Hfs. unfold select_columns.
  step. rewrite Hfs. simpl lift. unfold ret at 1.
  rewrite (bind_run _ _ h h fs) by reflexivity.
  apply new_run.
Qed.

Lemma head_run (h : heap) (r : ref) (o : object) (k : nat) :
  nth_error h r = Some o ->
  head r k h
  = (inr (length h),
     h ++ [match o with
           | Study rows => Study (firstn k rows)
           | Stats cols rows => Stats cols (firstn k rows)
           | Readiness rows => Readiness (firstn k rows)
           | Display cols body => Display cols (firstn k body)
           end]).
Proof.
  intros Hr. unfold head. rewrite (bind_run _ _ _ _ _ (load_run _ _ _ Hr)).
  apply new_run.
Qed.

Lemma stats_rows_run (h : heap) (r : ref) cols rows :
  nth_error h r = Some (Stats cols rows) -> stats_rows r h = (inr rows, h).
Proof.
  intros Hr. unfold stats_rows. now rewrite (bind_run _ _ _ _ _ (load_run _ _ _ Hr)).
Qed.

Lemma readiness_rows_run (h : heap) (r : ref) rows :
  nth_error h r = Some (Readiness rows) -> readiness_rows r h = (inr rows, h).
Proof.
  intros Hr. unfold readiness_rows.
  now rewrite (bind_run _ _ _ _ _ (load_run _ _ _ Hr)).
Qed.

Lemma getitem_readiness_run (h : heap) (r : ref) rows mask :
  nth_error h r = Some (Readiness rows) ->
  getitem_readiness r mask h
  = (inr (length h), h ++ [Readiness (filter mask rows)]).
Proof.
  intros Hr. unfold getitem_readiness.
  rewrite (bind_run _ _ _ _ _ (readiness_rows_run _ _ _ Hr)). apply new_run.
Qed.

Lemma setitem_apply_rows_run (h : heap) (rows : list DemandLine) (name : string)
    (f : DemandLine -> cell) :
  setitem_apply_rows (length h) name f (h ++ [Study rows])
  = (inr tt,
     h ++ [Display (map fst study_columns ++ [name])
                   (map (fun row => map (fun c => snd c row) study_columns
                                    ++ [f row]) rows)]).
Proof.
  unfold setitem_apply_rows.
  rewrite (bind_run _ _ _ _ _ (load_run _ _ _ (nth_error_snoc h _))).
  unfold store. now rewrite update_snoc.
Qed.

Lemma getitem_display_cols_run (h : heap) (r : ref) names body cols l :
  nth_error h r = Some (Display names body) ->
  positions cols names = Some l ->
  getitem_display_cols r cols h
  = (inr (length h),
     h ++ [Display cols (map (fun row => map (fun i => nth i row CNaN) l) body)]).
Proof.
  intros Hr Hl. unfold getitem_display_cols.
  rewrite (bind_run _ _ _ _ _ (load_run _ _ _ Hr)). rewrite Hl. apply new_run.
Qed.

Lemma bind_assoc {A B C} (m : M A) (f : A -> M B) (g : B -> M C) (h : heap) :
  bind (bind m f) g h = bind m (fun a => bind (f a) g) h.
Proof. unfold bind. now destruct (m h) as [[e|a] h1]. Qed.

Lemma bind_ret {A B} (a : A) (k : A -> M B) (h : heap) :
  bind (ret a) k h = k a h.
Proof. reflexivity. Qed.

Ltac run_view_prim :=
  first [ run_prim
        | eapply select_columns_run; [lookup | reflexivity]
        | eapply head_run; lookup
        | eapply stats_rows_run; lookup
        | eapply readiness_rows_run; lookup
        | eapply getitem_readiness_run; lookup
        | apply setitem_apply_rows_run
        | eapply getitem_display_cols_run; [lookup | reflexivity] ].

Ltac vstep :=
  rewrite ?bind_assoc; cbv beta;
  match goal with
  | |- context [bind ?m ?k ?h] =>
      let H := fresh "Hstep" in
      eassert (H : m h = (inr _, _)) by run_view_prim;
      rewrite (bind_run _ _ _ _ _ H); clear H
  end.

(** A computation that only allocates extends the heap. *)
Lemma calculate_project_status_extends (h : heap) (df : ref) (project : string) :
  exists ext, snd (calculate_project_status df project h) = h ++ ext.
Proof.
  apply (keeps_preserves (calculate_project_status df project)).
  intros n. apply keeps_calculate_project_status.
Qed.

Lemma project_status_of_run (h h' : heap) (df : ref) (table : list DemandLine)
    (p : string) (st : ProjectStatus) :
  nth_error h df = Some (Study table) ->
  calculate_project_status df p h = (inr (Some st), h') ->
  project_status table p = inr (Some st).
Proof.
  intros Hdf Hrun.
  rewrite <- (calculate_project_status_fst h df table p Hdf). now rewrite Hrun.
Qed.

(** ** show_dashboard_overview *)

Lemma count_statuses_returns (df : ref) (table : list DemandLine)
    (projects : list string) :
  (forall p, In p projects ->
     project_rows p table <> []
     /\ comparable (nonzero_delays (project_rows p table)) = true) ->
  forall h c, nth_error h df = Some (Study table) ->
  exists c' ext,
    count_statuses df projects c h = (inr c', h ++ ext)
    /\ Dashboard.count_Ready c'
       = Dashboard.count_Ready c + length (filter (status_is table Ready) projects)
    /\ Dashboard.count_Partial c'
       = Dashboard.count_Partial c
         + length (filter (status_is table Partial) projects)
    /\ Dashboard.count_Critical c'
       = Dashboard.count_Critical c
         + length (filter (status_is table Critical) projects).
Proof.
  induction projects as [|p projects IH]; intros Hall h c Hdf.
  - exists c, []. rewrite app_nil_r. simpl. repeat split; lia.
  - destruct (Hall p (or_introl eq_refl)) as [Hne Hcmp].
    destruct (calculate_project_status_returns h df table p Hdf Hne Hcmp)
      as (st & h1 & Hrun).
    destruct (calculate_project_status_extends h df p) as [ext1 Hext].
    rewrite Hrun in Hext. simpl in Hext. subst h1.
    assert (Hdf1 : nth_error (h ++ ext1) df = Some (Study table)) by lookup.
    destruct (IH (fun q Hq => Hall q (or_intror Hq)) (h ++ ext1)
                 (count_status (status st) c) Hdf1)
      as (c' & ext2 & Hloop & Hr & Hp & Hc).
    exists c', (ext1 ++ ext2). split.
    + cbn [count_statuses]. rewrite (bind_run _ _ _ _ _ Hrun).
      rewrite Hloop. now rewrite app_assoc.
    + assert (Hs : forall s, status_is table s p = Status_eqb (status st) s).
      { intros s. unfold status_is.
        now rewrite (project_status_of_run _ _ _ _ _ _ Hdf Hrun). }
      rewrite Hr, Hp, Hc. cbn [filter]. rewrite !Hs.
      destruct (status st); simpl; repeat split; lia.
Qed.

Lemma count_statuses_raises (df : ref) (table : list DemandLine)
    (projects : list string) :
  (forall p, In p projects -> project_rows p table <> []) ->
  (exists p, In p projects
             /\ comparable (nonzero_delays (project_rows p table)) = false) ->
  forall h c, nth_error h df = Some (Study table) ->
  fst (count_statuses df projects c h) = inl TypeError.
Proof.
  induction projects as [|p projects IH]; intros Hall Hex h c Hdf.
  - now destruct Hex as (p & [] & _).
  - cbn [count_statuses].
    assert (Hne := Hall p (or_introl eq_refl)).
    destruct (comparable (nonzero_delays (project_rows p table))) eqn:Hcmp.
    + destruct (calculate_project_status_returns h df table p Hdf Hne Hcmp)
        as (st & h1 & Hrun).
      assert (Hdf1 : nth_error h1 df = Some (Study table)).
      { replace h1 with (snd (calculate_project_status df p h)) by (now rewrite Hrun).
        now apply calculate_project_status_lookup. }
      rewrite (bind_run _ _ _ _ _ Hrun).
      apply IH; [intros q Hq; apply Hall; now right | | exact Hdf1].
      destruct Hex as (q & [<-|Hq] & Hf); [congruence|]. now exists q.
    + apply bind_raises.
      destruct (calculate_project_status_cases h df table p Hdf) as [_ Hraise].
      apply (Hraise Hne). now apply max_of_mixed.
Qed.

Lemma projects_have_rows (table : list DemandLine) (p : string) :
  In p (projects_of table) -> project_rows p table <> [].
Proof.
  intros Hp. apply project_rows_nonempty. now apply unique_In.
Qed.

Lemma projects_comparable (table : list DemandLine) (p : string) :
  comparable_projects table = true -> In p (projects_of table) ->
  comparable (nonzero_delays (project_rows p table)) = true.
Proof.
  unfold comparable_projects. rewrite forallb_forall. intros Hcmp Hp.
  apply Hcmp. now apply unique_In.
Qed.

Lemma projects_not_comparable (table : list DemandLine) :
  comparable_projects table = false ->
  exists p, In p (projects_of table)
            /\ comparable (nonzero_delays (project_rows p table)) = false.
Proof.
  intros Hf. apply comparable_projects_false in Hf as (p & Hp & Hc).
  exists p. split; [now apply unique_In | assumption].
Qed.

(** The cells of a row of the table of delayed items. *)
Lemma show_dashboard_overview_run (h : heap) (df : ref) (table : list DemandLine) :
  nth_error h df = Some (Study table) ->
  comparable_projects table = true ->
  exists d h',
    show_dashboard_overview df h = (inr d, h')
    /\ Dashboard.total_projects d = length (projects_of table)
    /\ Dashboard.total_items d = length table
    /\ Dashboard.count_Ready (Dashboard.status_counts d)
       = length (projects_with table Ready)
    /\ Dashboard.count_Partial (Dashboard.status_counts d)
       = length (projects_with table Partial)
    /\ Dashboard.count_Critical (Dashboard.status_counts d)
       = length (projects_with table Critical)
    /\ match Dashboard.delayed_display d with
       | None => delayed_lines table = []
       | Some t =>
           delayed_lines table <> []
           /\ nth_error h' t
              = Some (Display ["SEC order"; "item"; "description"; "delay";
                               "supplier"; "availability_date"]
                        (map (fun r => [CStr (SEC_order r); CStr (item r);
                                        CStr (description r);
                                        cell_of_pyval (delay r);
                                        cell_of_option (supplier r);
                                        cell_of_date (availability_date r)])
                             (firstn 10 (delayed_lines table))))
       end.
Proof.
  intros Hdf Hcmp. unfold show_dashboard_overview.
  vstep. vstep.
  destruct (count_statuses_returns df table (projects_of table)) with
    (h := h ++ [Display ["supply_type"; "allocated_qty"]
                  (map (fun e => [CStr (fst e); CNum (snd e)])
                       (group_sum supply_type allocated_qty table))])
    (c := {| Dashboard.count_Ready := 0; Dashboard.count_Partial := 0;
             Dashboard.count_Critical := 0 |})
    as (c' & ext & Hloop & Hr & Hp & Hc).
  { intros p Hp. split; [now apply projects_have_rows|].
    now apply projects_comparable. }
  { lookup. }
  fold (projects_of table). rewrite (bind_run _ _ _ _ _ Hloop).
  do 3 vstep. fold (delayed_lines table).
  destruct (delayed_lines table) as [|r0 rows'] eqn:Hrows.
  - simpl negb. cbv iota. rewrite bind_ret. unfold ret.
    eexists. eexists. split; [reflexivity|]. simpl.
    repeat split; assumption.
  - simpl negb. cbv iota. rewrite <- Hrows.
    vstep. vstep. rewrite ?bind_assoc, bind_ret. unfold ret.
    eexists. eexists. split; [reflexivity|].
    cbn [Dashboard.total_projects Dashboard.total_items Dashboard.status_counts
         Dashboard.delayed_display].
    repeat split; try assumption.
    + rewrite Hrows. discriminate.
    + rewrite <- firstn_map. lookup.
Qed.

Lemma show_dashboard_overview_raises (h : heap) (df : ref)
    (table : list DemandLine) :
  nth_error h df = Some (Study table) ->
  comparable_projects table = false ->
  fst (show_dashboard_overview df h) = inl TypeError.
Proof.
  intros Hdf Hcmp. unfold show_dashboard_overview.
  vstep. vstep. apply bind_raises.
  apply (count_statuses_raises df table).
  - intros p Hp. now apply projects_have_rows.
  - now apply projects_not_comparable.
  - lookup.
Qed.

(** Every project with a status record has exactly one status. *)
Lemma statuses_partition (table : list DemandLine) (projects : list string) :
  (forall p, In p projects -> exists st, project_status table p = inr (Some st)) ->
  length (filter (status_is table Ready) projects)
  + length (filter (status_is table Partial) projects)
  + length (filter (status_is table Critical) projects)
  = length projects.
Proof.
  induction projects as [|p projects IH]; intros Hall; [reflexivity|].
  destruct (Hall p (or_introl eq_refl)) as [st Hst].
  specialize (IH (fun q Hq => Hall q (or_intror Hq))).
  assert (Hs : forall s, status_is table s p = Status_eqb (status st) s)
    by (intros s; unfold status_is; now rewrite Hst).
  cbn [filter]. rewrite !Hs.
  destruct (status st); simpl; lia.
Qed.

Lemma project_status_returns (table : list DemandLine) (p : string) :
  comparable_projects table = true -> In p (projects_of table) ->
  exists st, project_status table p = inr (Some st).
Proof.
  intros Hcmp Hp.
  destruct (calculate_project_status_returns [Study table] 0 table p eq_refl)
    as (st & h' & Hrun).
  - now apply projects_have_rows.
  - now apply projects_comparable.
  - exists st. unfold project_status. now rewrite Hrun.
Qed.

(** X14.  The dashboard raises [TypeError] exactly when the non-zero
    delays of some project mix numbers and strings, and returns in every
    other case, an empty table included.  When it returns, the three
    status counts are the numbers of projects whose status is Ready,
    Partial and Critical, they add up to the number of projects shown,
    which is the number of distinct projects of the table, and the number
    of line items is the number of rows. *)
Theorem dashboard_status_summary (h : heap) (df : ref) (table : list DemandLine) :
  nth_error h df = Some (Study table) ->
  (fst (show_dashboard_overview df h) = inl TypeError <->
   comparable_projects table = false)
  /\ ((exists d, fst (show_dashboard_overview df h) = inr d) <->
      comparable_projects table = true)
  /\ (forall d h', show_dashboard_overview df h = (inr d, h') ->
      let c := Dashboard.status_counts d in
      Dashboard.count_Ready c = length (projects_with table Ready)
      /\ Dashboard.count_Partial c = length (projects_with table Partial)
      /\ Dashboard.count_Critical c = length (projects_with table Critical)
      /\ Dashboard.count_Ready c + Dashboard.count_Partial c
         + Dashboard.count_Critical c = Dashboard.total_projects d
      /\ Dashboard.total_projects d = length (projects_of table)
      /\ Dashboard.total_items d = length table).
Proof.
  intros Hdf.
  destruct (comparable_projects table) eqn:Hcmp.
  - destruct (show_dashboard_overview_run h df table Hdf Hcmp)
      as (d0 & h0 & Hrun & Hn & Hi & Hr & Hp & Hc & _).
    rewrite Hrun. simpl fst. split; [|split].
    + split; discriminate.
    + split; [reflexivity | intros _; now exists d0].
    + intros d h' [= <- <-]. simpl.
      repeat split; try assumption.
      rewrite Hr, Hp, Hc, Hn. apply statuses_partition.
      intros p Hpin. now apply project_status_returns.
  - rewrite (show_dashboard_overview_raises h df table Hdf Hcmp). split; [|split].
    + split; reflexivity.
    + split; [intros [d Hd]; discriminate | discriminate].
    + intros d h' Hrun.
      assert (H := show_dashboard_overview_raises h df table Hdf Hcmp).
      rewrite Hrun in H. discriminate.
Qed.

Lemma dashboard_status_summary_witness :
  exists d h',
    show_dashboard_overview 0 [Study plant_table] = (inr d, h')
    /\ Dashboard.total_projects d = 3
    /\ Dashboard.count_Ready (Dashboard.status_counts d) = 2
    /\ Dashboard.count_Critical (Dashboard.status_counts d) = 1
  /\ fst (show_dashboard_overview 0 [Study p3_table]) = inl TypeError.
Proof.
  destruct (show_dashboard_overview 0 [Study plant_table])
    as [[e|d] h'] eqn:Hrun; try (vm_compute in Hrun; discriminate).
  destruct (proj2 (proj2 (dashboard_status_summary [Study plant_table] 0
                            plant_table eq_refl)) d h' Hrun)
    as (Hr & _ & Hc & _ & Hn & _).
  exists d, h'. split; [reflexivity|].
  split; [rewrite Hn; reflexivity|].
  split; [rewrite Hr; reflexivity|].
  split; [rewrite Hc; reflexivity|].
  apply (proj1 (dashboard_status_summary [Study p3_table] 0 p3_table eq_refl)).
  reflexivity.
Defined.

(** X15.  The table of delayed items on the dashboard: the view reports
    that no item is delayed exactly when every delay of the table is [0];
    otherwise the table has the six columns chosen and one line for each
    of the first ten rows with a delay other than [0], in the order of the
    table, and no line for the others. *)
Theorem dashboard_delayed_items (h h' : heap) (df : ref) (table : list DemandLine)
    (d : Dashboard.t) :
  nth_error h df = Some (Study table) ->
  show_dashboard_overview df h = (inr d, h') ->
  match Dashboard.delayed_display d with
  | None => forall r, In r table -> py_ne (delay r) (Num 0) = false
  | Some t =>
      exists body,
        nth_error h' t
        = Some (Display ["SEC order"; "item"; "description"; "delay";
                         "supplier"; "availability_date"] body)
        /\ body = map (fun r => [CStr (SEC_order r); CStr (item r);
                                 CStr (description r); cell_of_pyval (delay r);
                                 cell_of_option (supplier r);
                                 cell_of_date (availability_date r)])
                      (firstn 10 (delayed_lines table))
        /\ length body = Nat.min 10 (length (delayed_lines table))
        /\ 0 < length body
  end.
Proof.
  intros Hdf Hrun.
  assert (Hcmp : comparable_projects table = true).
  { destruct (comparable_projects table) eqn:Hcmp; [reflexivity|].
    assert (H := show_dashboard_overview_raises h df table Hdf Hcmp).
    rewrite Hrun in H. discriminate. }
  destruct (show_dashboard_overview_run h df table Hdf Hcmp)
    as (d0 & h0 & Hrun0 & _ & _ & _ & _ & _ & Hdisplay).
  rewrite Hrun in Hrun0. injection Hrun0 as <- <-.
  destruct (Dashboard.delayed_display d) as [t|].
  - destruct Hdisplay as [Hne Hlook]. eexists. split; [exact Hlook|].
    split; [reflexivity|]. rewrite length_map, length_firstn.
    split; [reflexivity|].
    destruct (delayed_lines table); [congruence | simpl; lia].
  - unfold delayed_lines in Hdisplay. now apply filter_nil.
Qed.

Lemma dashboard_delayed_items_witness :
  exists d h' t body,
    show_dashboard_overview 0 [Study plant_table] = (inr d, h')
    /\ Dashboard.delayed_display d = Some t
    /\ nth_error h' t
       = Some (Display ["SEC order"; "item"; "description"; "delay";
                        "supplier"; "availability_date"] body)
    /\ length body = 4.
Proof.
  destruct (show_dashboard_overview 0 [Study plant_table])
    as [[e|d] h'] eqn:Hrun; try (vm_compute in Hrun; discriminate).
  assert (H := dashboard_delayed_items [Study plant_table] h' 0 plant_table d
                 eq_refl Hrun).
  destruct (Dashboard.delayed_display d) as [t|] eqn:Ht.
  - destruct H as (body & Hlook & _ & Hlen & _).
    exists d, h', t, body. repeat split; assumption.
  - exfalso. specialize (H (line "P8" "ITM1" "PO" "PO-1" "-" (Some "BOLT")
                                 10 10 0 (Num 3))).
    assert (Hin : In (line "P8" "ITM1" "PO" "PO-1" "-" (Some "BOLT")
                           10 10 0 (Num 3)) plant_table)
      by (unfold plant_table; simpl; tauto).
    specialize (H Hin). discriminate H.
Defined.

(** ** show_project_health *)

Lemma show_project_health_run (h : heap) (df : ref) (table : list DemandLine)
    (selected : option string) (p : string) :
  nth_error h df = Some (Study table) ->
  truthy selected = Some p ->
  project_rows p table <> [] ->
  comparable (nonzero_delays (project_rows p table)) = true ->
  let rows := project_rows p table in
  exists v h',
    show_project_health df selected h = (inr (Some v), h')
    /\ project_status table p = inr (Some (Health.status_info v))
    /\ nth_error h' (Health.details v)
       = Some (Display health_columns (map health_line rows))
    /\ Health.blocking v
       = (if 0 <? missing_items (Health.status_info v)
          then [Health.CompletelyMissing (missing_items (Health.status_info v))]
          else [])
         ++ (if negb (empty (of_type "QC" rows))
             then [Health.ItemsStuckInQC (length (of_type "QC" rows))]
             else [])
         ++ (if negb (empty (of_type "GR_in_process" rows))
             then [Health.ItemsInGRProcess (length (of_type "GR_in_process" rows))]
             else []).
Proof.
  intros Hdf Hsel Hne Hcmp rows. unfold show_project_health. rewrite Hsel.
  destruct (calculate_project_status_returns h df table p Hdf Hne Hcmp)
    as (st & h1 & Hrun).
  destruct (calculate_project_status_extends h df p) as [ext Hext].
  rewrite Hrun in Hext. simpl in Hext. subst h1.
  rewrite (bind_run _ _ _ _ _ Hrun).
  do 8 vstep. unfold ret. eexists. eexists. split; [reflexivity|].
  cbn [Health.status_info Health.details Health.blocking].
  fold (project_rows p table). fold rows.
  fold (of_type "QC" rows). fold (of_type "GR_in_process" rows).
  split; [exact (project_status_of_run _ _ _ _ _ _ Hdf Hrun)|]. split.
  - assert (Hbody :
      map (fun row => map (fun i => nth i row CNaN) [16; 3; 4; 5; 6; 7; 8; 9; 13; 12])
          (map (fun row => map (fun c => snd c row) study_columns
                           ++ [CStr (get_item_status row)]) rows)
      = map health_line rows).
    { rewrite map_map. apply map_ext. intros r. reflexivity. }
    rewrite <- Hbody. lookup.
  - destruct (0 <? missing_items st), (negb (empty (of_type "QC" rows))),
      (negb (empty (of_type "GR_in_process" rows))); reflexivity.
Qed.

Lemma project_status_run (table : list DemandLine) (p : string)
    (st : ProjectStatus) :
  project_status table p = inr (Some st) ->
  exists h', calculate_project_status 0 p [Study table] = (inr (Some st), h').
Proof.
  unfold project_status. intros H.
  destruct (calculate_project_status 0 p [Study table]) as [o h'].
  simpl in H. subst o. now exists h'.
Qed.

Lemma run_fst {A} (m : M A) (h : heap) (o : exn + A) :
  fst (m h) = o -> m h = (o, snd (m h)).
Proof. intros <-. now destruct (m h). Qed.

(** The outcome of the view for a choice in the selection box. *)
Lemma show_project_health_cases (h : heap) (df : ref) (table : list DemandLine)
    (selected : option string) :
  nth_error h df = Some (Study table) ->
  match truthy selected with
  | None => fst (show_project_health df selected h) = inr None
  | Some p =>
      (project_rows p table = [] ->
       fst (show_project_health df selected h) = inr None)
      /\ (project_rows p table <> [] ->
          comparable (nonzero_delays (project_rows p table)) = false ->
          fst (show_project_health df selected h) = inl TypeError)
  end.
Proof.
  intros Hdf. unfold show_project_health.
  destruct (truthy selected) as [p|]; [|reflexivity].
  destruct (calculate_project_status_cases h df table p Hdf) as [Hnil Hraise].
  split.
  - intros Hrows. rewrite (bind_run _ _ _ _ _ (run_fst _ _ _ (Hnil Hrows))).
    reflexivity.
  - intros Hne Hcmp. apply bind_raises. apply (Hraise Hne). now apply max_of_mixed.
Qed.

(** What a returned view tells about the selection. *)
Lemma show_project_health_inv (h h' : heap) (df : ref) (table : list DemandLine)
    (selected : option string) (v : Health.t) :
  nth_error h df = Some (Study table) ->
  show_project_health df selected h = (inr (Some v), h') ->
  exists p,
    truthy selected = Some p
    /\ project_rows p table <> []
    /\ comparable (nonzero_delays (project_rows p table)) = true.
Proof.
  intros Hdf Hrun.
  assert (Hcases := show_project_health_cases h df table selected Hdf).
  rewrite Hrun in Hcases. simpl in Hcases.
  destruct (truthy selected) as [p|]; [|discriminate].
  destruct Hcases as [Hnil Hraise]. exists p. split; [reflexivity|].
  assert (Hne : project_rows p table <> []).
  { intros Hrows. specialize (Hnil Hrows). discriminate. }
  split; [exact Hne|].
  destruct (comparable _) eqn:Hcmp; [reflexivity|].
  specialize (Hraise Hne eq_refl). discriminate.
Qed.

Lemma filter_length_ext {A} (f g : A -> bool) (l : list A) :
  (forall a, In a l -> f a = g a) -> length (filter f l) = length (filter g l).
Proof.
  intros H. now rewrite (filter_ext_in f g l H).
Qed.

Lemma filter_length_split {A} (f g : A -> bool) (l : list A) :
  length (filter f l)
  = length (filter (fun a => negb (g a) && f a) l)
    + length (filter (fun a => g a && f a) l).
Proof.
  induction l as [|a l IH]; simpl; [reflexivity|].
  destruct (g a), (f a); simpl; lia.
Qed.

Lemma labels_partition (rows : list DemandLine) :
  length (labelled "Ready" rows) + length (labelled "Missing" rows)
  + length (labelled "Partial" rows) = length rows.
Proof.
  unfold labelled, get_item_status.
  induction rows as [|r rows IH]; simpl; [reflexivity|].
  destruct (Qeq_bool (balance r) 0), (Qeq_bool (allocated_qty r) 0); simpl; lia.
Qed.

(** X16.  The detail table of the project health view has one line per
    row of the project, each with its label.  The number of lines
    labelled Ready is the Ready count shown above the table and the three
    labels cover the lines; but the Missing count also counts the rows
    that require nothing (balance and allocation both zero), which the
    table labels Ready, and the Partial count is the number of lines
    labelled Partial when no row has a negative balance or allocation. *)
Theorem health_labels_and_counts (h h' : heap) (df : ref)
    (table : list DemandLine) (selected : option string) (v : Health.t) :
  nth_error h df = Some (Study table) ->
  show_project_health df selected h = (inr (Some v), h') ->
  exists p,
    truthy selected = Some p
    /\ let rows := project_rows p table in
       let st := Health.status_info v in
       project_status table p = inr (Some st)
       /\ nth_error h' (Health.details v)
          = Some (Display health_columns (map health_line rows))
       /\ length (labelled "Ready" rows) + length (labelled "Missing" rows)
          + length (labelled "Partial" rows) = total_items st
       /\ length (labelled "Ready" rows) = ready_items st
       /\ length (labelled "Missing" rows)
          + length (filter (fun r => Qeq_bool (balance r) 0
                                     && Qeq_bool (allocated_qty r) 0) rows)
          = missing_items st
       /\ ((forall r, In r rows -> (0 <= balance r)%Q /\ (0 <= allocated_qty r)%Q) ->
           length (labelled "Partial" rows) = partial_items st).
Proof.
  intros Hdf Hrun.
  destruct (show_project_health_inv _ _ _ _ _ _ Hdf Hrun) as (p & Hsel & Hne & Hcmp).
  exists p. split; [exact Hsel|].
  destruct (show_project_health_run h df table selected p Hdf Hsel Hne Hcmp)
    as (v0 & h0 & Hrun0 & Hst & Hlook & _).
  rewrite Hrun in Hrun0. injection Hrun0 as <- <-.
  intros rows st. split; [exact Hst|]. split; [exact Hlook|].
  destruct (project_status_run _ _ _ Hst) as [h1 Hrun1].
  destruct (calculate_project_status_inv [Study table] h1 0 table p _ eq_refl Hrun1)
    as (_ & Ht & Hr & Hp & Hm & _).
  fold rows in Ht, Hr, Hp, Hm. fold st in Ht, Hr, Hp, Hm.
  rewrite Ht, Hr, Hp, Hm. split; [apply labels_partition|].
  split; [|split].
  - apply filter_length_ext. intros r _. unfold get_item_status.
    now destruct (Qeq_bool (balance r) 0), (Qeq_bool (allocated_qty r) 0).
  - rewrite (filter_length_split (fun r => Qeq_bool (allocated_qty r) 0)
                                 (fun r => Qeq_bool (balance r) 0)).
    f_equal. apply filter_length_ext. intros r _. unfold get_item_status.
    now destruct (Qeq_bool (balance r) 0), (Qeq_bool (allocated_qty r) 0).
  - intros Hpos. apply filter_length_ext. intros r Hr'.
    destruct (Hpos r Hr') as [Hb Ha].
    unfold get_item_status, Qgt_bool.
    destruct (Qeq_bool (balance r) 0) eqn:Eb, (Qeq_bool (allocated_qty r) 0) eqn:Ea;
      simpl.
    + apply Qeq_bool_iff in Eb.
      assert (Hle : Qle_bool (balance r) 0 = true) by (apply Qle_bool_iff; lra).
      now rewrite Hle.
    + apply Qeq_bool_iff in Eb.
      assert (Hle : Qle_bool (balance r) 0 = true) by (apply Qle_bool_iff; lra).
      now rewrite Hle.
    + apply Qeq_bool_iff in Ea.
      assert (Hle : Qle_bool (allocated_qty r) 0 = true) by (apply Qle_bool_iff; lra).
      rewrite Hle. now rewrite andb_false_r.
    + assert (Hb' : Qle_bool (balance r) 0 = false).
      { apply not_true_iff_false. intros H. apply Qle_bool_iff in H.
        assert (Heq : (balance r == 0)%Q) by lra.
        apply Qeq_bool_iff in Heq. congruence. }
      assert (Ha' : Qle_bool (allocated_qty r) 0 = false).
      { apply not_true_iff_false. intros H. apply Qle_bool_iff in H.
        assert (Heq : (allocated_qty r == 0)%Q) by lra.
        apply Qeq_bool_iff in Heq. congruence. }
      now rewrite Hb', Ha'.
Qed.

Lemma health_labels_and_counts_witness :
  exists v h',
    show_project_health 0 (Some "P2") [Study p2_table] = (inr (Some v), h')
    /\ length (labelled "Missing" (project_rows "P2" p2_table)) = 0
    /\ missing_items (Health.status_info v) = 1
    /\ length (labelled "Ready" (project_rows "P2" p2_table))
       = ready_items (Health.status_info v).
Proof.
  destruct (show_project_health 0 (Some "P2") [Study p2_table])
    as [[e|[v|]] h'] eqn:Hrun; try (vm_compute in Hrun; discriminate).
  destruct (health_labels_and_counts [Study p2_table] h' 0 p2_table (Some "P2") v
              eq_refl Hrun) as (p & Hsel & _ & _ & _ & Hready & Hmissing & _).
  injection Hsel as <-.
  exists v, h'. split; [reflexivity|]. split; [reflexivity|].
  split; [|exact Hready].
  rewrite <- Hmissing. reflexivity.
Defined.

Lemma in_if_singleton {A} (c : bool) (x y : A) :
  In x (if c then [y] else []) <-> c = true /\ x = y.
Proof.
  destruct c; simpl.
  - split; [intros [<-|[]]; auto | intros [_ ->]; now left].
  - split; [contradiction | intros [H _]; discriminate].
Qed.

Lemma if_singleton_nil {A} (c : bool) (y : A) :
  (if c then [y] else []) = [] <-> c = false.
Proof. destruct c; split; congruence. Qed.

Lemma nonempty_length {A} (l : list A) : negb (empty l) = true <-> 0 < length l.
Proof. destruct l; simpl; split; try lia; discriminate. Qed.

Lemma empty_nil {A} (l : list A) : negb (empty l) = false <-> l = [].
Proof. destruct l; simpl; split; congruence. Qed.

(** X17.  The blocking list of the project health view counts rows: it
    names the missing items exactly when the Missing count is positive,
    the items stuck in QC exactly when the project has a row of supply
    type QC, and the items in goods receipt exactly when it has a row of
    supply type GR_in_process, each with the number of those rows; it is
    empty exactly when there is none of the three. *)
Theorem health_blocking_list (h h' : heap) (df : ref) (table : list DemandLine)
    (selected : option string) (v : Health.t) :
  nth_error h df = Some (Study table) ->
  show_project_health df selected h = (inr (Some v), h') ->
  exists p,
    truthy selected = Some p
    /\ let rows := project_rows p table in
       let st := Health.status_info v in
       (forall n, In (Health.CompletelyMissing n) (Health.blocking v) <->
                  n = missing_items st /\ 0 < n)
       /\ (forall n, In (Health.ItemsStuckInQC n) (Health.blocking v) <->
                     n = length (of_type "QC" rows) /\ 0 < n)
       /\ (forall n, In (Health.ItemsInGRProcess n) (Health.blocking v) <->
                     n = length (of_type "GR_in_process" rows) /\ 0 < n)
       /\ (Health.blocking v = [] <->
           missing_items st = 0 /\ of_type "QC" rows = []
           /\ of_type "GR_in_process" rows = []).
Proof.
  intros Hdf Hrun.
  destruct (show_project_health_inv _ _ _ _ _ _ Hdf Hrun) as (p & Hsel & Hne & Hcmp).
  exists p. split; [exact Hsel|].
  destruct (show_project_health_run h df table selected p Hdf Hsel Hne Hcmp)
    as (v0 & h0 & Hrun0 & _ & _ & Hblock).
  rewrite Hrun in Hrun0. injection Hrun0 as <- <-.
  intros rows st. fold rows in Hblock. fold st in Hblock. rewrite Hblock.
  split; [|split; [|split]].
  - intros n. rewrite !in_app_iff, !in_if_singleton. split.
    + intros [[Hc He]|[[_ He]|[_ He]]]; try discriminate He.
      injection He as ->. apply Nat.ltb_lt in Hc. auto.
    + intros [-> Hn]. left. split; [now apply Nat.ltb_lt | reflexivity].
  - intros n. rewrite !in_app_iff, !in_if_singleton. split.
    + intros [[_ He]|[[Hc He]|[_ He]]]; try discriminate He.
      injection He as ->. apply nonempty_length in Hc. auto.
    + intros [-> Hn]. right. left.
      split; [now apply nonempty_length | reflexivity].
  - intros n. rewrite !in_app_iff, !in_if_singleton. split.
    + intros [[_ He]|[[_ He]|[Hc He]]]; try discriminate He.
      injection He as ->. apply nonempty_length in Hc. auto.
    + intros [-> Hn]. right. right.
      split; [now apply nonempty_length | reflexivity].
  - split.
    + intros H. apply app_eq_nil in H as [H1 H]. apply app_eq_nil in H as [H2 H3].
      apply if_singleton_nil in H1, H2, H3.
      apply Nat.ltb_ge in H1. apply empty_nil in H2, H3.
      repeat split; [lia | assumption | assumption].
    + intros (H1 & H2 & H3). rewrite H1, H2, H3. reflexivity.
Qed.

Lemma health_blocking_list_witness :
  exists v h',
    show_project_health 0 (Some "P1") [Study p1_table] = (inr (Some v), h')
    /\ In (Health.CompletelyMissing 1) (Health.blocking v)
    /\ ~ In (Health.ItemsStuckInQC 0) (Health.blocking v).
Proof.
  destruct (show_project_health 0 (Some "P1") [Study p1_table])
    as [[e|[v|]] h'] eqn:Hrun; try (vm_compute in Hrun; discriminate).
  destruct (health_blocking_list [Study p1_table] h' 0 p1_table (Some "P1") v
              eq_refl Hrun) as (p & Hsel & Hm & Hqc & _).
  cbv zeta in Hm, Hqc.
  exists v, h'. split; [reflexivity|]. split.
  - apply Hm. vm_compute in Hrun. injection Hrun as <- _. simpl. lia.
  - intros Hin. apply Hqc in Hin as [_ Hn]. lia.
Defined.

(** X18.  The project health view shows nothing exactly when nothing is
    selected, the empty name included, or the selected project has no
    row; it raises [TypeError] exactly when the non-zero delays of the
    selected project mix numbers and strings; in every other case it
    shows the status of the project. *)
Theorem project_health_outcomes (h : heap) (df : ref) (table : list DemandLine)
    (selected : option string) :
  nth_error h df = Some (Study table) ->
  let out := fst (show_project_health df selected h) in
  (out = inr None <->
   truthy selected = None
   \/ exists p, truthy selected = Some p /\ project_rows p table = [])
  /\ (out = inl TypeError <->
      exists p, truthy selected = Some p /\ project_rows p table <> []
                /\ comparable (nonzero_delays (project_rows p table)) = false)
  /\ ((exists v, out = inr (Some v)) <->
      exists p, truthy selected = Some p /\ project_rows p table <> []
                /\ comparable (nonzero_delays (project_rows p table)) = true).
Proof.
  intros Hdf out.
  assert (Hcases := show_project_health_cases h df table selected Hdf).
  fold out in Hcases.
  destruct (truthy selected) as [p|] eqn:Hsel.
  - destruct Hcases as [Hnil Hraise].
    destruct (project_rows p table) as [|r0 rows'] eqn:Hrows.
    + rewrite (Hnil eq_refl). split; [|split]; split.
      * intros _. right. now exists p.
      * reflexivity.
      * discriminate.
      * intros (q & [= <-] & Hne & _). now elim Hne.
      * intros [v Hv]. discriminate.
      * intros (q & [= <-] & Hne & _). now elim Hne.
    + assert (Hne : r0 :: rows' <> []) by discriminate.
      destruct (comparable (nonzero_delays (r0 :: rows'))) eqn:Hcmp.
      * destruct (show_project_health_run h df table selected p Hdf Hsel)
          as (v & h' & Hrun & _).
        { now rewrite Hrows. }
        { now rewrite Hrows. }
        assert (Hout : out = inr (Some v)) by (unfold out; now rewrite Hrun).
        rewrite Hout. split; [|split]; split.
        -- discriminate.
        -- intros [H|(q & [= <-] & Hq)]; congruence.
        -- discriminate.
        -- intros (q & [= <-] & _ & Hf). rewrite Hrows in Hf. congruence.
        -- intros _. exists p. rewrite Hrows.
           split; [reflexivity|]. split; [discriminate | exact Hcmp].
        -- intros _. now exists v.
      * rewrite (Hraise Hne eq_refl). split; [|split]; split.
        -- discriminate.
        -- intros [H|(q & [= <-] & Hq)]; congruence.
        -- intros _. exists p. rewrite Hrows.
           split; [reflexivity|]. split; [discriminate | exact Hcmp].
        -- reflexivity.
        -- intros [v Hv]. discriminate.
        -- intros (q & [= <-] & _ & Hf). rewrite Hrows in Hf. congruence.
  - rewrite Hcases. split; [|split]; split.
    + intros _. now left.
    + reflexivity.
    + discriminate.
    + intros (q & Hq & _). discriminate.
    + intros [v Hv]. discriminate.
    + intros (q & Hq & _). discriminate.
Qed.

Lemma project_health_outcomes_witness :
  fst (show_project_health 0 (Some "") [Study p1_table]) = inr None
  /\ fst (show_project_health 0 (Some "P3") [Study p3_table]) = inl TypeError.
Proof.
  split.
  - apply (proj1 (project_health_outcomes [Study p1_table] 0 p1_table (Some "")
                    eq_refl)).
    now left.
  - apply (proj1 (proj2 (project_health_outcomes [Study p3_table] 0 p3_table
                           (Some "P3") eq_refl))).
    exists "P3". split; [reflexivity|]. split; [simpl; discriminate | reflexivity].
Defined.

(** ** show_material_inquiry *)

(** X19.  The material inquiry view never raises.  It shows nothing
    exactly when nothing is selected, the empty code included, or no row
    has the selected item code; otherwise it shows the inquiry that
    [material_inquiry] returns for the item and a table of complete
    details with the eleven columns chosen and one line per row of the
    item, in the order of the table. *)
Theorem material_inquiry_view (h : heap) (df : ref) (table : list DemandLine)
    (selected : option string) :
  nth_error h df = Some (Study table) ->
  (fst (show_material_inquiry df selected h) = inr None <->
   truthy selected = None
   \/ exists c, truthy selected = Some c /\ item_rows c table = [])
  /\ (forall c, truthy selected = Some c -> item_rows c table <> [] ->
      exists inq t h',
        show_material_inquiry df selected h = (inr (Some (inq, t)), h')
        /\ fst (material_inquiry df c h) = inr (Some inq)
        /\ nth_error h' t
           = Some (Display inquiry_columns (map inquiry_line (item_rows c table)))).
Proof.
  intros Hdf.
  assert (Hsome : forall c, truthy selected = Some c -> item_rows c table <> [] ->
      exists inq t h',
        show_material_inquiry df selected h = (inr (Some (inq, t)), h')
        /\ fst (material_inquiry df c h) = inr (Some inq)
        /\ nth_error h' t
           = Some (Display inquiry_columns (map inquiry_line (item_rows c table)))).
  { intros c Hsel Hne.
    assert (Hex : exists r0 rest, item_rows c table = r0 :: rest).
    { destruct (item_rows c table) as [|r0 rest]; [congruence|]. now exists r0, rest. }
    destruct Hex as (r0 & rest & Hrows).
    destruct (material_inquiry_exec h df table c r0 rest Hdf Hrows)
      as (inq & h1 & Hrun & _ & Hitem & _).
    unfold show_material_inquiry. rewrite Hsel.
    rewrite (bind_run _ _ _ _ _ Hrun). vstep. unfold ret.
    exists inq. eexists. eexists. split; [reflexivity|].
    split; [now rewrite Hrun|].
    assert (Hbody :
      map (fun row => [CStr (SEC_order row); CStr (SEC_Number row);
                       CNum (req_qty row); CNum (allocated_qty row);
                       CNum (balance row); CStr (supply_type row);
                       CStr (source row); CStr (locater row);
                       cell_of_date (availability_date row);
                       cell_of_pyval (delay row); cell_of_option (supplier row)])
          (item_rows c table)
      = map inquiry_line (item_rows c table)) by reflexivity.
    rewrite <- Hbody. lookup. }
  split; [|exact Hsome].
  destruct (truthy selected) as [c|] eqn:Hsel.
  - destruct (item_rows c table) as [|r0 rest] eqn:Hrows.
    + split; [intros _; right; now exists c|]. intros _.
      unfold show_material_inquiry. rewrite Hsel.
      assert (Hnone := material_inquiry_none h df table c Hdf Hrows).
      now rewrite (bind_run _ _ _ _ _ (run_fst _ _ _ Hnone)).
    + destruct (Hsome c eq_refl) as (inq & t & h' & Hrun & _).
      { rewrite Hrows. discriminate. }
      rewrite Hrun. simpl. split; [discriminate|].
      intros [H|(c' & [= <-] & Hc)]; [discriminate|].
      rewrite Hrows in Hc. discriminate.
  - split; [intros _; now left|]. intros _.
    unfold show_material_inquiry. now rewrite Hsel.
Qed.

Lemma material_inquiry_view_witness :
  fst (show_material_inquiry 0 (Some "ITM9") [Study itm1_table]) = inr None
  /\ exists inq t h',
       show_material_inquiry 0 (Some "ITM1") [Study itm1_table]
       = (inr (Some (inq, t)), h')
       /\ nth_error h' t
          = Some (Display inquiry_columns (map inquiry_line itm1_table)).
Proof.
  split.
  - apply (proj1 (material_inquiry_view [Study itm1_table] 0 itm1_table
                    (Some "ITM9") eq_refl)).
    right. exists "ITM9". split; reflexivity.
  - destruct (proj2 (material_inquiry_view [Study itm1_table] 0 itm1_table
                       (Some "ITM1") eq_refl) "ITM1" eq_refl)
      as (inq & t & h' & Hrun & _ & Hlook).
    { simpl. discriminate. }
    exists inq, t, h'. split; [exact Hrun | exact Hlook].
Defined.

(** ** show_supplier_performance *)

Lemma supplier_performance_lookup (h : heap) (df r : ref) (o : object) :
  nth_error h r = Some o ->
  nth_error (snd (supplier_performance df h)) r = Some o.
Proof.
  apply preserves_lookup. apply keeps_preserves.
  intros n. apply keeps_supplier_performance.
Qed.

Lemma delayed_of_group (s : string) (table : list DemandLine) :
  delayed_of s table = filter (supplier_is s) (delayed_rows table).
Proof.
  unfold delayed_of, delayed_rows, supplier_rows. rewrite !filter_filter.
  apply filter_ext. intros r. unfold supplier_is, notna.
  destruct (supplier r); simpl; [|reflexivity].
  now rewrite andb_comm.
Qed.

Lemma groupby_supplier_agg_nil (rows : list DemandLine) (stats : list SupplierStat) :
  groupby_supplier_agg rows = inr stats -> (stats = [] <-> suppliers rows = []).
Proof.
  unfold groupby_supplier_agg. intros Hagg.
  destruct (agg_groups_inv _ _ _ Hagg) as [Hkeys _].
  split.
  - intros ->. simpl in Hkeys.
    destruct (suppliers rows) as [|s l] eqn:Hs; [reflexivity|].
    assert (Hin : In s (string_keys (s :: l))) by (apply string_keys_In; now left).
    now rewrite <- Hkeys in Hin.
  - intros Hs. rewrite Hs in Hkeys.
    destruct stats; [reflexivity | discriminate].
Qed.

Lemma suppliers_nil (rows : list DemandLine) :
  (forall r, In r rows -> notna (supplier r) = true) ->
  (suppliers rows = [] <-> rows = []).
Proof.
  intros Hsup. destruct rows as [|r rows]; [tauto|].
  split; [|discriminate]. simpl.
  assert (H := Hsup r (or_introl eq_refl)).
  destruct (supplier r); discriminate.
Qed.

Lemma sort_values_desc_nil {A} (by_ : A -> Q) (l : list A) :
  sort_values_desc by_ l = [] <-> l = [].
Proof.
  split; [|now intros ->]. intros H.
  assert (Hperm := sort_values_desc_perm by_ l). rewrite H in Hperm.
  symmetry in Hperm. now apply Permutation_nil in Hperm.
Qed.

(** The view in terms of the aggregation of the delayed rows. *)
Lemma show_supplier_performance_run (h : heap) (df : ref) (table : list DemandLine)
    (selected : option string) (stats : list SupplierStat) :
  nth_error h df = Some (Study table) ->
  supplier_rows table <> [] ->
  groupby_supplier_agg (delayed_rows table) = inr stats ->
  let ranking := sort_values_desc avg_delay_days stats in
  exists v h',
    show_supplier_performance df selected h = (inr v, h')
    /\ match v with
       | Suppliers.NoData => delayed_rows table = []
       | Suppliers.Rankings r top1 top2 items =>
           delayed_rows table <> []
           /\ nth_error h' r = Some (Stats stats_columns ranking)
           /\ nth_error h' top1 = Some (Stats stats_columns (firstn 10 ranking))
           /\ nth_error h' top2 = Some (Stats stats_columns (firstn 10 ranking))
           /\ match items with
              | None => truthy selected = None
              | Some (rows, lines) =>
                  exists s,
                    truthy selected = Some s
                    /\ nth_error h' rows = Some (Study (delayed_of s table))
                    /\ nth_error h' lines
                       = Some (Display supplier_columns
                                 (map supplier_line (delayed_of s table)))
              end
       end.
Proof.
  intros Hdf Hne Hagg ranking.
  assert (Hcases := supplier_performance_cases h df table Hdf Hne).
  rewrite Hagg in Hcases. destruct Hcases as (r & h1 & Hrun & Hlook).
  fold ranking in Hlook.
  assert (Hdf1 : nth_error h1 df = Some (Study table)).
  { replace h1 with (snd (supplier_performance df h)) by (now rewrite Hrun).
    now apply supplier_performance_lookup. }
  unfold show_supplier_performance. rewrite (bind_run _ _ _ _ _ Hrun).
  vstep.
  assert (Hnil : ranking = [] <-> delayed_rows table = []).
  { unfold ranking. rewrite sort_values_desc_nil.
    rewrite (groupby_supplier_agg_nil _ _ Hagg).
    apply suppliers_nil. apply delayed_rows_supplier. }
  clearbody ranking.
  destruct (empty ranking) eqn:He.
  - unfold ret. eexists. eexists.
    split; [reflexivity|]. apply Hnil. now destruct ranking.
  - assert (Hd : delayed_rows table <> []).
    { intros H. apply Hnil in H. rewrite H in He. discriminate. }
    do 2 vstep.
    destruct (truthy selected) as [s|] eqn:Hsel.
    + do 2 vstep. unfold ret. eexists. eexists. split; [reflexivity|].
      split; [exact Hd|]. split; [lookup|]. split; [lookup|]. split; [lookup|].
      exists s. split; [reflexivity|]. split; [lookup|].
      assert (Hbody :
        map (fun row => [CStr (SEC_order row); CStr (item row);
                         CStr (description row); CNum (allocated_qty row);
                         cell_of_pyval (delay row);
                         cell_of_date (availability_date row);
                         cell_of_date (ROH_delivery row); CStr (locater row)])
            (delayed_of s table)
        = map supplier_line (delayed_of s table)) by reflexivity.
      rewrite <- Hbody. lookup.
    + unfold ret. eexists. eexists. split; [reflexivity|].
      split; [exact Hd|]. split; [lookup|]. split; [lookup|]. split; [lookup|].
      reflexivity.
Qed.

Lemma delayed_rows_of_suppliers (table : list DemandLine) :
  supplier_rows table = [] -> delayed_rows table = [].
Proof. unfold delayed_rows. now intros ->. Qed.

(** X20.  The supplier performance view reports that there is no delay
    data exactly when no row has both a supplier and a delay other than
    [0]; otherwise it shows the ranking and, in both charts, its first ten
    rows.  For the supplier chosen in the selection box the table of
    delayed items has one line per row of that supplier with a delay other
    than [0], in the order of the sheet, and their number is the
    delayed-item count the ranking gives for the supplier. *)
Theorem supplier_view_details (h h' : heap) (df : ref) (table : list DemandLine)
    (selected : option string) (v : Suppliers.View) :
  nth_error h df = Some (Study table) ->
  show_supplier_performance df selected h = (inr v, h') ->
  match v with
  | Suppliers.NoData => delayed_rows table = []
  | Suppliers.Rankings r top1 top2 items =>
      delayed_rows table <> []
      /\ exists ranking,
           nth_error h' r = Some (Stats stats_columns ranking)
           /\ nth_error h' top1 = Some (Stats stats_columns (firstn 10 ranking))
           /\ nth_error h' top2 = Some (Stats stats_columns (firstn 10 ranking))
           /\ match items with
              | None => truthy selected = None
              | Some (rows, lines) =>
                  exists s,
                    truthy selected = Some s
                    /\ nth_error h' rows = Some (Study (delayed_of s table))
                    /\ nth_error h' lines
                       = Some (Display supplier_columns
                                 (map supplier_line (delayed_of s table)))
                    /\ (forall st, In st ranking -> stat_supplier st = s ->
                          delayed_items st = length (delayed_of s table))
                    /\ (In s (map stat_supplier ranking) <->
                        delayed_of s table <> [])
              end
  end.
Proof.
  intros Hdf Hrun.
  destruct (supplier_rows table) as [|r0 rows'] eqn:Hrows.
  - assert (Hnone := supplier_performance_none h df table Hdf Hrows).
    unfold show_supplier_performance in Hrun.
    rewrite (bind_run _ _ _ _ _ (run_fst _ _ _ Hnone)) in Hrun.
    injection Hrun as <- _. now apply delayed_rows_of_suppliers.
  - assert (Hne : supplier_rows table <> []) by (rewrite Hrows; discriminate).
    destruct (groupby_supplier_agg (delayed_rows table)) as [e|stats] eqn:Hagg.
    + assert (Hcases := supplier_performance_cases h df table Hdf Hne).
      rewrite Hagg in Hcases.
      assert (Hraise : fst (show_supplier_performance df selected h) = inl e)
        by (now apply bind_raises).
      rewrite Hrun in Hraise. discriminate.
    + destruct (show_supplier_performance_run h df table selected stats Hdf Hne Hagg)
        as (v0 & h0 & Hrun0 & Hv).
      rewrite Hrun in Hrun0. injection Hrun0 as <- <-.
      destruct v as [|r top1 top2 items]; [exact Hv|].
      destruct Hv as (Hd & Hr & Ht1 & Ht2 & Hitems).
      split; [exact Hd|].
      exists (sort_values_desc avg_delay_days stats).
      repeat (split; [assumption|]).
      destruct items as [[rows lines]|]; [|exact Hitems].
      destruct Hitems as (s & Hsel & Hrows' & Hlines).
      exists s. repeat (split; [assumption|]).
      assert (Hperm := sort_values_desc_perm avg_delay_days stats).
      unfold groupby_supplier_agg in Hagg.
      destruct (agg_groups_inv _ _ _ Hagg) as [Hkeys Hall].
      split.
      * intros st Hst <-.
        assert (Hin : In st stats)
          by (eapply Permutation_in; [symmetry; exact Hperm | exact Hst]).
        rewrite Forall_forall in Hall.
        destruct (agg_group_inv _ _ _ (Hall st Hin)) as (_ & Hcount & _).
        now rewrite Hcount, delayed_of_group.
      * assert (Hs : In s (map stat_supplier (sort_values_desc avg_delay_days stats))
                     <-> In s (map stat_supplier stats)).
        { split; apply Permutation_in; [symmetry|]; now apply Permutation_map. }
        rewrite Hs, Hkeys, string_keys_In, suppliers_In, delayed_of_group.
        rewrite filter_nonempty. split.
        -- intros (row & Hr' & Hsup). exists row. split; [assumption|].
           unfold supplier_is. rewrite Hsup. apply String.eqb_refl.
        -- intros (row & Hr' & Hsup). exists row. split; [assumption|].
           unfold supplier_is in Hsup.
           destruct (supplier row) as [s'|]; [|discriminate].
           apply String.eqb_eq in Hsup. now subst.
Qed.

Lemma supplier_view_details_witness :
  exists r top1 top2 rows lines h' ranking,
    show_supplier_performance 0 (Some "BOLT") [Study p8_table]
    = (inr (Suppliers.Rankings r top1 top2 (Some (rows, lines))), h')
    /\ nth_error h' r = Some (Stats stats_columns ranking)
    /\ nth_error h' rows = Some (Study (delayed_of "BOLT" p8_table))
    /\ length (delayed_of "BOLT" p8_table) = 2
    /\ In "BOLT" (map stat_supplier ranking).
Proof.
  destruct (show_supplier_performance 0 (Some "BOLT") [Study p8_table])
    as [[e|[|r top1 top2 [[rows lines]|]]] h'] eqn:Hrun;
    try (vm_compute in Hrun; discriminate).
  assert (H := supplier_view_details [Study p8_table] h' 0 p8_table (Some "BOLT") _
                 eq_refl Hrun).
  cbv beta iota in H.
  destruct H as (_ & ranking & Hr & _ & _ & s & Hsel & Hrows & _ & _ & Hin).
  injection Hsel as <-.
  exists r, top1, top2, rows, lines, h', ranking.
  split; [reflexivity|]. split; [exact Hr|]. split; [exact Hrows|].
  split; [reflexivity|]. apply Hin. simpl. discriminate.
Defined.

(** ** show_critical_projects *)

Section SortByFacts.
Context {A : Type} (leb : A -> A -> bool).
Hypothesis leb_total : forall a b, leb a b = false -> leb b a = true.

Lemma insert_by_perm (a : A) (l : list A) :
  Permutation (a :: l) (insert_by leb a l).
Proof.
  induction l as [|x l IH]; simpl; [reflexivity|].
  destruct (leb a x); [reflexivity|].
  rewrite perm_swap. now apply perm_skip.
Qed.

Lemma sort_by_perm (l : list A) : Permutation l (sort_by leb l).
Proof.
  induction l as [|a l IH]; simpl; [reflexivity|].
  rewrite <- insert_by_perm. now apply perm_skip.
Qed.

Lemma insert_by_sorted (a : A) (l : list A) :
  Sorted (fun x y => leb x y = true) l ->
  Sorted (fun x y => leb x y = true) (insert_by leb a l).
Proof.
  induction l as [|x l IH]; intros Hs; simpl.
  - repeat constructor.
  - destruct (leb a x) eqn:Hle.
    + constructor; [assumption|]. now constructor.
    + inversion Hs as [|x' l' Hs' Hhd]; subst.
      constructor; [now apply IH|].
      destruct l as [|y l]; simpl.
      * constructor. now apply leb_total.
      * destruct (leb a y).
        -- constructor. now apply leb_total.
        -- constructor. now inversion Hhd.
Qed.

Lemma sort_by_sorted (l : list A) :
  Sorted (fun x y => leb x y = true) (sort_by leb l).
Proof.
  induction l as [|a l IH]; simpl; [constructor|].
  now apply insert_by_sorted.
Qed.
End SortByFacts.

Lemma critical_leb_order (a b : CriticalRow) :
  critical_leb a b = true <-> critical_order a b.
Proof.
  unfold critical_leb, critical_order.
  now rewrite orb_true_iff, andb_true_iff, Z.ltb_lt, Z.eqb_eq, Nat.leb_le.
Qed.

Lemma critical_leb_total (a b : CriticalRow) :
  critical_leb a b = false -> critical_leb b a = true.
Proof.
  intros H. apply critical_leb_order.
  assert (Hn : ~ critical_order a b).
  { intros Ho. apply critical_leb_order in Ho. congruence. }
  unfold critical_order in *. lia.
Qed.

Lemma sort_critical_sorted (l : list CriticalRow) :
  Sorted critical_order (sort_by critical_leb l).
Proof.
  assert (H := sort_by_sorted critical_leb critical_leb_total l).
  induction H as [|a l' Hs IH Hhd]; constructor; [assumption|].
  destruct Hhd; constructor. now apply critical_leb_order.
Qed.

Lemma critical_loop_returns (df : ref) (table : list DemandLine)
    (now : string -> Z) (projects : list string) :
  (forall p, In p projects ->
     project_rows p table <> []
     /\ comparable (nonzero_delays (project_rows p table)) = true) ->
  forall h, nth_error h df = Some (Study table) ->
  exists rows ext,
    critical_loop df now projects h = (inr rows, h ++ ext)
    /\ map cr_Project rows = filter (status_is table Critical) projects
    /\ Forall (critical_row_of table now) rows.
Proof.
  induction projects as [|p projects IH]; intros Hall h Hdf.
  - exists [], []. rewrite app_nil_r. repeat split. constructor.
  - destruct (Hall p (or_introl eq_refl)) as [Hne Hcmp].
    destruct (calculate_project_status_returns h df table p Hdf Hne Hcmp)
      as (st & h1 & Hrun).
    destruct (calculate_project_status_extends h df p) as [ext1 Hext].
    rewrite Hrun in Hext. simpl in Hext. subst h1.
    assert (Hdf1 : nth_error (h ++ ext1) df = Some (Study table)) by lookup.
    destruct (IH (fun q Hq => Hall q (or_intror Hq)) (h ++ ext1) Hdf1)
      as (rows & ext2 & Hloop & Hmap & Hrows).
    assert (Hst := project_status_of_run _ _ _ _ _ _ Hdf Hrun).
    assert (Hs : status_is table Critical p = Status_eqb (status st) Critical)
      by (unfold status_is; now rewrite Hst).
    eexists. exists (ext1 ++ ext2). split; [|split].
    + cbn [critical_loop]. rewrite (bind_run _ _ _ _ _ Hrun).
      rewrite (bind_run _ _ _ _ _ Hloop). unfold ret. now rewrite app_assoc.
    + cbn [filter]. rewrite Hs.
      destruct (status st); simpl; now rewrite Hmap.
    + destruct (status st) eqn:Hstatus; try assumption.
      constructor; [|assumption].
      exists st. simpl. repeat split; assumption.
Qed.

Lemma critical_loop_raises (df : ref) (table : list DemandLine)
    (now : string -> Z) (projects : list string) :
  (forall p, In p projects -> project_rows p table <> []) ->
  (exists p, In p projects
             /\ comparable (nonzero_delays (project_rows p table)) = false) ->
  forall h, nth_error h df = Some (Study table) ->
  fst (critical_loop df now projects h) = inl TypeError.
Proof.
  induction projects as [|p projects IH]; intros Hall Hex h Hdf.
  - now destruct Hex as (p & [] & _).
  - cbn [critical_loop].
    assert (Hne := Hall p (or_introl eq_refl)).
    destruct (comparable (nonzero_delays (project_rows p table))) eqn:Hcmp.
    + destruct (calculate_project_status_returns h df table p Hdf Hne Hcmp)
        as (st & h1 & Hrun).
      assert (Hdf1 : nth_error h1 df = Some (Study table)).
      { replace h1 with (snd (calculate_project_status df p h)) by (now rewrite Hrun).
        now apply calculate_project_status_lookup. }
      rewrite (bind_run _ _ _ _ _ Hrun). apply bind_raises.
      apply IH; [intros q Hq; apply Hall; now right | | exact Hdf1].
      destruct Hex as (q & [<-|Hq] & Hf); [congruence|]. now exists q.
    + apply bind_raises.
      destruct (calculate_project_status_cases h df table p Hdf) as [_ Hraise].
      apply (Hraise Hne). now apply max_of_mixed.
Qed.

Lemma show_critical_projects_raises (h : heap) (df : ref)
    (table : list DemandLine) (now : string -> Z) (selected : option string) :
  nth_error h df = Some (Study table) ->
  comparable_projects table = false ->
  fst (show_critical_projects df now selected h) = inl TypeError.
Proof.
  intros Hdf Hcmp. unfold show_critical_projects.
  vstep. apply bind_raises.
  apply (critical_loop_raises df table).
  - intros p Hp. now apply projects_have_rows.
  - now apply projects_not_comparable.
  - exact Hdf.
Qed.

Lemma show_critical_projects_run (h : heap) (df : ref) (table : list DemandLine)
    (now : string -> Z) (selected : option string) :
  nth_error h df = Some (Study table) ->
  comparable_projects table = true ->
  exists v h',
    show_critical_projects df now selected h = (inr v, h')
    /\ match v with
       | CriticalView.NoCritical => projects_with table Critical = []
       | CriticalView.Listing critical_df items =>
           exists rows,
             nth_error h' critical_df
             = Some (Display critical_columns (map critical_cells rows))
             /\ Permutation (map cr_Project rows) (projects_with table Critical)
             /\ rows <> []
             /\ Forall (critical_row_of table now) rows
             /\ Sorted critical_order rows
             /\ match items with
                | None => truthy selected = None
                | Some (problems, lines) =>
                    exists p,
                      truthy selected = Some p
                      /\ nth_error h' problems = Some (Study (problem_rows p table))
                      /\ nth_error h' lines
                         = Some (Display problem_columns
                                   (map problem_line (problem_rows p table)))
                end
       end.
Proof.
  intros Hdf Hcmp. unfold show_critical_projects. vstep.
  destruct (critical_loop_returns df table now (projects_of table)) with (h := h)
    as (rows & ext & Hloop & Hmap & Hrows).
  { intros p Hp. split; [now apply projects_have_rows|].
    now apply projects_comparable. }
  { exact Hdf. }
  fold (projects_of table). rewrite (bind_run _ _ _ _ _ Hloop).
  fold (projects_with table Critical) in Hmap.
  destruct (empty rows) eqn:He.
  - simpl negb. cbv iota. unfold ret. eexists. eexists. split; [reflexivity|].
    rewrite <- Hmap. now destruct rows.
  - cbn [negb]. do 2 vstep.
    assert (Hperm := sort_by_perm critical_leb rows).
    assert (Hlist :
      Permutation (map cr_Project (sort_by critical_leb rows))
                  (projects_with table Critical)
      /\ sort_by critical_leb rows <> []
      /\ Forall (critical_row_of table now) (sort_by critical_leb rows)
      /\ Sorted critical_order (sort_by critical_leb rows)).
    { split; [|split; [|split]].
      - rewrite <- Hmap. symmetry. now apply Permutation_map.
      - intros Hnil. rewrite Hnil in Hperm. symmetry in Hperm.
        apply Permutation_nil in Hperm. now subst.
      - rewrite Forall_forall in *. intros c Hc. apply Hrows.
        eapply Permutation_in; [symmetry; exact Hperm | exact Hc].
      - apply sort_critical_sorted. }
    destruct Hlist as (H1 & H2 & H3 & H4).
    destruct (truthy selected) as [p|] eqn:Hsel.
    + do 3 vstep. unfold ret. eexists. eexists. split; [reflexivity|].
      exists (sort_by critical_leb rows).
      split; [lookup|]. repeat (split; [assumption|]).
      exists p. split; [reflexivity|].
      assert (Hproblems :
        filter (fun r => Qgt_bool (balance r) 0 || py_ne (delay r) (Num 0))
               (filter (fun r => String.eqb (SEC_order r) p) table)
        = problem_rows p table) by reflexivity.
      rewrite Hproblems. split; [lookup|].
      assert (Hbody :
        map (fun row => [CStr (item row); CStr (description row);
                         CNum (req_qty row); CNum (allocated_qty row);
                         CNum (balance row); CStr (supply_type row);
                         cell_of_pyval (delay row);
                         cell_of_date (availability_date row);
                         cell_of_option (supplier row)])
            (problem_rows p table)
        = map problem_line (problem_rows p table)) by reflexivity.
      rewrite <- Hbody. lookup.
    + unfold ret. eexists. eexists. split; [reflexivity|].
      exists (sort_by critical_leb rows).
      split; [lookup|]. repeat (split; [assumption|]). reflexivity.
Qed.

(** X21.  The critical projects view raises [TypeError] exactly when the
    non-zero delays of some project mix numbers and strings.  When it
    returns, it reports that nothing is critical exactly when no project
    has the status Critical; otherwise its frame lists the critical
    projects, each once and no other, with the figures of their status and
    the whole days left to the SEC delivery (999 without a date), in
    ascending order of the days left and, among equals, in descending
    order of the missing items. *)
Theorem critical_projects_listing (h : heap) (df : ref) (table : list DemandLine)
    (now : string -> Z) (selected : option string) :
  nth_error h df = Some (Study table) ->
  (fst (show_critical_projects df now selected h) = inl TypeError <->
   comparable_projects table = false)
  /\ (forall v h',
      show_critical_projects df now selected h = (inr v, h') ->
      match v with
      | CriticalView.NoCritical => projects_with table Critical = []
      | CriticalView.Listing critical_df _ =>
          exists rows,
            nth_error h' critical_df
            = Some (Display critical_columns (map critical_cells rows))
            /\ rows <> []
            /\ NoDup (map cr_Project rows)
            /\ (forall p, In p (map cr_Project rows) <->
                          In p (projects_with table Critical))
            /\ Forall (critical_row_of table now) rows
            /\ Sorted critical_order rows
      end).
Proof.
  intros Hdf.
  destruct (comparable_projects table) eqn:Hcmp.
  - destruct (show_critical_projects_run h df table now selected Hdf Hcmp)
      as (v0 & h0 & Hrun0 & Hv).
    split.
    + rewrite Hrun0. split; discriminate.
    + intros v h' Hrun. rewrite Hrun in Hrun0. injection Hrun0 as <- <-.
      destruct v as [|critical_df items]; [exact Hv|].
      destruct Hv as (rows & Hlook & Hperm & Hne & Hall & Hsorted & _).
      exists rows. split; [exact Hlook|]. split; [exact Hne|].
      split; [|split; [|split; assumption]].
      * eapply Permutation_NoDup; [symmetry; exact Hperm|].
        apply NoDup_filter. apply unique_NoDup.
      * intros p. split; apply Permutation_in; [|symmetry]; exact Hperm.
  - assert (Hraise := show_critical_projects_raises h df table now selected
                        Hdf Hcmp).
    split.
    + rewrite Hraise. split; reflexivity.
    + intros v h' Hrun. rewrite Hrun in Hraise. discriminate.
Qed.

Lemma critical_projects_listing_witness :
  exists critical_df items h' rows,
    show_critical_projects 0 (fun _ => day) None [Study critical_table]
    = (inr (CriticalView.Listing critical_df items), h')
    /\ nth_error h' critical_df
       = Some (Display critical_columns (map critical_cells rows))
    /\ (forall p, In p (map cr_Project rows) <-> p = "P5" \/ p = "P1")
    /\ Sorted critical_order rows.
Proof.
  destruct (show_critical_projects 0 (fun _ => day) None [Study critical_table])
    as [[e|[|critical_df items]] h'] eqn:Hrun;
    try (vm_compute in Hrun; discriminate).
  assert (H := proj2 (critical_projects_listing [Study critical_table] 0
                        critical_table (fun _ => day) None eq_refl) _ _ Hrun).
  cbv beta iota in H.
  destruct H as (rows & Hlook & _ & _ & Hin & _ & Hsorted).
  exists critical_df, items, h', rows.
  split; [reflexivity|]. split; [exact Hlook|]. split; [|exact Hsorted].
  intros p. rewrite Hin.
  change (projects_with critical_table Critical) with ["P5"; "P1"].
  simpl. split.
  - intros [H|[H|[]]]; subst p; [now left | now right].
  - intros [H|H]; subst p; [now left | now right; left].
Defined.

Lemma series_sum_zero (qs : list Q) :
  (forall q, In q qs -> (q == 0)%Q) -> (series_sum qs == 0)%Q.
Proof.
  induction qs as [|q qs IH]; intros H; simpl; [reflexivity|].
  rewrite (H q (or_introl eq_refl)), IH; [lra|].
  intros q' Hq'. apply H. now right.
Qed.

(** X22.  The deep dive of the critical projects view shows the rows of
    the selected project that have a positive balance or a delay other
    than [0].  For a project of the listing whose rows have no negative
    balance the table is never empty: a critical project has a row that
    is still short. *)
Theorem critical_problem_items (h h' : heap) (df : ref) (table : list DemandLine)
    (now : string -> Z) (selected : option string) (critical_df : ref)
    (items : option (ref * ref)) :
  nth_error h df = Some (Study table) ->
  show_critical_projects df now selected h
  = (inr (CriticalView.Listing critical_df items), h') ->
  match items with
  | None => truthy selected = None
  | Some (problems, lines) =>
      exists p,
        truthy selected = Some p
        /\ nth_error h' problems = Some (Study (problem_rows p table))
        /\ nth_error h' lines
           = Some (Display problem_columns (map problem_line (problem_rows p table)))
        /\ (In p (projects_with table Critical) ->
            (forall r, In r (project_rows p table) -> (0 <= balance r)%Q) ->
            exists r, In r (problem_rows p table) /\ (0 < balance r)%Q)
  end.
Proof.
  intros Hdf Hrun.
  assert (Hcmp : comparable_projects table = true).
  { destruct (comparable_projects table) eqn:Hcmp; [reflexivity|].
    assert (H := show_critical_projects_raises h df table now selected Hdf Hcmp).
    rewrite Hrun in H. discriminate. }
  destruct (show_critical_projects_run h df table now selected Hdf Hcmp)
    as (v0 & h0 & Hrun0 & Hv).
  rewrite Hrun in Hrun0. injection Hrun0 as <- <-.
  destruct Hv as (rows & _ & _ & _ & _ & _ & Hitems).
  destruct items as [[problems lines]|]; [|exact Hitems].
  destruct Hitems as (p & Hsel & Hproblems & Hlines).
  exists p. repeat (split; [assumption|]).
  intros Hcrit Hpos.
  apply filter_In in Hcrit as [_ Hcrit]. unfold status_is in Hcrit.
  destruct (project_status table p) as [e|[st|]] eqn:Hst; try discriminate.
  destruct (project_status_run _ _ _ Hst) as [h1 Hrun1].
  destruct (calculate_project_status_inv [Study table] h1 0 table p _ eq_refl Hrun1)
    as (_ & _ & _ & _ & _ & _ & _ & Hbal & _ & _ & Hstatus).
  destruct (Qeq_bool (total_balance st) 0) eqn:Hzero.
  { rewrite Hstatus in Hcrit. discriminate. }
  destruct (filter (fun r => Qgt_bool (balance r) 0) (project_rows p table))
    as [|r rest] eqn:Hshort.
  - exfalso. assert (Hsum : (total_balance st == 0)%Q).
    { rewrite Hbal. apply series_sum_zero. intros q Hq.
      apply in_map_iff in Hq as (r & <- & Hr).
      assert (Hle : Qgt_bool (balance r) 0 = false).
      { destruct (Qgt_bool (balance r) 0) eqn:Hgt; [|reflexivity].
        assert (Hin : In r (filter (fun r => Qgt_bool (balance r) 0)
                                   (project_rows p table)))
          by (now apply filter_In).
        now rewrite Hshort in Hin. }
      unfold Qgt_bool in Hle. apply negb_false_iff, Qle_bool_iff in Hle.
      specialize (Hpos r Hr). lra. }
    apply Qeq_bool_iff in Hsum. congruence.
  - assert (Hin : In r (filter (fun r => Qgt_bool (balance r) 0)
                               (project_rows p table)))
      by (rewrite Hshort; now left).
    apply filter_In in Hin as [Hr Hgt]. exists r. split.
    + apply filter_In. split; [exact Hr|]. now rewrite Hgt.
    + unfold Qgt_bool in Hgt. apply negb_true_iff in Hgt.
      apply Qnot_le_lt. intros Hle. apply Qle_bool_iff in Hle. congruence.
Qed.

Lemma critical_problem_items_witness :
  exists critical_df problems lines h',
    show_critical_projects 0 (fun _ => day) (Some "P1") [Study critical_table]
    = (inr (CriticalView.Listing critical_df (Some (problems, lines))), h')
    /\ nth_error h' problems = Some (Study (problem_rows "P1" critical_table))
    /\ exists r, In r (problem_rows "P1" critical_table) /\ (0 < balance r)%Q.
Proof.
  destruct (show_critical_projects 0 (fun _ => day) (Some "P1")
              [Study critical_table])
    as [[e|[|critical_df [[problems lines]|]]] h'] eqn:Hrun;
    try (vm_compute in Hrun; discriminate).
  assert (H := critical_problem_items [Study critical_table] h' 0 critical_table
                 (fun _ => day) (Some "P1") critical_df _ eq_refl Hrun).
  cbv beta iota in H. destruct H as (p & Hsel & Hproblems & _ & Hshort).
  injection Hsel as <-.
  exists critical_df, problems, lines, h'.
  split; [reflexivity|]. split; [exact Hproblems|].
  apply Hshort.
  - unfold projects_with. apply filter_In. split; [simpl; tauto | reflexivity].
  - intros r Hr. simpl in Hr. destruct Hr as [<-|[]]. simpl. lra.
Defined.

(** ** show_production_readiness *)

Lemma show_production_readiness_run (h : heap) (df : ref)
    (table : list DemandLine) (min_fulfillment : Z) (show_only_ready : bool) :
  nth_error h df = Some (Study table) ->
  table <> [] ->
  comparable_projects table = true ->
  exists v h' ranking,
    show_production_readiness df min_fulfillment show_only_ready h
    = (inr (Some v), h')
    /\ Permutation (map rd_Project ranking) (projects_of table)
    /\ Forall (row_of_status table) ranking
    /\ Sorted (desc rd_Fulfillment) ranking
    /\ let shown := shown_rows min_fulfillment show_only_ready ranking in
       nth_error h' (ReadinessView.filtered_df v) = Some (Readiness shown)
       /\ ReadinessView.styles v
          = map (fun r => color_fulfillment (rd_Fulfillment r)) shown
       /\ ReadinessView.ready_count v = length (filter fully_covered shown)
       /\ ReadinessView.ready_projects v
          = map rd_Project (filter fully_covered shown).
Proof.
  intros Hdf Hne Hcmp.
  destruct (production_readiness_cases h df table Hdf) as (_ & _ & Hframe).
  destruct (Hframe Hne Hcmp) as (r & h1 & rows & Hrun & Hlook & Hdf1 & Hmap & Hall).
  assert (Hperm := sort_values_desc_perm rd_Fulfillment rows).
  assert (Hsorted := sort_values_desc_sorted rd_Fulfillment rows).
  assert (Hrows : rows <> []).
  { intros ->. simpl in Hmap. unfold projects_of in *.
    destruct table as [|r0 table]; [congruence | discriminate]. }
  assert (Hall' : Forall (row_of_status table) (sort_values_desc rd_Fulfillment rows)).
  { rewrite Forall_forall in *. intros row Hin. apply Hall.
    eapply Permutation_in; [symmetry; exact Hperm | exact Hin]. }
  assert (Hproj : Permutation (map rd_Project (sort_values_desc rd_Fulfillment rows))
                              (projects_of table)).
  { unfold projects_of. rewrite <- Hmap. symmetry. now apply Permutation_map. }
  assert (Hne' : empty (sort_values_desc rd_Fulfillment rows) = false).
  { destruct (sort_values_desc rd_Fulfillment rows) eqn:Hs; [|reflexivity].
    apply sort_values_desc_nil in Hs. congruence. }
  set (ranking := sort_values_desc rd_Fulfillment rows) in *. clearbody ranking.
  unfold show_production_readiness. rewrite (bind_run _ _ _ _ _ Hrun).
  vstep. rewrite Hne'. cbn [negb].
  assert (Hfiltered :
    (if show_only_ready
     then getitem_readiness r fully_covered
     else getitem_readiness r
            (fun row => Qle_bool (inject_Z min_fulfillment) (rd_Fulfillment row))) h1
    = (inr (length h1),
       h1 ++ [Readiness (shown_rows min_fulfillment show_only_ready ranking)])).
  { unfold shown_rows. destruct show_only_ready; now apply getitem_readiness_run. }
  rewrite (bind_run _ _ _ _ _ Hfiltered).
  set (shown := shown_rows min_fulfillment show_only_ready ranking).
  do 5 vstep.
  destruct (0 <? length (filter fully_covered shown)) eqn:Hpos.
  - do 3 vstep. rewrite ?bind_assoc, bind_ret. unfold ret.
    eexists. eexists. exists ranking. split; [reflexivity|].
    repeat (split; [assumption|]).
    cbn [ReadinessView.filtered_df ReadinessView.styles ReadinessView.ready_count
         ReadinessView.ready_projects].
    split; [lookup|]. repeat split.
  - rewrite bind_ret. unfold ret.
    eexists. eexists. exists ranking. split; [reflexivity|].
    repeat (split; [assumption|]).
    cbn [ReadinessView.filtered_df ReadinessView.styles ReadinessView.ready_count
         ReadinessView.ready_projects].
    split; [lookup|]. split; [reflexivity|]. split; [reflexivity|].
    apply Nat.ltb_ge in Hpos. unfold shown in *.
    destruct (filter fully_covered _); [reflexivity | simpl in Hpos; lia].
Qed.

Lemma show_production_readiness_inv (h h' : heap) (df : ref)
    (table : list DemandLine) (min_fulfillment : Z) (show_only_ready : bool)
    (o : option ReadinessView.t) :
  nth_error h df = Some (Study table) ->
  show_production_readiness df min_fulfillment show_only_ready h = (inr o, h') ->
  table <> [] /\ comparable_projects table = true.
Proof.
  intros Hdf Hrun.
  destruct (production_readiness_cases h df table Hdf) as (Hkey & Htype & _).
  split.
  - intros Hnil.
    assert (H : fst (show_production_readiness df min_fulfillment show_only_ready h)
                = inl KeyError) by (apply bind_raises; now apply Hkey).
    rewrite Hrun in H. discriminate.
  - destruct (comparable_projects table); [reflexivity|].
    assert (H : fst (show_production_readiness df min_fulfillment show_only_ready h)
                = inl TypeError) by (apply bind_raises; now apply Htype).
    rewrite Hrun in H. discriminate.
Qed.

Lemma fully_covered_shown (min_fulfillment : Z) (show_only_ready : bool)
    (ranking : list ReadinessRow) :
  (min_fulfillment <= 100)%Z ->
  filter fully_covered (shown_rows min_fulfillment show_only_ready ranking)
  = filter fully_covered ranking.
Proof.
  intros Hmin. unfold shown_rows.
  destruct show_only_ready; rewrite filter_filter; apply filter_ext; intros r.
  - now destruct (fully_covered r).
  - unfold fully_covered. destruct (Qeq_bool (rd_Fulfillment r) 100) eqn:Heq.
    + apply Qeq_bool_iff in Heq. rewrite andb_true_r. apply Qle_bool_iff.
      rewrite Heq. change 100%Q with (inject_Z 100). now rewrite <- Zle_Qle.
    + apply andb_false_r.
Qed.

Lemma NoDup_map_filter {A B} (g : A -> B) (f : A -> bool) (l : list A) :
  NoDup (map g l) -> NoDup (map g (filter f l)).
Proof.
  induction l as [|a l IH]; simpl; intros H; [constructor|].
  inversion H as [|b l' Hnotin Hnd]; subst.
  destruct (f a); simpl; [|now apply IH].
  constructor; [|now apply IH].
  intros Hin. apply Hnotin. apply in_map_iff in Hin as (x & Hx & Hxin).
  apply filter_In in Hxin as [Hxin _]. apply in_map_iff. now exists x.
Qed.

(** The list of ready projects in terms of the ranking. *)
Lemma ready_projects_ranking (h h' : heap) (df : ref) (table : list DemandLine)
    (min_fulfillment : Z) (show_only_ready : bool) (v : ReadinessView.t) :
  nth_error h df = Some (Study table) ->
  show_production_readiness df min_fulfillment show_only_ready h
  = (inr (Some v), h') ->
  (min_fulfillment <= 100)%Z ->
  exists ranking,
    Permutation (map rd_Project ranking) (projects_of table)
    /\ Forall (row_of_status table) ranking
    /\ ReadinessView.ready_count v = length (filter fully_covered ranking)
    /\ ReadinessView.ready_projects v
       = map rd_Project (filter fully_covered ranking).
Proof.
  intros Hdf Hrun Hmin.
  destruct (show_production_readiness_inv _ _ _ _ _ _ _ Hdf Hrun) as [Hne Hcmp].
  destruct (show_production_readiness_run h df table min_fulfillment
              show_only_ready Hdf Hne Hcmp)
    as (v0 & h0 & ranking & Hrun0 & Hperm & Hall & _ & Hview).
  rewrite Hrun in Hrun0. injection Hrun0 as <- <-.
  destruct Hview as (_ & _ & Hcount & Hlist).
  rewrite (fully_covered_shown _ _ _ Hmin) in Hcount, Hlist.
  exists ranking. repeat split; assumption.
Qed.

(** A project of the table is listed exactly when its row of the ranking
    is fully covered. *)
Lemma in_ready_projects (table : list DemandLine) (ranking : list ReadinessRow)
    (p : string) :
  Permutation (map rd_Project ranking) (projects_of table) ->
  Forall (row_of_status table) ranking ->
  In p (map rd_Project (filter fully_covered ranking)) <->
  In p (projects_of table)
  /\ exists st, project_status table p = inr (Some st)
                /\ (fulfillment_pct st == 100)%Q.
Proof.
  intros Hperm Hall. rewrite Forall_forall in Hall. rewrite in_map_iff. split.
  - intros (row & Hp & Hrow). apply filter_In in Hrow as [Hrow Hfull].
    destruct (Hall row Hrow) as (st & Hst & _ & Hpct & _).
    subst p. split.
    + eapply Permutation_in; [exact Hperm | now apply in_map].
    + exists st. split; [exact Hst|].
      rewrite <- Hpct. now apply Qeq_bool_iff.
  - intros (Hp & st & Hst & Hpct).
    assert (Hin : In p (map rd_Project ranking))
      by (eapply Permutation_in; [symmetry; exact Hperm | exact Hp]).
    apply in_map_iff in Hin as (row & Hproj & Hrow).
    exists row. split; [exact Hproj|]. apply filter_In. split; [exact Hrow|].
    destruct (Hall row Hrow) as (st' & Hst' & _ & Hpct' & _).
    rewrite Hproj, Hst in Hst'. injection Hst' as <-.
    unfold fully_covered. rewrite Hpct'. now apply Qeq_bool_iff.
Qed.

(** X23.  The list of ready projects of the production readiness view
    does not depend on its two widgets: whatever the checkbox, and for
    every position of the slider up to 100, it names each project of the
    table whose fulfillment percentage is exactly 100, once, and no other
    project; the number in the heading is the length of the list. *)
Theorem ready_list_ignores_widgets (h h' : heap) (df : ref)
    (table : list DemandLine) (min_fulfillment : Z) (show_only_ready : bool)
    (v : ReadinessView.t) :
  nth_error h df = Some (Study table) ->
  show_production_readiness df min_fulfillment show_only_ready h
  = (inr (Some v), h') ->
  (min_fulfillment <= 100)%Z ->
  ReadinessView.ready_count v = length (ReadinessView.ready_projects v)
  /\ NoDup (ReadinessView.ready_projects v)
  /\ (forall p, In p (ReadinessView.ready_projects v) <->
        In p (projects_of table)
        /\ exists st, project_status table p = inr (Some st)
                      /\ (fulfillment_pct st == 100)%Q).
Proof.
  intros Hdf Hrun Hmin.
  destruct (ready_projects_ranking _ _ _ _ _ _ _ Hdf Hrun Hmin)
    as (ranking & Hperm & Hall & Hcount & Hlist).
  rewrite Hcount, Hlist, length_map. split; [reflexivity|]. split.
  - apply NoDup_map_filter.
    eapply Permutation_NoDup; [symmetry; exact Hperm | apply unique_NoDup].
  - intros p. now apply in_ready_projects.
Qed.

Lemma ready_list_ignores_widgets_witness :
  exists v h',
    show_production_readiness 0 50 false [Study plant_table] = (inr (Some v), h')
    /\ ReadinessView.ready_count v = 2
    /\ (In "P2" (ReadinessView.ready_projects v))
    /\ ~ In "P1" (ReadinessView.ready_projects v).
Proof.
  destruct (show_production_readiness 0 50 false [Study plant_table])
    as [[e|[v|]] h'] eqn:Hrun; try (vm_compute in Hrun; discriminate).
  destruct (ready_list_ignores_widgets [Study plant_table] h' 0 plant_table 50
              false v eq_refl Hrun ltac:(lia)) as (Hcount & _ & Hin).
  exists v, h'. split; [reflexivity|]. split; [|split].
  - vm_compute in Hrun. injection Hrun as <- _. reflexivity.
  - apply Hin. split; [simpl; tauto|].
    destruct (project_status plant_table "P2") as [e|[st|]] eqn:Hst;
      try (vm_compute in Hst; discriminate).
    exists st. split; [reflexivity|].
    vm_compute in Hst. injection Hst as <-. reflexivity.
  - intros H. apply Hin in H as (_ & st & Hst & Hpct).
    vm_compute in Hst. injection Hst as <-. vm_compute in Hpct. discriminate.
Defined.

(** X24.  On a table that keeps required less allocated as the balance of
    every row, the production readiness view lists a project that requires
    something as ready exactly when its status is Ready; a project
    that requires nothing is never listed, whatever its status. *)
Theorem ready_list_and_status (h h' : heap) (df : ref) (table : list DemandLine)
    (min_fulfillment : Z) (show_only_ready : bool) (v : ReadinessView.t) :
  nth_error h df = Some (Study table) ->
  show_production_readiness df min_fulfillment show_only_ready h
  = (inr (Some v), h') ->
  (min_fulfillment <= 100)%Z ->
  balanced table ->
  forall p st,
    In p (projects_of table) ->
    project_status table p = inr (Some st) ->
    ((0 < total_req st)%Q ->
     (In p (ReadinessView.ready_projects v) <-> status st = Ready))
    /\ (~ (0 < total_req st)%Q -> ~ In p (ReadinessView.ready_projects v)).
Proof.
  intros Hdf Hrun Hmin Hbalanced p st Hp Hst.
  destruct (ready_projects_ranking _ _ _ _ _ _ _ Hdf Hrun Hmin)
    as (ranking & Hperm & Hall & _ & Hlist).
  rewrite Hlist, (in_ready_projects table ranking p Hperm Hall).
  destruct (project_status_run _ _ _ Hst) as [h1 Hrun1].
  destruct (calculate_project_status_inv [Study table] h1 0 table p _ eq_refl Hrun1)
    as (_ & _ & _ & _ & _ & Hr & Ha & Hb & Hpct & _ & Hstatus).
  assert (Hbal : (total_balance st == total_req st - total_allocated st)%Q).
  { rewrite Hb, Hr, Ha. apply series_sum_minus. intros r Hin.
    apply in_project_rows in Hin as [Hin _]. now apply Hbalanced. }
  assert (Hready : status st = Ready <-> (total_balance st == 0)%Q).
  { rewrite Hstatus. destruct (Qeq_bool (total_balance st) 0) eqn:Eb.
    - apply Qeq_bool_iff in Eb. tauto.
    - apply Qeq_bool_neq in Eb. split; [|tauto].
      destruct (_ || _); discriminate. }
  split.
  - intros Hpos.
    assert (Hfull : (fulfillment_pct st == 100)%Q <-> status st = Ready).
    { rewrite Hpct.
      replace (Qgt_bool (total_req st) 0) with true
        by (symmetry; now apply Qgt_bool_iff).
      rewrite (percentage_full _ _ Hpos), Hready. split; intros H; lra. }
    split.
    + intros (_ & st' & Hst' & Hpct'). rewrite Hst in Hst'.
      injection Hst' as <-. now apply Hfull.
    + intros Hs. split; [exact Hp|]. exists st. split; [exact Hst|].
      now apply Hfull.
  - intros Hzero (_ & st' & Hst' & Hpct'). rewrite Hst in Hst'.
    injection Hst' as <-. rewrite Hpct in Hpct'.
    replace (Qgt_bool (total_req st) 0) with false in Hpct'.
    + discriminate Hpct'.
    + symmetry. apply not_true_iff_false. intros H.
      apply Qgt_bool_iff in H. contradiction.
Qed.

Lemma ready_list_and_status_witness :
  exists v h' st,
    show_production_readiness 0 100 true [Study plant_table] = (inr (Some v), h')
    /\ project_status plant_table "P1" = inr (Some st)
    /\ status st = Critical
    /\ ~ In "P1" (ReadinessView.ready_projects v).
Proof.
  destruct (show_production_readiness 0 100 true [Study plant_table])
    as [[e|[v|]] h'] eqn:Hrun; try (vm_compute in Hrun; discriminate).
  destruct (project_status plant_table "P1") as [e|[st|]] eqn:Hst;
    try (vm_compute in Hst; discriminate).
  assert (Hbalanced : balanced plant_table).
  { intros r Hr. unfold plant_table in Hr. simpl in Hr.
    repeat (destruct Hr as [<-|Hr]; [simpl; qcompare|]). contradiction. }
  assert (Hp : In "P1" (projects_of plant_table)) by (simpl; tauto).
  destruct (ready_list_and_status [Study plant_table] h' 0 plant_table 100 true v
              eq_refl Hrun ltac:(lia) Hbalanced "P1" st Hp Hst) as [Hiff _].
  assert (Hstatus : status st = Critical)
    by (vm_compute in Hst; injection Hst as <-; reflexivity).
  exists v, h', st. split; [reflexivity|]. split; [reflexivity|].
  split; [exact Hstatus|].
  intros Hin. apply Hiff in Hin.
  - congruence.
  - vm_compute in Hst. injection Hst as <-. reflexivity.
Defined.

(** ** The other views leave the table alone *)

(** X25.  The dashboard, the project health view, the material inquiry
    view, the supplier performance view, the critical projects view and
    the production readiness view leave every object of the heap they
    start from, the input table among them, as it is: the heap after the
    view is the heap before it followed by newly allocated frames, whether
    the view returns or raises.  The only write in place, the Status
    column of the project health view, goes to a copy the view has
    made. *)
Theorem page_views_preserve_table (df : ref) (selected : option string)
    (now : string -> Z) (min_fulfillment : Z) (show_only_ready : bool) :
  preserves (show_dashboard_overview df)
  /\ preserves (show_project_health df selected)
  /\ preserves (show_material_inquiry df selected)
  /\ preserves (show_supplier_performance df selected)
  /\ preserves (show_critical_projects df now selected)
  /\ preserves (show_production_readiness df min_fulfillment show_only_ready).
Proof.
  repeat split; apply keeps_preserves; intros n.
  - apply keeps_show_dashboard_overview.
  - apply keeps_show_project_health.
  - apply keeps_show_material_inquiry.
  - apply keeps_show_supplier_performance.
  - apply keeps_show_critical_projects.
  - apply keeps_show_production_readiness.
Qed.

(** An example: after the project health view of "P1" the table is where
    it was, with the eight frames of the view behind it. *)
Example table_after_project_health :
  exists ext,
    snd (show_project_health 0 (Some "P1") [Study p1_table])
    = [Study p1_table] ++ ext
    /\ length ext = 8.
Proof. eexists. split; reflexivity. Qed.

(** ** The reallocation table of show_push_to_production *)

(** X26.  The reallocation table of the push-to-production view has one
    line per row of the reallocation bucket, with the six columns renamed
    and the Action Required column behind them.  A row of the bucket
    never has the source [free_stock], so the column says "Can
    Reallocate" exactly for the rows whose source is "-" and "Needs
    Approval" for all others. *)
Theorem action_required_labels (h : heap) (items : ref) (rows : list DemandLine)
    (selected : list string) :
  nth_error h items = Some (Study rows) ->
  (forall r, In r rows -> needs_reallocation selected r = true) ->
  exists ext display,
    reallocation_display items h = (inr tt, h ++ ext)
    /\ nth_error (h ++ ext) display
       = Some (Display reallocation_columns (map reallocation_line rows)).
Proof.
  intros Hr Hbucket. unfold reallocation_display.
  change (filter _ ["item"; "description"; "allocated_qty"; "SEC order";
                    "source"; "locater"])
    with ["item"; "description"; "allocated_qty"; "SEC order"; "source"; "locater"].
  change (map rename_column _)
    with ["Item Code"; "Description"; "Qty to Reallocate"; "Project";
          "Source Project"; "Locater"].
  change (isin "Source Project" _) with true. cbv iota.
  erewrite bind_run by (eapply getitem_cols_run; [lookup | reflexivity]).
  erewrite bind_run by apply set_columns_display_run.
  erewrite setitem_apply_run by reflexivity.
  eexists. eexists. rewrite <- (app_assoc _ [_] [_]).
  split; [reflexivity|].
  rewrite app_assoc, map_map.
  assert (Hbody :
    map (fun row =>
           [CStr (item row); CStr (description row); CNum (allocated_qty row);
            CStr (SEC_order row); CStr (source row); CStr (locater row)]
           ++ [action_required (CStr (source row))]) rows
    = map reallocation_line rows).
  { apply map_ext_in. intros r Hin. unfold reallocation_line. simpl. do 6 f_equal.
    specialize (Hbucket r Hin). unfold needs_reallocation in Hbucket.
    apply andb_true_iff in Hbucket as [Hbucket _].
    apply andb_true_iff in Hbucket as [_ Hfree].
    apply negb_true_iff in Hfree. simpl. rewrite Hfree.
    now destruct (String.eqb (source r) "-"). }
  rewrite <- Hbody. apply nth_error_snoc.
Qed.

Lemma action_required_labels_witness :
  exists ext display,
    reallocation_display 0 [Study [from_ProjB]] = (inr tt, [Study [from_ProjB]] ++ ext)
    /\ nth_error ([Study [from_ProjB]] ++ ext) display
       = Some (Display reallocation_columns
                 [[CStr "ITM1"; CStr "-"; CNum 4; CStr "ProjA"; CStr "ProjB";
                   CStr "A-1"; CStr "Needs Approval"]]).
Proof.
  apply (action_required_labels [Study [from_ProjB]] 0 [from_ProjB] ["ProjA"]
           eq_refl).
  intros r [<-|[]]. reflexivity.
Defined.

(** ** Witnesses of the rules on comparable and numeric delays *)

Lemma supplier_performance_numeric_witness :
  exists r h' stats,
    supplier_performance 0 [Study p8_table] = (inr (Some r), h')
    /\ nth_error h' r = Some (Stats stats_columns stats)
    /\ NoDup (map stat_supplier stats)
    /\ Sorted (desc avg_delay_days) stats.
Proof.
  assert (Hne : supplier_rows p8_table <> []) by (simpl; discriminate).
  destruct (supplier_performance_numeric [Study p8_table] 0 p8_table eq_refl Hne
              eq_refl)
    as (r & h' & stats & Hrun & Hlook & _ & Hnd & _ & Hsorted).
  exists r, h', stats.
  split; [exact Hrun|]. split; [exact Hlook|]. split; [exact Hnd | exact Hsorted].
Defined.
